(** * Records gateway: a shallow embedding of [backend/database/crud.py]

    The data-access layer of the knowledge-tracing backend, embedded as
    functions over an explicit relational store.  A table is the list of its
    rows in store order; a query is a pipeline of [filter], [order_by],
    [offset] and [limit] over that list; a function that takes the SQLAlchemy
    session [db] becomes a computation in the [Session] monad, which threads
    the store and carries the Python exception, if one is raised. *)

From Stdlib Require Import ZArith List String Ascii Bool Lia.
From Stdlib Require Import Permutation Sorted DecimalString Floats.
Import ListNotations.
Local Open Scope string_scope.
Local Open Scope Z_scope.

(** ** Python values

    Integers are unbounded ([Z]); a [str] is the sequence of the bytes of
    its UTF-8 encoding. *)

Module Py.

(** [datetime] values, as a count of microseconds.  A [datetime] object is
    always truthy, so [if start_date:] only tests for [None]. *)
Definition datetime := Z.

(** The one exception class the module raises. *)
Inductive exn : Type :=
| ValueError (msg : string).

Definition message (e : exn) : string :=
  match e with ValueError m => m end.

Inductive result (A : Type) : Type :=
| Ok (a : A)
| Raise (e : exn).
Arguments Ok {A} a.
Arguments Raise {A} e.

(** [f"{n}"] for an [int]. *)
Definition str (n : Z) : string := NilZero.string_of_int (Z.to_int n).

(** Truthiness of an [Optional[int]]: [None] and [0] are both falsy. *)
Definition truthy_int (o : option Z) : bool :=
  match o with
  | None => false
  | Some n => negb (n =? 0)
  end.

Definition truthy_nat (o : option nat) : bool :=
  match o with
  | None => false
  | Some n => negb (Nat.eqb n 0)
  end.

(** The values stored in the dictionaries the aggregation queries return. *)
Inductive value : Type :=
| VNone
| VInt (n : Z)
| VFloat (x : float)
| VStr (s : string).

(** A [dict] with string keys, in insertion order. *)
Definition dict := list (string * value).

Fixpoint get (d : dict) (k : string) : option value :=
  match d with
  | [] => None
  | (k', v) :: d' => if String.eqb k k' then Some v else get d' k
  end.

(** *** Floating point: [int / int], [float * int] and [round(x, 2)] *)

(** Conversion of an [int] to the nearest double, exact below [2^53]. *)
Definition float_of_int (n : Z) : float :=
  match n with
  | Z0 => PrimFloat.zero
  | Zpos p => SF2Prim (SpecFloat.binary_normalize 53 1024 (Zpos p) 0 false)
  | Zneg p => SF2Prim (SpecFloat.binary_normalize 53 1024 (Zneg p) 0 false)
  end.

(** True division of two [int]s: the correctly rounded quotient, computed
    here on the converted operands, which are exact below [2^53]. *)
Definition truediv (a b : Z) : float :=
  PrimFloat.div (float_of_int a) (float_of_int b).

(** Rounding of the rational [n / d] ([d > 0]) to the nearest integer, ties
    to the even one. *)
Definition round_half_even (n d : Z) : Z :=
  let q := n / d in
  let r := n mod d in
  if 2 * r <? d then q
  else if d <? 2 * r then q + 1
  else if Z.even q then q else q + 1.

(** [round(x, 2)] on a [float]: the exact binary value of [x] is rounded to
    two decimals, ties to even, and the decimal [q / 100] is read back as
    the nearest double.  A double with no fractional bits is its own
    rounding.  The division reads [q / 100] back exactly as long as [q] is
    below [2^53], which covers every percentage. *)
Definition round2 (x : float) : float :=
  match Prim2SF x with
  | SpecFloat.S754_finite s m e =>
      if 0 <=? e then x
      else
        let q := round_half_even (Zpos m * 100) (2 ^ (- e)) in
        let y := PrimFloat.div (float_of_int q) (float_of_int 100) in
        if s then PrimFloat.opp y else y
  | _ => x
  end.

End Py.

Import Py.

(** ** The store *)

Module Store.

Section Query.
Context {A : Type}.

(** [.first()]: the first row of the query, in store order. *)
Definition first (l : list A) : option A := List.hd_error l.

(** [.offset(skip)] and [.limit(limit)]. *)
Definition offset (skip : nat) (l : list A) : list A := List.skipn skip l.
Definition limit (n : nat) (l : list A) : list A := List.firstn n l.

(** [.count()]. *)
Definition count (l : list A) : Z := Z.of_nat (List.length l).

(** [ORDER BY]: a stable insertion sort along [leb]. *)
Variable leb : A -> A -> bool.

Fixpoint insert (x : A) (l : list A) : list A :=
  match l with
  | [] => [x]
  | y :: l' => if leb x y then x :: y :: l' else y :: insert x l'
  end.

Fixpoint order_by (l : list A) : list A :=
  match l with
  | [] => []
  | x :: l' => insert x (order_by l')
  end.
End Query.

(** The key a store hands out for a new row: one past the largest in use. *)
Definition fresh_id (ids : list Z) : Z :=
  1 + List.fold_right Z.max 0 ids.

(** *** [LIKE] *)

(** ASCII case folding, as the store's [lower()] does it: the letters [A]
    to [Z] only. *)
Definition lower_char (c : ascii) : ascii :=
  let n := nat_of_ascii c in
  if (Nat.leb 65 n && Nat.leb n 90)%bool then ascii_of_nat (n + 32) else c.

Definition lower (s : list ascii) : list ascii := List.map lower_char s.

(** A character of a text: the bytes of one code point in UTF-8. *)
Definition char : Type := list ascii.

Definition char_eqb (a b : char) : bool :=
  if list_eq_dec ascii_dec a b then true else false.

Definition percent : char := ["%"%char].
Definition underscore : char := ["_"%char].

(** The bytes [10xxxxxx] continue a character; the bytes below [128] are a
    character each. *)
Definition is_continuation (b : ascii) : bool :=
  let n := nat_of_ascii b in (Nat.leb 128 n && Nat.ltb n 192)%bool.

Definition is_ascii (b : ascii) : bool := Nat.ltb (nat_of_ascii b) 128.

Definition starts_with_continuation (g : char) : bool :=
  match g with
  | b :: _ => is_continuation b
  | [] => false
  end.

(** The characters of a text given by its bytes: a lead byte takes the
    continuation bytes that follow it. *)
Fixpoint chars (s : list ascii) : list char :=
  match s with
  | [] => []
  | b :: s' =>
      match chars s' with
      | g :: gs =>
          if (starts_with_continuation g && negb (is_ascii b))%bool
          then (b :: g) :: gs
          else [b] :: g :: gs
      | [] => [[b]]
      end
  end.

(** [s LIKE p]: ["%"] stands for any run of characters, ["_"] for any one
    character, and there is no escape character. *)
Fixpoint like (p : list char) : list char -> bool :=
  match p with
  | [] => fun s => match s with [] => true | _ :: _ => false end
  | c :: p' =>
      if char_eqb c percent then
        fix star (s : list char) : bool :=
          (like p' s ||
           match s with
           | [] => false
           | _ :: s' => star s'
           end)%bool
      else if char_eqb c underscore then
        fun s => match s with [] => false | _ :: s' => like p' s' end
      else
        fun s =>
          match s with
          | [] => false
          | d :: s' => (char_eqb c d && like p' s')%bool
          end
  end.

(** [column.ilike(pattern)]: [lower(column) LIKE lower(pattern)]. *)
Definition ilike (column pattern : string) : bool :=
  like (chars (lower (list_ascii_of_string pattern)))
       (chars (lower (list_ascii_of_string column))).

End Store.

(** ** The schema *)

Module models.

Module Class_.
(** Modelled from the spec: the mapped class [models.Class] of
    [backend/database/models.py], which is not among the sources; its columns
    are those of the spec's data model. *)
Record t : Type := mk {
  id : Z;
  name : string;
  description : string;
  created_at : datetime;
  teacher_id : Z
}.
End Class_.

Module Student.
(** Modelled from the spec: the mapped class [models.Student] of
    [backend/database/models.py], which is not among the sources; its columns
    are those of the spec's data model. *)
Record t : Type := mk {
  id : Z;
  first_name : string;
  last_name : string;
  class_id : Z;
  is_deleted : bool;
  deleted_at : option datetime;
  last_interaction_update_timestamp : option datetime
}.
End Student.

Module Skill.
(** Modelled from the spec: the mapped class [models.Skill] of
    [backend/database/models.py], which is not among the sources; its columns
    are those of the spec's data model. *)
Record t : Type := mk {
  id : Z;
  internal_idx : Z;
  original_skill_id : string;
  name : string
}.
End Skill.

Module Problem.
(** Modelled from the spec: the mapped class [models.Problem] of
    [backend/database/models.py], which is not among the sources; its columns
    are those of the spec's data model. *)
Record t : Type := mk {
  id : Z;
  internal_idx : Z;
  original_problem_id : string;
  description_placeholder : string;
  skill_id : Z;
  difficulty_mu_q : float
}.
End Problem.

Module Interaction.
(** Modelled from the spec: the mapped class [models.Interaction] of
    [backend/database/models.py], which is not among the sources; its columns
    are those of the spec's data model. *)
Record t : Type := mk {
  id : Z;
  student_id : Z;
  problem_id : Z;
  skill_id : Z;
  is_correct : bool;
  timestamp : datetime
}.
End Interaction.

End models.

Import models.

(** The committed contents of the database, one list of rows per table. *)
Record DB : Type := mkDB {
  classes : list Class_.t;
  students : list Student.t;
  skills : list Skill.t;
  problems : list Problem.t;
  interactions : list Interaction.t
}.

(** ** The session monad *)

Definition Session (A : Type) : Type := DB -> result A * DB.

Definition ret {A} (a : A) : Session A := fun db => (Ok a, db).

Definition raise {A} (e : exn) : Session A := fun db => (Raise e, db).

Definition bind {A B} (m : Session A) (k : A -> Session B) : Session B :=
  fun db =>
    match m db with
    | (Ok a, db') => k a db'
    | (Raise e, db') => (Raise e, db')
    end.

(** A read-only query. *)
Definition query {A} (q : DB -> A) : Session A := fun db => (Ok (q db), db).

(** A committed write. *)
Definition commit (w : DB -> DB) : Session unit := fun db => (Ok tt, w db).

(** [try: m except ValueError: h]. *)
Definition try_except {A} (m : Session A) (h : Session A) : Session A :=
  fun db =>
    match m db with
    | (Ok a, db') => (Ok a, db')
    | (Raise (ValueError _), db') => h db'
    end.

Declare Scope session_scope.
Delimit Scope session_scope with session.
Notation "x <- m ;; k" := (bind m (fun x => k))
  (at level 61, m at next level, right associativity) : session_scope.
Notation "m ;;; k" := (bind m (fun _ => k))
  (at level 61, right associativity) : session_scope.
Local Open Scope session_scope.

(** ** Writes *)

Definition set_classes (l : list Class_.t) (db : DB) : DB :=
  mkDB l (students db) (skills db) (problems db) (interactions db).

Definition set_students (l : list Student.t) (db : DB) : DB :=
  mkDB (classes db) l (skills db) (problems db) (interactions db).

Definition set_interactions (l : list Interaction.t) (db : DB) : DB :=
  mkDB (classes db) (students db) (skills db) (problems db) l.

(** [db.delete(obj)]: the row with the primary key of [obj] goes.  Nothing
    between a [db.delete] and the [db.commit()] that follows it can raise, so
    the write is applied where it is issued.  What becomes of the
    interactions of a deleted student is set by the relationship options of
    [models.py]; the table of interactions is left as it is. *)
Definition delete_student_row (s : Student.t) : Session unit :=
  commit (fun db =>
    set_students
      (filter (fun r => negb (Student.id r =? Student.id s)) (students db)) db).

Definition delete_class_row (c : Class_.t) : Session unit :=
  commit (fun db =>
    set_classes
      (filter (fun r => negb (Class_.id r =? Class_.id c)) (classes db)) db).

(** An attribute assignment on a loaded row followed by [db.commit()]:
    [UPDATE students SET ... WHERE students.id = ?]. *)
Definition update_student_row (id : Z) (f : Student.t -> Student.t)
  : Session unit :=
  commit (fun db =>
    set_students
      (map (fun r => if Student.id r =? id then f r else r) (students db)) db).

(** [db.add(obj); db.commit(); db.refresh(obj)] for a new interaction: the
    store assigns the key and the row is appended to the table. *)
Definition add_interaction
  (student_id problem_id skill_id : Z) (is_correct : bool) (timestamp : datetime)
  : Session Interaction.t :=
  fun db =>
    let row :=
      Interaction.mk (Store.fresh_id (map Interaction.id (interactions db)))
                     student_id problem_id skill_id is_correct timestamp in
    (Ok row, set_interactions (interactions db ++ [row]) db).

(** [for x in xs: body(x)]. *)
Fixpoint for_each {A} (xs : list A) (body : A -> Session unit) : Session unit :=
  match xs with
  | [] => ret tt
  | x :: xs' => body x ;;; for_each xs' body
  end.

(** ** Request schemas *)

Module schemas.

Module InteractionCreate.
(** Modelled from the spec: the request schema [InteractionCreate] of
    [schemas/interaction_schemas.py], which is not among the sources; its
    fields are the ones [create_interaction] reads. *)
Record t : Type := mk {
  problem_db_id : Z;
  skill_db_id : Z;
  is_correct : bool;
  timestamp : datetime
}.
End InteractionCreate.

Module InteractionCSVRow.
(** Modelled from the spec: the import schema [InteractionCSVRow] of
    [schemas/interaction_schemas.py], which is not among the sources; its
    fields are the ones [create_interaction_from_csv] reads. *)
Record t : Type := mk {
  problem_original_id : string;
  skill_original_id : string;
  is_correct : bool;
  timestamp : datetime
}.
End InteractionCSVRow.

End schemas.

Import schemas.

(** ** CRUD operations for Class *)

Definition get_class (class_id : Z) : Session (option Class_.t) :=
  query (fun db =>
    Store.first (filter (fun c => Class_.id c =? class_id) (classes db))).

(** The rows behind [active_student_count] and [deleted_students]. *)
Definition active_students_of (class_id : Z) (db : DB) : list Student.t :=
  filter (fun s => (Student.class_id s =? class_id)
                   && Bool.eqb (Student.is_deleted s) false)%bool
         (students db).

Definition deleted_students_of (class_id : Z) (db : DB) : list Student.t :=
  filter (fun s => (Student.class_id s =? class_id)
                   && Bool.eqb (Student.is_deleted s) true)%bool
         (students db).

Definition delete_class_message (active_student_count : Z) : string :=
  "Klasse kann nicht gelöscht werden. Bitte erst die "
  ++ str active_student_count ++ " Schüler löschen.".

Definition delete_class (class_id : Z) : Session (option Class_.t) :=
  db_class <- get_class class_id ;;
  match db_class with
  | None => ret None
  | Some c =>
      active_student_count <-
        query (fun db => Store.count (active_students_of class_id db)) ;;
      if 0 <? active_student_count then
        raise (ValueError (delete_class_message active_student_count))
      else
        deleted_students <- query (deleted_students_of class_id) ;;
        for_each deleted_students delete_student_row ;;;
        delete_class_row c ;;;
        ret (Some c)
  end.

(** ** CRUD operations for Student *)

Definition get_student (student_id : Z) : Session (option Student.t) :=
  query (fun db =>
    Store.first (filter (fun s => Student.id s =? student_id) (students db))).

(** [hasattr(models.Student, 'is_deleted')]: the column is part of the
    schema. *)
Definition Student_has_is_deleted : bool := true.

Definition get_students_by_class (class_id : Z) (skip limit : nat)
  : Session (list Student.t) :=
  query (fun db =>
    let q := filter (fun s => Student.class_id s =? class_id) (students db) in
    let q :=
      if Student_has_is_deleted
      then filter (fun s => Bool.eqb (Student.is_deleted s) false) q
      else q in
    Store.limit limit (Store.offset skip q)).

Definition search_students_in_class
  (class_id : Z) (query_ : string) (skip limit : nat)
  : Session (list Student.t) :=
  let search_query := "%" ++ query_ ++ "%" in
  query (fun db =>
    Store.limit limit (Store.offset skip
      (filter (fun s => (Student.class_id s =? class_id)
                        && (Store.ilike (Student.first_name s) search_query
                            || Store.ilike (Student.last_name s) search_query))%bool
              (students db)))).

Definition with_last_interaction (t : datetime) (s : Student.t) : Student.t :=
  Student.mk (Student.id s) (Student.first_name s) (Student.last_name s)
             (Student.class_id s) (Student.is_deleted s) (Student.deleted_at s)
             (Some t).

Definition with_deleted (t : datetime) (s : Student.t) : Student.t :=
  Student.mk (Student.id s) (Student.first_name s) (Student.last_name s)
             (Student.class_id s) true (Some t)
             (Student.last_interaction_update_timestamp s).

(** [now] is the value [datetime.utcnow()] returns during the call. *)
Definition update_student_last_interaction_timestamp
  (now : datetime) (student_id : Z) (timestamp : option datetime)
  : Session (option Student.t) :=
  db_student <- get_student student_id ;;
  match db_student with
  | Some _ =>
      update_student_row student_id
        (with_last_interaction
           (match timestamp with Some t => t | None => now end)) ;;;
      get_student student_id
  | None => ret None
  end.

Definition delete_student (now : datetime) (student_id : Z)
  : Session (option Student.t) :=
  db_student <- get_student student_id ;;
  match db_student with
  | Some _ =>
      update_student_row student_id (with_deleted now) ;;;
      get_student student_id
  | None => ret None
  end.

(** ** CRUD operations for Skill and Problem *)

Definition get_skill_by_original_id (original_skill_id : string)
  : Session (option Skill.t) :=
  query (fun db =>
    Store.first
      (filter (fun k => String.eqb (Skill.original_skill_id k) original_skill_id)
              (skills db))).

Definition get_problem (problem_id : Z) : Session (option Problem.t) :=
  query (fun db =>
    Store.first (filter (fun p => Problem.id p =? problem_id) (problems db))).

Definition get_problem_by_original_id (original_problem_id : string)
  : Session (option Problem.t) :=
  query (fun db =>
    Store.first
      (filter (fun p =>
                 String.eqb (Problem.original_problem_id p) original_problem_id)
              (problems db))).

(** ** CRUD operations for Interaction *)

Definition timestamp_asc (a b : Interaction.t) : bool :=
  Interaction.timestamp a <=? Interaction.timestamp b.

Definition timestamp_desc (a b : Interaction.t) : bool :=
  Interaction.timestamp b <=? Interaction.timestamp a.

(** The eager loading of the [problem] and [skill] relationships changes how
    the rows are fetched, not which rows are returned. *)
Definition get_student_interactions
  (student_id : Z) (limit : option nat) (sort_desc : bool)
  (start_date end_date : option datetime) (skill_id : option Z)
  : Session (list Interaction.t) :=
  query (fun db =>
    let q :=
      filter (fun i => Interaction.student_id i =? student_id)
             (interactions db) in
    let q :=
      match start_date with
      | Some d => filter (fun i => d <=? Interaction.timestamp i) q
      | None => q
      end in
    let q :=
      match end_date with
      | Some d => filter (fun i => Interaction.timestamp i <=? d) q
      | None => q
      end in
    let q :=
      if truthy_int skill_id
      then filter (fun i =>
                     match skill_id with
                     | Some k => Interaction.skill_id i =? k
                     | None => false
                     end) q
      else q in
    let q :=
      if sort_desc
      then Store.order_by timestamp_desc q
      else Store.order_by timestamp_asc q in
    match limit with
    | Some n => if truthy_nat limit then Store.limit n q else q
    | None => q
    end).

Definition problem_not_found_message (problem_db_id : Z) : string :=
  "Problem mit ID " ++ str problem_db_id ++ " nicht gefunden".

Definition skill_mismatch_message (problem_db_id skill_db_id : Z) : string :=
  "Problem " ++ str problem_db_id ++ " gehört nicht zu Skill " ++ str skill_db_id.

Definition create_interaction
  (now : datetime) (interaction : InteractionCreate.t) (student_id : Z)
  : Session Interaction.t :=
  db_problem <- get_problem (InteractionCreate.problem_db_id interaction) ;;
  match db_problem with
  | None =>
      raise (ValueError (problem_not_found_message
                           (InteractionCreate.problem_db_id interaction)))
  | Some p =>
      if negb (Problem.skill_id p =? InteractionCreate.skill_db_id interaction)
      then
        raise (ValueError (skill_mismatch_message
                             (InteractionCreate.problem_db_id interaction)
                             (InteractionCreate.skill_db_id interaction)))
      else
        db_interaction <-
          add_interaction student_id
            (InteractionCreate.problem_db_id interaction)
            (InteractionCreate.skill_db_id interaction)
            (InteractionCreate.is_correct interaction)
            (InteractionCreate.timestamp interaction) ;;
        update_student_last_interaction_timestamp now student_id
          (Some (InteractionCreate.timestamp interaction)) ;;;
        ret db_interaction
  end.

Definition create_interaction_from_csv
  (now : datetime) (csv_row : InteractionCSVRow.t) (student_id : Z)
  : Session (option Interaction.t) :=
  db_problem <-
    get_problem_by_original_id (InteractionCSVRow.problem_original_id csv_row) ;;
  match db_problem with
  | None => ret None
  | Some p =>
      db_skill <-
        get_skill_by_original_id (InteractionCSVRow.skill_original_id csv_row) ;;
      match db_skill with
      | None => ret None
      | Some k =>
          let interaction_data :=
            InteractionCreate.mk (Problem.id p) (Skill.id k)
              (InteractionCSVRow.is_correct csv_row)
              (InteractionCSVRow.timestamp csv_row) in
          try_except
            (i <- create_interaction now interaction_data student_id ;;
             ret (Some i))
            (ret None)
      end
  end.

(** ** Aggregation *)

(** [func.count(func.distinct(column))]. *)
Definition count_distinct (l : list Z) : Z :=
  Store.count (nodup Z.eq_dec l).

(** [func.max(column)], [None] over no rows. *)
Definition max_of (l : list Z) : option Z :=
  match l with
  | [] => None
  | x :: l' => Some (fold_right Z.max x l')
  end.

(** The expression under ["accuracy"]: [round] of a [float] is a [float],
    [round(0, 2)] is the [int] [0]. *)
Definition accuracy_of (total correct : Z) : value :=
  if 0 <? total
  then VFloat (round2 (PrimFloat.mul (truediv correct total) (float_of_int 100)))
  else VInt 0.

Section Statistics.

(** [datetime.isoformat], of Python's standard library. *)
Variable isoformat : datetime -> string.

Definition get_student_statistics (student_id : Z) : Session dict :=
  student <- get_student student_id ;;
  match student with
  | None => ret []
  | Some _ =>
      query (fun db =>
        let own :=
          filter (fun i => Interaction.student_id i =? student_id)
                 (interactions db) in
        let total := Store.count own in
        let correct :=
          Store.count
            (filter (fun i => (Interaction.student_id i =? student_id)
                              && Bool.eqb (Interaction.is_correct i) true)%bool
                    (interactions db)) in
        let skills_practiced := count_distinct (map Interaction.skill_id own) in
        let last_activity := max_of (map Interaction.timestamp own) in
        let problems_attempted :=
          count_distinct (map Interaction.problem_id own) in
        [ ("total_interactions", VInt total);
          ("correct_interactions", VInt correct);
          ("incorrect_interactions", VInt (total - correct));
          ("accuracy", accuracy_of total correct);
          ("skills_practiced", VInt skills_practiced);
          ("problems_attempted", VInt problems_attempted);
          ("last_activity",
           match last_activity with
           | Some t => VStr (isoformat t)
           | None => VNone
           end);
          ("activity_status",
           match last_activity with
           | Some _ => VStr "active"
           | None => VStr "no_activity"
           end) ])
  end.

End Statistics.

(** The grouped subquery: one row [(class_id, student_count)] for each class
    that has an active student. *)
Definition student_count_subquery (db : DB) : list (Z * Z) :=
  let active :=
    filter (fun s => Bool.eqb (Student.is_deleted s) false) (students db) in
  map (fun cid =>
         (cid, Store.count (filter (fun s => Student.class_id s =? cid) active)))
      (nodup Z.eq_dec (map Student.class_id active)).

(** [LEFT OUTER JOIN]: a left row without a partner is kept, with [NULL] for
    the columns of the right side. *)
Definition outerjoin {A B} (on : A -> B -> bool) (l : list A) (r : list B)
  : list (A * option B) :=
  flat_map (fun a =>
              match filter (on a) r with
              | [] => [(a, None)]
              | bs => map (fun b => (a, Some b)) bs
              end) l.

Definition coalesce (o : option Z) (d : Z) : Z :=
  match o with Some n => n | None => d end.

Definition created_at_desc {B} (x y : Class_.t * B) : bool :=
  Class_.created_at (fst y) <=? Class_.created_at (fst x).

Definition get_classes_for_dashboard (teacher_id : Z) (limit : nat)
  : Session (list dict) :=
  query (fun db =>
    let query_result :=
      map (fun row =>
             (Class_.id (fst row), Class_.name (fst row),
              coalesce (option_map snd (snd row)) 0))
        (Store.limit limit
          (Store.order_by created_at_desc
            (filter (fun row => Class_.teacher_id (fst row) =? teacher_id)
              (outerjoin (fun c g => Class_.id c =? fst g)
                         (classes db) (student_count_subquery db))))) in
    map (fun row =>
           match row with
           | (id, name, student_count) =>
               [ ("id", VInt id);
                 ("name", VStr name);
                 ("student_count", VInt student_count) ]
           end)
        query_result).

(** ** The remaining operations

    The operations of [crud.py] on classes, students, skills, problems and
    interactions that the sections above do not cover.  The teacher
    operations and the two password helpers rest on [passlib] and on a table
    of their own, and are left out. *)

Definition set_skills (l : list Skill.t) (db : DB) : DB :=
  mkDB (classes db) (students db) l (problems db) (interactions db).

Definition set_problems (l : list Problem.t) (db : DB) : DB :=
  mkDB (classes db) (students db) (skills db) l (interactions db).

(** [UPDATE classes SET ... WHERE classes.id = ?] and
    [UPDATE problems SET ... WHERE problems.id = ?]. *)
Definition update_class_row (id : Z) (f : Class_.t -> Class_.t) : Session unit :=
  commit (fun db =>
    set_classes
      (map (fun r => if Class_.id r =? id then f r else r) (classes db)) db).

Definition update_problem_row (id : Z) (f : Problem.t -> Problem.t)
  : Session unit :=
  commit (fun db =>
    set_problems
      (map (fun r => if Problem.id r =? id then f r else r) (problems db)) db).

Module schemas2.

Module ClassCreate.
(** Modelled from the spec: the request schema [ClassCreate] of
    [schemas/class_schemas.py], which is not among the sources; its fields
    are the ones [update_class] reads. *)
Record t : Type := mk {
  name : string;
  description : string
}.
End ClassCreate.

Module StudentCreate.
(** Modelled from the spec: the request schema [StudentCreate] of
    [schemas/student_schemas.py], which is not among the sources; its fields
    are the ones [update_student] reads. *)
Record t : Type := mk {
  first_name : string;
  last_name : string
}.
End StudentCreate.

Module SkillCreate.
(** Modelled from the spec: the request schema [SkillCreate] of
    [schemas/skill_schemas.py], which is not among the sources; its fields
    are the ones [create_skill] reads. *)
Record t : Type := mk {
  internal_idx : Z;
  original_skill_id : string;
  name : string
}.
End SkillCreate.

Module ProblemCreate.
(** Modelled from the spec: the request schema [ProblemCreate] of
    [schemas/problem_schemas.py], which is not among the sources; its fields
    are the ones [create_problem] reads. *)
Record t : Type := mk {
  internal_idx : Z;
  original_problem_id : string;
  description_placeholder : string;
  skill_internal_idx : Z;
  difficulty_mu_q : float
}.
End ProblemCreate.

End schemas2.

Import schemas2.

(** *** Class *)

Definition get_classes_by_teacher (teacher_id : Z) (skip limit : nat)
  : Session (list Class_.t) :=
  query (fun db =>
    Store.limit limit (Store.offset skip
      (filter (fun c => Class_.teacher_id c =? teacher_id) (classes db)))).

(** [created_at] is not among the arguments of the constructor call; it is
    the value the column default of [models.py] yields at the insertion, and
    is passed in here as the clock is. *)
Definition create_class_for_teacher
  (created_at : datetime) (class_data : ClassCreate.t) (teacher_id : Z)
  : Session Class_.t :=
  fun db =>
    let row :=
      Class_.mk (Store.fresh_id (map Class_.id (classes db)))
                (ClassCreate.name class_data)
                (ClassCreate.description class_data)
                created_at teacher_id in
    (Ok row, set_classes (classes db ++ [row]) db).

Definition with_name_description (class_update_data : ClassCreate.t)
  (c : Class_.t) : Class_.t :=
  Class_.mk (Class_.id c) (ClassCreate.name class_update_data)
            (ClassCreate.description class_update_data)
            (Class_.created_at c) (Class_.teacher_id c).

Definition update_class (class_id : Z) (class_update_data : ClassCreate.t)
  : Session (option Class_.t) :=
  db_class <- get_class class_id ;;
  match db_class with
  | Some _ =>
      update_class_row class_id (with_name_description class_update_data) ;;;
      get_class class_id
  | None => ret None
  end.

(** *** Student *)

Section StudentDefaults.

(** The values the column defaults of [models.py] give to [is_deleted] and
    [deleted_at] of a new row. *)
Variable default_is_deleted : bool.
Variable default_deleted_at : option datetime.

Definition create_student_in_class
  (now : datetime) (student : StudentCreate.t) (class_id : Z)
  : Session Student.t :=
  fun db =>
    let row :=
      Student.mk (Store.fresh_id (map Student.id (students db)))
                 (StudentCreate.first_name student)
                 (StudentCreate.last_name student)
                 class_id default_is_deleted default_deleted_at (Some now) in
    (Ok row, set_students (students db ++ [row]) db).

End StudentDefaults.

Definition with_names (student_update_data : StudentCreate.t) (s : Student.t)
  : Student.t :=
  Student.mk (Student.id s) (StudentCreate.first_name student_update_data)
             (StudentCreate.last_name student_update_data)
             (Student.class_id s) (Student.is_deleted s) (Student.deleted_at s)
             (Student.last_interaction_update_timestamp s).

Definition update_student (student_id : Z) (student_update_data : StudentCreate.t)
  : Session (option Student.t) :=
  db_student <- get_student student_id ;;
  match db_student with
  | Some _ =>
      update_student_row student_id (with_names student_update_data) ;;;
      get_student student_id
  | None => ret None
  end.

(** *** Skill *)

Definition get_skill (skill_id : Z) : Session (option Skill.t) :=
  query (fun db =>
    Store.first (filter (fun k => Skill.id k =? skill_id) (skills db))).

Definition get_skill_by_internal_idx (internal_idx : Z)
  : Session (option Skill.t) :=
  query (fun db =>
    Store.first
      (filter (fun k => Skill.internal_idx k =? internal_idx) (skills db))).

Definition get_skill_by_name (name : string) : Session (option Skill.t) :=
  query (fun db =>
    Store.first (filter (fun k => String.eqb (Skill.name k) name) (skills db))).

Definition get_skills (skip limit : nat) : Session (list Skill.t) :=
  query (fun db => Store.limit limit (Store.offset skip (skills db))).

(** *** Problem *)

Definition get_problem_by_internal_idx (internal_idx : Z)
  : Session (option Problem.t) :=
  query (fun db =>
    Store.first
      (filter (fun p => Problem.internal_idx p =? internal_idx) (problems db))).

Definition get_problems_by_skill_id (skill_id : Z) (skip limit : nat)
  : Session (list Problem.t) :=
  query (fun db =>
    Store.limit limit (Store.offset skip
      (filter (fun p => Problem.skill_id p =? skill_id) (problems db)))).

Definition get_problems_by_skill_internal_idx
  (skill_internal_idx : Z) (skip limit : nat) : Session (list Problem.t) :=
  skill <- get_skill_by_internal_idx skill_internal_idx ;;
  match skill with
  | None => ret []
  | Some k =>
      query (fun db =>
        Store.limit limit (Store.offset skip
          (filter (fun p => Problem.skill_id p =? Skill.id k) (problems db))))
  end.

(** What a call that ends in an insert comes to: it returns or raises as the
    code says, or the store refuses the row and its [IntegrityError] passes
    through the function, the table staying as it was. *)
Inductive outcome (A : Type) : Type :=
| Returned (r : result A) (db : DB)
| IntegrityError (db : DB).
Arguments Returned {A} r db.
Arguments IntegrityError {A} db.

(** Modelled from the spec: the unique constraints of [models.py], which is
    not among the sources, on the columns [internal_idx] and
    [original_problem_id] of a problem. *)
Definition problem_keys_taken (internal_idx : Z) (original_problem_id : string)
  (db : DB) : bool :=
  existsb (fun p => (Problem.internal_idx p =? internal_idx)
                    || String.eqb (Problem.original_problem_id p)
                                  original_problem_id)%bool
          (problems db).

Definition skill_not_found_message (skill_internal_idx : Z) : string :=
  "Skill mit internal_idx " ++ str skill_internal_idx ++ " nicht gefunden".

Definition create_problem (problem : ProblemCreate.t) (db : DB)
  : outcome Problem.t :=
  match get_skill_by_internal_idx (ProblemCreate.skill_internal_idx problem) db with
  | (Raise e, db') => Returned (Raise e) db'
  | (Ok None, db') =>
      Returned
        (Raise (ValueError (skill_not_found_message
                              (ProblemCreate.skill_internal_idx problem))))
        db'
  | (Ok (Some db_skill), db') =>
      if problem_keys_taken (ProblemCreate.internal_idx problem)
                            (ProblemCreate.original_problem_id problem) db'
      then IntegrityError db'
      else
        let db_problem :=
          Problem.mk (Store.fresh_id (map Problem.id (problems db')))
                     (ProblemCreate.internal_idx problem)
                     (ProblemCreate.original_problem_id problem)
                     (ProblemCreate.description_placeholder problem)
                     (Skill.id db_skill)
                     (ProblemCreate.difficulty_mu_q problem) in
        Returned (Ok db_problem)
                 (set_problems (problems db' ++ [db_problem]) db')
  end.

Definition with_mu_q (mu_q : float) (p : Problem.t) : Problem.t :=
  Problem.mk (Problem.id p) (Problem.internal_idx p)
             (Problem.original_problem_id p) (Problem.description_placeholder p)
             (Problem.skill_id p) mu_q.

Section RealColumn.

(** What the column [difficulty_mu_q] reads back, after [db.refresh], for a
    number written to it.  The engine decides it: an ordinary number comes
    back as it was written, while an engine may give [+0.0] for [-0.0].
    For nan an engine may store no value at all, which Python reads as
    [None]; the model has a number in every row, so nan is left to the
    statements to exclude. *)
Variable stored_real : float -> float.

Definition update_problem_mu_q (problem_internal_idx : Z) (mu_q : float)
  : Session (option Problem.t) :=
  db_problem <- get_problem_by_internal_idx problem_internal_idx ;;
  match db_problem with
  | Some p =>
      update_problem_row (Problem.id p) (with_mu_q (stored_real mu_q)) ;;;
      get_problem (Problem.id p)
  | None => ret None
  end.

End RealColumn.

(** Modelled from the spec: the unique constraints of [models.py], which is
    not among the sources, on the columns [internal_idx] and
    [original_skill_id] of a skill. *)
Definition skill_keys_taken (internal_idx : Z) (original_skill_id : string)
  (db : DB) : bool :=
  existsb (fun k => (Skill.internal_idx k =? internal_idx)
                    || String.eqb (Skill.original_skill_id k) original_skill_id)%bool
          (skills db).

Definition create_skill (skill : SkillCreate.t) (db : DB) : outcome Skill.t :=
  if skill_keys_taken (SkillCreate.internal_idx skill)
                      (SkillCreate.original_skill_id skill) db
  then IntegrityError db
  else
    let db_skill :=
      Skill.mk (Store.fresh_id (map Skill.id (skills db)))
               (SkillCreate.internal_idx skill)
               (SkillCreate.original_skill_id skill)
               (SkillCreate.name skill) in
    Returned (Ok db_skill) (set_skills (skills db ++ [db_skill]) db).

(** *** Interaction *)

Definition get_interaction (interaction_id : Z) : Session (option Interaction.t) :=
  query (fun db =>
    Store.first
      (filter (fun i => Interaction.id i =? interaction_id) (interactions db))).

(** ** Auxiliary definitions for the statements *)

(** The store [delete_class] leaves when it goes through: the loop of
    [db.delete(student)] and the [db.delete(db_class)], written as two
    filters. *)
Definition after_delete_class (class_id : Z) (c : Class_.t) (db : DB) : DB :=
  set_classes
    (filter (fun r => negb (Class_.id r =? Class_.id c)) (classes db))
    (set_students
       (filter (fun r =>
                  negb (existsb (fun x => Student.id r =? Student.id x)
                                (deleted_students_of class_id db)))
               (students db)) db).

(** The row [create_interaction] inserts, and the store it leaves when it
    goes through: the row appended, and the timestamp written to the student
    rows with the key [student_id]. *)
Definition new_interaction
  (interaction : InteractionCreate.t) (student_id : Z) (db : DB)
  : Interaction.t :=
  Interaction.mk (Store.fresh_id (map Interaction.id (interactions db)))
                 student_id
                 (InteractionCreate.problem_db_id interaction)
                 (InteractionCreate.skill_db_id interaction)
                 (InteractionCreate.is_correct interaction)
                 (InteractionCreate.timestamp interaction).

Definition after_create_interaction
  (interaction : InteractionCreate.t) (student_id : Z) (db : DB) : DB :=
  set_students
    (map (fun r =>
            if Student.id r =? student_id
            then with_last_interaction (InteractionCreate.timestamp interaction) r
            else r)
         (students db))
    (set_interactions
       (interactions db ++ [new_interaction interaction student_id db]) db).

(** [name] contains [q] when the case of the letters [A] to [Z] is ignored:
    the characters of the lowered [q] are a run of consecutive characters of
    the lowered [name]. *)
Definition contains_ci (q name : string) : Prop :=
  exists a b : list Store.char,
    Store.chars (Store.lower (list_ascii_of_string name)) =
    (a ++ Store.chars (Store.lower (list_ascii_of_string q)) ++ b)%list.

(** What one character of a pattern stands for: ["%"] for any run of
    characters, ["_"] for any one character, another character for
    itself. *)
Definition stands_for (c : Store.char) (piece : list Store.char) : Prop :=
  if Store.char_eqb c Store.percent then True
  else if Store.char_eqb c Store.underscore then List.length piece = 1%nat
  else piece = [c].

(** A text matches a pattern when it can be cut into pieces, one for each
    character of the pattern, each of them something the character stands
    for. *)
Definition matches (p s : list Store.char) : Prop :=
  exists pieces, Forall2 stands_for p pieces /\ List.concat pieces = s.

(** The name matches [%query%], case of [A] to [Z] ignored. *)
Definition name_matches (q name : string) : Prop :=
  matches (Store.percent
             :: Store.chars (Store.lower (list_ascii_of_string q))
             ++ [Store.percent])%list
          (Store.chars (Store.lower (list_ascii_of_string name))).

(** [y] is [round(x, 2)], said without the algorithm.  The double [x] is a
    zero, an infinity, nan, or [+-m * 2^e].  With fractional bits ([e < 0])
    there is an integer [q] that is nearest to [100 * m * 2^e], the even one
    of two that are equally near, and [y] is the double [q / 100] with the
    sign of [x]; otherwise [y] is [x]. *)
Definition rounds_to_hundredths (x y : float) : Prop :=
  match Prim2SF x with
  | SpecFloat.S754_finite s m e =>
      if e <? 0 then
        exists q : Z,
          2 * Z.abs (q * 2 ^ (- e) - Zpos m * 100) <= 2 ^ (- e)
          /\ (2 * Z.abs (q * 2 ^ (- e) - Zpos m * 100) = 2 ^ (- e) ->
              Z.even q = true)
          /\ y = (let r := PrimFloat.div (float_of_int q) (float_of_int 100) in
                  if s then PrimFloat.opp r else r)
      else y = x
  | _ => y = x
  end.

(** Case folding as the words "case-insensitive" are usually read: the
    letters [A] to [Z] and the capital letters of Latin-1, from [U+00C0] to
    [U+00DE] without the sign [U+00D7], go to their small forms. *)
Definition fold_case (c : Store.char) : Store.char :=
  match c with
  | [b] => [Store.lower_char b]
  | [l; b] =>
      let n := nat_of_ascii b in
      if (Nat.eqb (nat_of_ascii l) 195 && Nat.leb 128 n && Nat.leb n 158
          && negb (Nat.eqb n 151))%bool
      then [l; ascii_of_nat (n + 32)]
      else c
  | _ => c
  end.

(** [name] contains [q] when the case of all these letters is ignored. *)
Definition contains_ignoring_case (q name : string) : Prop :=
  exists a b : list Store.char,
    map fold_case (Store.chars (list_ascii_of_string name)) =
    (a ++ map fold_case (Store.chars (list_ascii_of_string q)) ++ b)%list.

(** A query without the wildcards of [LIKE]. *)
Definition literal (q : string) : Prop :=
  ~ In "%"%char (list_ascii_of_string q)
  /\ ~ In "_"%char (list_ascii_of_string q).

(** The rows the filters of [get_student_interactions] ask for, read off the
    description of the operation rather than off the code: the student's
    interactions that satisfy every filter that is supplied. *)
Definition selected
  (student_id : Z) (start_date end_date : option datetime) (skill_id : option Z)
  (i : Interaction.t) : bool :=
  ((Interaction.student_id i =? student_id)
   && match start_date with
      | Some d => d <=? Interaction.timestamp i
      | None => true
      end
   && match end_date with
      | Some d => Interaction.timestamp i <=? d
      | None => true
      end
   && match skill_id with
      | Some k => Interaction.skill_id i =? k
      | None => true
      end)%bool.

(** Newest first, or oldest first. *)
Definition in_order (sort_desc : bool) (a b : Interaction.t) : Prop :=
  if sort_desc
  then Interaction.timestamp b <= Interaction.timestamp a
  else Interaction.timestamp a <= Interaction.timestamp b.

(** The dictionary [get_classes_for_dashboard] builds for a class, with the
    number of its active students. *)
Definition dashboard_row (db : DB) (c : Class_.t) : dict :=
  [ ("id", VInt (Class_.id c));
    ("name", VStr (Class_.name c));
    ("student_count",
     VInt (Z.of_nat (List.length (active_students_of (Class_.id c) db)))) ].

(** Newest-created first. *)
Definition newer_first (a b : Class_.t) : Prop :=
  Class_.created_at b <= Class_.created_at a.

(** The invariant of the interaction table: the problem of every
    interaction is found, and belongs to the skill the interaction names. *)
Definition skill_consistent (db : DB) : Prop :=
  forall i, In i (interactions db) ->
    exists p, get_problem (Interaction.problem_id i) db = (Ok (Some p), db)
              /\ Problem.skill_id p = Interaction.skill_id i.

(** ** A sample store

    Two teachers, four classes, four students (two of them soft-deleted),
    two skills with a problem each, and four recorded attempts. *)

Module Sample.

Definition class_5a : Class_.t := Class_.mk 1 "5a" "Mathe" 100 7.
Definition class_5b : Class_.t := Class_.mk 2 "5b" "" 200 7.
Definition class_6a : Class_.t := Class_.mk 3 "6a" "" 150 7.
Definition class_7c : Class_.t := Class_.mk 4 "7c" "" 300 8.

Definition ada : Student.t :=
  Student.mk 1 "Ada" "Lovelace" 1 false None (Some 10).
Definition bob : Student.t :=
  Student.mk 2 "Bob" "Stone" 1 true (Some 50) (Some 20).
Definition cy : Student.t :=
  Student.mk 3 "Cy" "Young" 2 true (Some 60) None.
Definition dee : Student.t :=
  Student.mk 4 "Dee" "Adams" 4 false None (Some 30).

Definition addition : Skill.t := Skill.mk 1 0 "S-ADD" "Addition".
Definition multiplication : Skill.t := Skill.mk 2 1 "S-MUL" "Multiplication".

Definition problem_1 : Problem.t := Problem.mk 1 0 "P-1" "" 1 0.5%float.
Definition problem_2 : Problem.t := Problem.mk 2 1 "P-2" "" 2 0.25%float.

Definition attempt_1 : Interaction.t := Interaction.mk 1 1 1 1 true 1000.
Definition attempt_2 : Interaction.t := Interaction.mk 2 1 2 2 false 2000.
Definition attempt_3 : Interaction.t := Interaction.mk 3 1 1 1 true 1500.
Definition attempt_4 : Interaction.t := Interaction.mk 4 4 2 2 true 1200.

Definition db : DB :=
  mkDB [class_5a; class_5b; class_6a; class_7c]
       [ada; bob; cy; dee]
       [addition; multiplication]
       [problem_1; problem_2]
       [attempt_1; attempt_2; attempt_3; attempt_4].

(** Ten attempts of one student, seven of them correct. *)
Definition ten_attempts : DB :=
  mkDB [class_5a] [ada] [addition] [problem_1]
       (map (fun n => Interaction.mk n 1 1 1 (n <=? 7) (1000 + n))
            [1; 2; 3; 4; 5; 6; 7; 8; 9; 10]).

(** Three students of one class whose first names differ in an umlaut and
    in its case. *)
Definition joerg_upper : Student.t := Student.mk 1 "JÖRG" "Maier" 1 false None None.
Definition joerg_lower : Student.t := Student.mk 2 "Jörg" "Huber" 1 false None None.
Definition jurg : Student.t := Student.mk 3 "Jurg" "Kunz" 1 false None None.

Definition umlauts : DB :=
  mkDB [class_5a] [joerg_upper; joerg_lower; jurg] [] [] [].

(** A stand-in for [datetime.isoformat] in the runs below. *)
Definition isoformat (t : datetime) : string := str t.

End Sample.

(** * Properties *)

(** ** Queries *)

Section QueryFacts.
Context {A : Type}.

Lemma first_filter_some (f : A -> bool) (l : list A) (x : A) :
  In x l -> f x = true ->
  exists y, Store.first (filter f l) = Some y /\ In y l /\ f y = true.
Proof.
  induction l as [|a l IH]; simpl; [tauto|].
  intros [->|Hin] Hx.
  - rewrite Hx. exists x. simpl. auto.
  - destruct (f a) eqn:Ha.
    + exists a. simpl. auto.
    + destruct (IH Hin Hx) as (y & Hy & Hiny & Hfy). eauto.
Qed.

Lemma first_filter_none (f : A -> bool) (l : list A) :
  (forall x, In x l -> f x = false) -> Store.first (filter f l) = None.
Proof.
  intros H. induction l as [|a l IH]; simpl; [reflexivity|].
  rewrite (H a (or_introl eq_refl)). apply IH. intros x Hx. apply H. now right.
Qed.

Lemma first_some_inv (f : A -> bool) (l : list A) (y : A) :
  Store.first (filter f l) = Some y -> In y l /\ f y = true.
Proof.
  intros H. apply filter_In. destruct (filter f l); simpl in H; [discriminate|].
  injection H as ->. now left.
Qed.

Lemma first_none_inv (f : A -> bool) (l : list A) :
  Store.first (filter f l) = None -> forall x, In x l -> f x = false.
Proof.
  intros H x Hx. destruct (f x) eqn:Hf; [|reflexivity].
  destruct (first_filter_some f l x Hx Hf) as (y & Hy & _). congruence.
Qed.

Lemma filter_nil_iff (f : A -> bool) (l : list A) :
  filter f l = [] <-> forall x, In x l -> f x = false.
Proof.
  split.
  - intros H x Hx. destruct (f x) eqn:Hf; [|reflexivity].
    assert (In x (filter f l)) by (apply filter_In; auto).
    rewrite H in *. contradiction.
  - intros H. induction l as [|a l IH]; simpl; [reflexivity|].
    rewrite (H a (or_introl eq_refl)). apply IH. intros x Hx. apply H. now right.
Qed.

Lemma count_pos_iff (l : list A) : 0 < Store.count l <-> l <> [].
Proof.
  unfold Store.count. destruct l; simpl; split; intros; try lia; congruence.
Qed.

End QueryFacts.

(** ** Class deletion *)

Lemma active_students_of_In (class_id : Z) (db : DB) (s : Student.t) :
  In s (active_students_of class_id db) <->
  In s (students db) /\ Student.class_id s = class_id
  /\ Student.is_deleted s = false.
Proof.
  unfold active_students_of. rewrite filter_In, andb_true_iff, Z.eqb_eq.
  destruct (Student.is_deleted s); simpl; intuition congruence.
Qed.

Lemma deleted_students_of_In (class_id : Z) (db : DB) (s : Student.t) :
  In s (deleted_students_of class_id db) <->
  In s (students db) /\ Student.class_id s = class_id
  /\ Student.is_deleted s = true.
Proof.
  unfold deleted_students_of. rewrite filter_In, andb_true_iff, Z.eqb_eq.
  destruct (Student.is_deleted s); simpl; intuition congruence.
Qed.

Lemma get_class_found (class_id : Z) (db : DB) (c : Class_.t) :
  In c (classes db) -> Class_.id c = class_id ->
  exists c', get_class class_id db = (Ok (Some c'), db)
             /\ In c' (classes db) /\ Class_.id c' = class_id.
Proof.
  intros Hin Hid. unfold get_class, query.
  destruct (first_filter_some (fun c => Class_.id c =? class_id) (classes db) c Hin)
    as (c' & Hc' & Hin' & Hid'); [now apply Z.eqb_eq|].
  exists c'. rewrite Hc'. apply Z.eqb_eq in Hid'. auto.
Qed.

Lemma get_class_absent (class_id : Z) (db : DB) :
  (forall c, In c (classes db) -> Class_.id c <> class_id) ->
  get_class class_id db = (Ok None, db).
Proof.
  intros H. unfold get_class, query. rewrite first_filter_none; [reflexivity|].
  intros c Hc. apply Z.eqb_neq. now apply H.
Qed.

(** The loop of [db.delete(student)] removes the rows that carry a key of
    the list, and nothing else. *)
Lemma for_each_delete_student_row (xs : list Student.t) (db : DB) :
  for_each xs delete_student_row db =
  (Ok tt,
   set_students
     (filter (fun r => negb (existsb (fun x => Student.id r =? Student.id x) xs))
             (students db)) db).
Proof.
  revert db. induction xs as [|x xs IH]; intros db; simpl.
  - unfold ret, set_students. destruct db; simpl. f_equal. f_equal.
    induction students0 as [|a l IHl]; simpl; congruence.
  - unfold bind at 1. unfold delete_student_row at 1. unfold commit.
    rewrite IH. f_equal. unfold set_students; simpl. f_equal.
    induction (students db) as [|a l IHl]; simpl; [reflexivity|].
    destruct (Student.id a =? Student.id x); simpl; [assumption|].
    destruct (existsb _ xs); simpl; congruence.
Qed.

Lemma delete_class_run (class_id : Z) (db : DB) :
  delete_class class_id db =
  match fst (get_class class_id db) with
  | Ok (Some c) =>
      if 0 <? Store.count (active_students_of class_id db)
      then (Raise (ValueError (delete_class_message
                                 (Store.count (active_students_of class_id db)))),
            db)
      else (Ok (Some c), after_delete_class class_id c db)
  | Ok None => (Ok None, db)
  | Raise e => (Raise e, db)
  end.
Proof.
  unfold delete_class, bind, get_class, query; simpl.
  destruct (Store.first _) as [c|]; [|reflexivity].
  destruct (0 <? _); [reflexivity|].
  rewrite for_each_delete_student_row. reflexivity.
Qed.

(** C1. When the class exists and has at least one active (not soft-deleted)
    student, [delete_class] raises the [ValueError] whose message carries the
    number of active students in decimal, and the store is left as it was:
    the classes and the students are the same rows. *)
Theorem delete_class_with_active_students_raises
  (db : DB) (class_id : Z) (c : Class_.t) (s : Student.t) :
  In c (classes db) -> Class_.id c = class_id ->
  In s (students db) -> Student.class_id s = class_id ->
  Student.is_deleted s = false ->
  exists n db',
    delete_class class_id db =
    (Raise (ValueError ("Klasse kann nicht gelöscht werden. Bitte erst die "
                        ++ str n ++ " Schüler löschen.")), db')
    /\ n = Z.of_nat (List.length (active_students_of class_id db))
    /\ 1 <= n
    /\ db' = db
    /\ classes db' = classes db /\ students db' = students db.
Proof.
  intros Hc Hid Hs Hcls Hact.
  destruct (get_class_found class_id db c Hc Hid) as (c' & Hget & _ & _).
  assert (Hin : In s (active_students_of class_id db))
    by (apply active_students_of_In; auto).
  assert (Hpos : 0 < Store.count (active_students_of class_id db)).
  { apply count_pos_iff. intros E. rewrite E in Hin. contradiction. }
  exists (Store.count (active_students_of class_id db)), db.
  rewrite delete_class_run, Hget. simpl.
  apply Z.ltb_lt in Hpos as Hb. rewrite Hb.
  unfold delete_class_message, Store.count in *.
  repeat split; try reflexivity; lia.
Qed.

Lemma delete_class_with_active_students_raises_witness :
  exists n db',
    delete_class 1 Sample.db =
    (Raise (ValueError ("Klasse kann nicht gelöscht werden. Bitte erst die "
                        ++ str n ++ " Schüler löschen.")), db')
    /\ n = Z.of_nat (List.length (active_students_of 1 Sample.db))
    /\ 1 <= n
    /\ db' = Sample.db
    /\ classes db' = classes Sample.db /\ students db' = students Sample.db.
Proof.
  apply (delete_class_with_active_students_raises
           Sample.db 1 Sample.class_5a Sample.ada).
  - simpl; auto.
  - reflexivity.
  - simpl; auto.
  - reflexivity.
  - reflexivity.
Defined.

Example delete_class_5a_message :
  fst (delete_class 1 Sample.db) =
  Raise (ValueError
           "Klasse kann nicht gelöscht werden. Bitte erst die 1 Schüler löschen.").
Proof. reflexivity. Qed.

Lemma NoDup_map_inj {A B} (f : A -> B) (l : list A) (x y : A) :
  NoDup (map f l) -> In x l -> In y l -> f x = f y -> x = y.
Proof.
  induction l as [|a l IH]; simpl; [tauto|].
  intros Hnd Hx Hy Hf. inversion Hnd as [|? ? Hnotin Hnd']; subst.
  destruct Hx as [->|Hx], Hy as [->|Hy]; auto.
  - exfalso. apply Hnotin. rewrite Hf. now apply in_map.
  - exfalso. apply Hnotin. rewrite <- Hf. now apply in_map.
Qed.

Lemma students_after_delete_class (class_id : Z) (c : Class_.t) (db : DB) (s : Student.t) :
  (forall r, In r (students db) -> Student.class_id r = class_id ->
             Student.is_deleted r = true) ->
  In s (students (after_delete_class class_id c db)) ->
  In s (students db) /\ Student.class_id s <> class_id.
Proof.
  intros Hnone Hin. simpl in Hin. apply filter_In in Hin as [Hin Hkeep].
  split; [assumption|]. intros Hcls.
  apply negb_true_iff in Hkeep.
  assert (Hex : existsb (fun x => Student.id s =? Student.id x)
                        (deleted_students_of class_id db) = true).
  { apply existsb_exists. exists s. split; [|apply Z.eqb_refl].
    apply deleted_students_of_In. auto. }
  congruence.
Qed.

(** C2. When the class exists and none of its students is active,
    [delete_class] returns the class and leaves a store in which no student
    of that class is left, soft-deleted or not, and the class is gone: the
    listing and the search of the class are empty and [get_class] finds
    nothing; the rows that remain are rows of the old store, and under
    unique student keys exactly the students of the other classes remain.
    When no class has the key, [delete_class] returns [None], raises nothing
    and leaves the store as it was. *)
Theorem delete_class_without_active_students (db : DB) (class_id : Z) :
  ((forall c, In c (classes db) -> Class_.id c <> class_id) ->
   delete_class class_id db = (Ok None, db))
  /\
  (forall c,
     In c (classes db) -> Class_.id c = class_id ->
     (forall s, In s (students db) -> Student.class_id s = class_id ->
                Student.is_deleted s = true) ->
     exists c' db',
       delete_class class_id db = (Ok (Some c'), db')
       /\ In c' (classes db) /\ Class_.id c' = class_id
       /\ (forall s, In s (students db') ->
                     In s (students db) /\ Student.class_id s <> class_id)
       /\ (forall r, In r (classes db') <->
                     In r (classes db) /\ Class_.id r <> class_id)
       /\ (forall skip limit,
             get_students_by_class class_id skip limit db' = (Ok [], db'))
       /\ (forall q skip limit,
             search_students_in_class class_id q skip limit db' = (Ok [], db'))
       /\ get_class class_id db' = (Ok None, db')
       /\ (NoDup (map Student.id (students db)) ->
           students db' =
           filter (fun s => negb (Student.class_id s =? class_id)) (students db))).
Proof.
  split.
  - intros Habs. rewrite delete_class_run, get_class_absent by assumption.
    reflexivity.
  - intros c Hc Hid Hnone.
    destruct (get_class_found class_id db c Hc Hid) as (c' & Hget & Hc' & Hid').
    assert (Hzero : active_students_of class_id db = []).
    { apply filter_nil_iff. intros s Hs.
      destruct (Z.eqb_spec (Student.class_id s) class_id) as [E|E]; simpl; auto.
      rewrite (Hnone s Hs E). reflexivity. }
    exists c', (after_delete_class class_id c' db).
    rewrite delete_class_run, Hget, Hzero. simpl.
    assert (Hst : forall s, In s (students (after_delete_class class_id c' db)) ->
                            In s (students db) /\ Student.class_id s <> class_id)
      by (intros s; now apply students_after_delete_class).
    assert (Hcl : forall r, In r (classes (after_delete_class class_id c' db)) <->
                            In r (classes db) /\ Class_.id r <> class_id).
    { intros r. simpl. rewrite filter_In, negb_true_iff, Z.eqb_neq, Hid'.
      reflexivity. }
    assert (Hcf : filter (fun s => Student.class_id s =? class_id)
                         (students (after_delete_class class_id c' db)) = []).
    { apply filter_nil_iff. intros s Hs. apply Z.eqb_neq. now apply Hst. }
    repeat split; auto; try (now apply Hst); try (now apply Hcl).
    + intros skip limit. unfold get_students_by_class, query.
      unfold Student_has_is_deleted. rewrite Hcf. simpl.
      now rewrite skipn_nil, firstn_nil.
    + intros q skip limit. unfold search_students_in_class, query.
      replace (filter _ (students _)) with (@nil Student.t).
      * now rewrite skipn_nil, firstn_nil.
      * symmetry. apply filter_nil_iff. intros s Hs.
        destruct (Z.eqb_spec (Student.class_id s) class_id) as [E|E]; auto.
        exfalso. apply (proj2 (Hst s Hs) E).
    + apply get_class_absent. intros r Hr. now apply Hcl.
    + intros Hnd. simpl. apply filter_ext_in. intros r Hr. f_equal.
      destruct (Z.eqb_spec (Student.class_id r) class_id) as [E|E].
      * apply existsb_exists. exists r. split; [|apply Z.eqb_refl].
        apply deleted_students_of_In. auto.
      * apply not_true_is_false. intros Hex.
        apply existsb_exists in Hex as (x & Hx & Hidx).
        apply deleted_students_of_In in Hx as (Hx & Hxc & _).
        apply Z.eqb_eq in Hidx.
        assert (r = x) by (eapply NoDup_map_inj; eauto). subst. contradiction.
Qed.

Lemma delete_class_without_active_students_witness :
  delete_class 99 Sample.db = (Ok None, Sample.db)
  /\ exists c' db',
       delete_class 2 Sample.db = (Ok (Some c'), db')
       /\ Class_.id c' = 2
       /\ get_class 2 db' = (Ok None, db')
       /\ students db' = [Sample.ada; Sample.bob; Sample.dee].
Proof.
  split.
  - apply (proj1 (delete_class_without_active_students Sample.db 99)).
    intros c H. simpl in H.
    destruct H as [<-|[<-|[<-|[<-|[]]]]]; simpl; lia.
  - destruct (proj2 (delete_class_without_active_students Sample.db 2)
                    Sample.class_5b)
      as (c' & db' & Hrun & _ & Hid & _ & _ & _ & _ & Hget & Hrest).
    + simpl; auto.
    + reflexivity.
    + intros s H. simpl in H.
      destruct H as [<-|[<-|[<-|[<-|[]]]]]; simpl; intros; try reflexivity; lia.
    + exists c', db'. repeat split; try assumption.
      rewrite Hrest; [reflexivity|].
      simpl. repeat constructor; simpl; intuition lia.
Defined.

(** ** Recording an interaction *)

Lemma map_update_absent (student_id : Z) (f : Student.t -> Student.t)
  (l : list Student.t) :
  Store.first (filter (fun s => Student.id s =? student_id) l) = None ->
  map (fun r => if Student.id r =? student_id then f r else r) l = l.
Proof.
  intros H. induction l as [|a l IH]; simpl in *; [reflexivity|].
  destruct (Student.id a =? student_id); simpl in H; [discriminate|].
  now rewrite IH.
Qed.

Lemma first_after_update (student_id : Z) (f : Student.t -> Student.t)
  (l : list Student.t) :
  (forall r, Student.id (f r) = Student.id r) ->
  Store.first
    (filter (fun s => Student.id s =? student_id)
            (map (fun r => if Student.id r =? student_id then f r else r) l)) =
  option_map f (Store.first (filter (fun s => Student.id s =? student_id) l)).
Proof.
  intros Hid. induction l as [|a l IH]; simpl; [reflexivity|].
  destruct (Student.id a =? student_id) eqn:E.
  - rewrite Hid, E. reflexivity.
  - rewrite E. exact IH.
Qed.

Lemma set_students_same (db : DB) : set_students (students db) db = db.
Proof. now destruct db. Qed.

Lemma update_student_last_interaction_timestamp_run
  (now : datetime) (student_id : Z) (timestamp : option datetime) (db : DB) :
  let t := match timestamp with Some t => t | None => now end in
  update_student_last_interaction_timestamp now student_id timestamp db =
  (Ok (option_map (with_last_interaction t)
         (Store.first (filter (fun s => Student.id s =? student_id)
                              (students db)))),
   set_students
     (map (fun r => if Student.id r =? student_id
                    then with_last_interaction t r else r)
          (students db)) db).
Proof.
  intros t. unfold update_student_last_interaction_timestamp, bind, get_student,
    query, update_student_row, commit, ret.
  destruct (Store.first _) as [s|] eqn:E; simpl.
  - rewrite first_after_update by reflexivity. fold t. rewrite E. reflexivity.
  - rewrite map_update_absent by assumption. now rewrite set_students_same.
Qed.

Lemma create_interaction_run
  (now : datetime) (interaction : InteractionCreate.t) (student_id : Z) (db : DB) :
  create_interaction now interaction student_id db =
  match fst (get_problem (InteractionCreate.problem_db_id interaction) db) with
  | Ok None =>
      (Raise (ValueError (problem_not_found_message
                            (InteractionCreate.problem_db_id interaction))), db)
  | Ok (Some p) =>
      if Problem.skill_id p =? InteractionCreate.skill_db_id interaction
      then (Ok (new_interaction interaction student_id db),
            after_create_interaction interaction student_id db)
      else
        (Raise (ValueError (skill_mismatch_message
                              (InteractionCreate.problem_db_id interaction)
                              (InteractionCreate.skill_db_id interaction))), db)
  | Raise e => (Raise e, db)
  end.
Proof.
  unfold create_interaction, bind at 1. unfold get_problem, query; simpl.
  destruct (Store.first _) as [p|]; [|reflexivity].
  destruct (Problem.skill_id p =? _); simpl; [|reflexivity].
  unfold bind at 1. unfold add_interaction at 1.
  unfold bind. rewrite update_student_last_interaction_timestamp_run.
  reflexivity.
Qed.

(** C3. [create_interaction] raises the [ValueError] that reports the
    problem as not found when no problem has the key [problem_db_id], and
    the [ValueError] that reports the mismatch when the problem found belongs
    to another skill than [skill_db_id]; in both cases the store is the one
    before the call, so no interaction was inserted and no student row
    changed. *)
Theorem create_interaction_rejects
  (now : datetime) (db : DB) (interaction : InteractionCreate.t)
  (student_id : Z) :
  let problem_id := InteractionCreate.problem_db_id interaction in
  let skill_id := InteractionCreate.skill_db_id interaction in
  ((forall p, In p (problems db) -> Problem.id p <> problem_id) ->
   create_interaction now interaction student_id db =
   (Raise (ValueError ("Problem mit ID " ++ str problem_id ++ " nicht gefunden")),
    db))
  /\
  (forall p,
     get_problem problem_id db = (Ok (Some p), db) ->
     Problem.skill_id p <> skill_id ->
     create_interaction now interaction student_id db =
     (Raise (ValueError ("Problem " ++ str problem_id
                         ++ " gehört nicht zu Skill " ++ str skill_id)),
      db)).
Proof.
  intros problem_id skill_id. split.
  - intros Habs. rewrite create_interaction_run.
    unfold get_problem, query; simpl.
    rewrite first_filter_none; [reflexivity|].
    intros p Hp. apply Z.eqb_neq. now apply Habs.
  - intros p Hget Hne. rewrite create_interaction_run.
    fold problem_id. rewrite Hget. simpl. fold skill_id.
    apply Z.eqb_neq in Hne. rewrite Hne. reflexivity.
Qed.

Lemma create_interaction_rejects_witness :
  create_interaction 0 (InteractionCreate.mk 9 1 true 5000) 1 Sample.db =
  (Raise (ValueError "Problem mit ID 9 nicht gefunden"), Sample.db)
  /\
  create_interaction 0 (InteractionCreate.mk 1 2 true 5000) 1 Sample.db =
  (Raise (ValueError "Problem 1 gehört nicht zu Skill 2"), Sample.db).
Proof.
  split.
  - apply (proj1 (create_interaction_rejects
                    0 Sample.db (InteractionCreate.mk 9 1 true 5000) 1)).
    intros p H. simpl in H. destruct H as [<-|[<-|[]]]; simpl; lia.
  - apply (proj2 (create_interaction_rejects
                    0 Sample.db (InteractionCreate.mk 1 2 true 5000) 1)
                 Sample.problem_1).
    + reflexivity.
    + simpl; lia.
Defined.

Lemma fresh_id_above (ids : list Z) (k : Z) :
  In k ids -> k < Store.fresh_id ids.
Proof.
  unfold Store.fresh_id. induction ids as [|a l IH]; [intros []|].
  cbn [fold_right]. intros [->|H]; [lia|]. specialize (IH H). lia.
Qed.

(** C4. When the problem is found and belongs to the skill supplied,
    [create_interaction] returns a row that carries the [student_id], the
    problem, the skill, the correctness flag and the timestamp [T] of the
    request; the row is appended to the table under a key no older row has;
    and afterwards every student row with the key [student_id] has [T] as
    [last_interaction_update_timestamp], whatever the clock [now] shows:
    looking the student up returns the old row with that one field set. *)
Theorem create_interaction_records
  (now : datetime) (db : DB) (interaction : InteractionCreate.t)
  (student_id : Z) (p : Problem.t) :
  let T := InteractionCreate.timestamp interaction in
  get_problem (InteractionCreate.problem_db_id interaction) db = (Ok (Some p), db) ->
  Problem.skill_id p = InteractionCreate.skill_db_id interaction ->
  exists i db',
    create_interaction now interaction student_id db = (Ok i, db')
    /\ Interaction.student_id i = student_id
    /\ Interaction.problem_id i = InteractionCreate.problem_db_id interaction
    /\ Interaction.skill_id i = InteractionCreate.skill_db_id interaction
    /\ Interaction.is_correct i = InteractionCreate.is_correct interaction
    /\ Interaction.timestamp i = T
    /\ interactions db' = (interactions db ++ [i])%list
    /\ In i (interactions db')
    /\ (forall j, In j (interactions db) -> Interaction.id j <> Interaction.id i)
    /\ (forall s, get_student student_id db = (Ok (Some s), db) ->
                  get_student student_id db' =
                  (Ok (Some (with_last_interaction T s)), db'))
    /\ (forall s, In s (students db') -> Student.id s = student_id ->
                  Student.last_interaction_update_timestamp s = Some T).
Proof.
  intros T Hget Hskill.
  exists (new_interaction interaction student_id db),
         (after_create_interaction interaction student_id db).
  rewrite create_interaction_run, Hget. simpl.
  apply Z.eqb_eq in Hskill. rewrite Hskill.
  repeat split.
  - apply in_or_app. right. now left.
  - intros j Hj Heq.
    apply (in_map Interaction.id) in Hj. apply fresh_id_above in Hj.
    rewrite Heq in Hj. unfold new_interaction in Hj.
    cbn [Interaction.id] in Hj. lia.
  - intros s Hs. unfold get_student, query in *. simpl.
    rewrite first_after_update by reflexivity.
    injection Hs as Hs. rewrite Hs. reflexivity.
  - intros s Hs Hid. simpl in Hs. apply in_map_iff in Hs as (r & Hr & _).
    destruct (Student.id r =? student_id) eqn:E; subst s; [reflexivity|].
    apply Z.eqb_neq in E. contradiction.
Qed.

Lemma create_interaction_records_witness :
  exists i db',
    create_interaction 77 (InteractionCreate.mk 2 2 false 5000) 1 Sample.db
    = (Ok i, db')
    /\ i = Interaction.mk 5 1 2 2 false 5000
    /\ In i (interactions db')
    /\ get_student 1 db' =
       (Ok (Some (Student.mk 1 "Ada" "Lovelace" 1 false None (Some 5000))), db').
Proof.
  destruct (create_interaction_records
              77 Sample.db (InteractionCreate.mk 2 2 false 5000) 1
              Sample.problem_2 eq_refl eq_refl)
    as (i & db' & Hrun & _ & _ & _ & _ & _ & _ & Hin & _ & Hstu & _).
  exists i, db'. split; [exact Hrun|].
  split; [|split; [exact Hin|exact (Hstu Sample.ada eq_refl)]].
  vm_compute in Hrun. congruence.
Defined.

(** ** Importing a row *)

(** Case analysis on the [.first()] of a filter over the table [tbl]. *)
Ltac case_first tbl :=
  match goal with
  | |- context [Store.first (filter ?f tbl)] =>
      destruct (Store.first (filter f tbl))
  end.

Lemma create_interaction_raise_keeps_store
  (now : datetime) (interaction : InteractionCreate.t) (student_id : Z)
  (db db1 : DB) (e : exn) :
  create_interaction now interaction student_id db = (Raise e, db1) -> db1 = db.
Proof.
  rewrite create_interaction_run.
  destruct (fst (get_problem _ db)) as [[p|]|e'];
    try destruct (Problem.skill_id p =? _); congruence.
Qed.

Lemma create_interaction_from_csv_run
  (now : datetime) (csv_row : InteractionCSVRow.t) (student_id : Z) (db : DB) :
  create_interaction_from_csv now csv_row student_id db =
  match fst (get_problem_by_original_id
               (InteractionCSVRow.problem_original_id csv_row) db),
        fst (get_skill_by_original_id
               (InteractionCSVRow.skill_original_id csv_row) db) with
  | Ok (Some p), Ok (Some k) =>
      match create_interaction now
              (InteractionCreate.mk (Problem.id p) (Skill.id k)
                 (InteractionCSVRow.is_correct csv_row)
                 (InteractionCSVRow.timestamp csv_row)) student_id db with
      | (Ok i, db') => (Ok (Some i), db')
      | (Raise _, db') => (Ok None, db')
      end
  | _, _ => (Ok None, db)
  end.
Proof.
  unfold create_interaction_from_csv, bind at 1.
  unfold get_problem_by_original_id, get_skill_by_original_id, query.
  cbn [fst].
  case_first (problems db); [|reflexivity].
  unfold bind at 1.
  case_first (skills db); [|reflexivity].
  unfold try_except, bind, ret.
  destruct (create_interaction _ _ _ _) as [[i|[msg]] db']; reflexivity.
Qed.

(** C5. [create_interaction_from_csv] never raises: it always returns a
    value.  It returns [None] and leaves the store as it was when no problem
    has the [problem_original_id], when no skill has the [skill_original_id],
    and when both are found but the [create_interaction] it delegates to
    raises. *)
Theorem create_interaction_from_csv_swallows
  (now : datetime) (db : DB) (csv_row : InteractionCSVRow.t) (student_id : Z) :
  let problem_key := InteractionCSVRow.problem_original_id csv_row in
  let skill_key := InteractionCSVRow.skill_original_id csv_row in
  (exists r db',
     create_interaction_from_csv now csv_row student_id db = (Ok r, db'))
  /\
  ((forall p, In p (problems db) -> Problem.original_problem_id p <> problem_key) ->
   create_interaction_from_csv now csv_row student_id db = (Ok None, db))
  /\
  ((forall k, In k (skills db) -> Skill.original_skill_id k <> skill_key) ->
   create_interaction_from_csv now csv_row student_id db = (Ok None, db))
  /\
  (forall p k e db1,
     get_problem_by_original_id problem_key db = (Ok (Some p), db) ->
     get_skill_by_original_id skill_key db = (Ok (Some k), db) ->
     create_interaction now
       (InteractionCreate.mk (Problem.id p) (Skill.id k)
          (InteractionCSVRow.is_correct csv_row)
          (InteractionCSVRow.timestamp csv_row)) student_id db = (Raise e, db1) ->
     create_interaction_from_csv now csv_row student_id db = (Ok None, db)).
Proof.
  intros problem_key skill_key.
  rewrite create_interaction_from_csv_run. fold problem_key skill_key.
  repeat split.
  - destruct (fst (get_problem_by_original_id problem_key db)) as [[p|]|e];
      destruct (fst (get_skill_by_original_id skill_key db)) as [[k|]|e'];
      eauto.
    destruct (create_interaction _ _ _ _) as [[i|e] db']; eauto.
  - intros Habs. unfold get_problem_by_original_id, query. simpl.
    rewrite first_filter_none; [reflexivity|].
    intros p Hp. apply String.eqb_neq. now apply Habs.
  - intros Habs.
    destruct (fst (get_problem_by_original_id problem_key db)) as [[p|]|e];
      try reflexivity.
    unfold get_skill_by_original_id, query. cbn [fst].
    rewrite first_filter_none; [reflexivity|].
    intros k Hk. apply String.eqb_neq. now apply Habs.
  - intros p k e db1 Hp Hk Hraise. rewrite Hp, Hk. simpl. rewrite Hraise.
    now rewrite (create_interaction_raise_keeps_store _ _ _ _ _ _ Hraise).
Qed.

Lemma create_interaction_from_csv_swallows_witness :
  create_interaction_from_csv 0 (InteractionCSVRow.mk "P-9" "S-ADD" true 5000) 1
    Sample.db = (Ok None, Sample.db)
  /\ create_interaction_from_csv 0 (InteractionCSVRow.mk "P-1" "S-DIV" true 5000) 1
       Sample.db = (Ok None, Sample.db)
  /\ create_interaction_from_csv 0 (InteractionCSVRow.mk "P-1" "S-MUL" true 5000) 1
       Sample.db = (Ok None, Sample.db).
Proof.
  split; [|split].
  - apply (proj1 (proj2 (create_interaction_from_csv_swallows
             0 Sample.db (InteractionCSVRow.mk "P-9" "S-ADD" true 5000) 1))).
    intros p H. simpl in H.
    destruct H as [<-|[<-|[]]]; intros E; vm_compute in E; discriminate E.
  - apply (proj1 (proj2 (proj2 (create_interaction_from_csv_swallows
             0 Sample.db (InteractionCSVRow.mk "P-1" "S-DIV" true 5000) 1)))).
    intros k H. simpl in H.
    destruct H as [<-|[<-|[]]]; intros E; vm_compute in E; discriminate E.
  - apply (proj2 (proj2 (proj2 (create_interaction_from_csv_swallows
             0 Sample.db (InteractionCSVRow.mk "P-1" "S-MUL" true 5000) 1)))
             Sample.problem_1 Sample.multiplication
             (ValueError "Problem 1 gehört nicht zu Skill 2") Sample.db);
      reflexivity.
Defined.

(** ** Soft deletion *)

Lemma delete_student_run (now : datetime) (student_id : Z) (db : DB) :
  delete_student now student_id db =
  (Ok (option_map (with_deleted now)
         (Store.first (filter (fun s => Student.id s =? student_id)
                              (students db)))),
   set_students
     (map (fun r => if Student.id r =? student_id then with_deleted now r else r)
          (students db)) db).
Proof.
  unfold delete_student, bind, get_student, query, update_student_row, commit, ret.
  destruct (Store.first _) as [s|] eqn:E; simpl.
  - rewrite first_after_update by reflexivity. rewrite E. reflexivity.
  - rewrite map_update_absent by assumption. now rewrite set_students_same.
Qed.

Lemma delete_student_found (now : datetime) (student_id : Z) (db : DB)
  (s : Student.t) :
  get_student student_id db = (Ok (Some s), db) ->
  exists db',
    delete_student now student_id db = (Ok (Some (with_deleted now s)), db')
    /\ get_student student_id db' = (Ok (Some (with_deleted now s)), db').
Proof.
  intros Hget. unfold get_student, query in Hget. injection Hget as Hget.
  eexists. rewrite delete_student_run, Hget. split; [reflexivity|].
  unfold get_student, query. simpl.
  rewrite first_after_update by reflexivity. now rewrite Hget.
Qed.

(** C10. [delete_student] on a student that is already soft-deleted returns
    the row with [is_deleted] still true and [deleted_at] set to the time
    [now] of this call, whatever [deleted_at] held before, and the other
    columns as they were; so of two calls in a row the second one's time is
    the one on record.  When no student has the key, it returns [None] and
    leaves the store as it was. *)
Theorem delete_student_twice (db : DB) (student_id : Z) :
  (forall now,
     (forall s, In s (students db) -> Student.id s <> student_id) ->
     delete_student now student_id db = (Ok None, db))
  /\
  (forall now s,
     get_student student_id db = (Ok (Some s), db) ->
     Student.is_deleted s = true ->
     exists s' db',
       delete_student now student_id db = (Ok (Some s'), db')
       /\ get_student student_id db' = (Ok (Some s'), db')
       /\ Student.is_deleted s' = true
       /\ Student.deleted_at s' = Some now
       /\ Student.id s' = Student.id s
       /\ Student.first_name s' = Student.first_name s
       /\ Student.last_name s' = Student.last_name s
       /\ Student.class_id s' = Student.class_id s
       /\ Student.last_interaction_update_timestamp s' =
          Student.last_interaction_update_timestamp s)
  /\
  (forall t1 t2 s,
     get_student student_id db = (Ok (Some s), db) ->
     exists s1 db1 s2 db2,
       delete_student t1 student_id db = (Ok (Some s1), db1)
       /\ Student.is_deleted s1 = true /\ Student.deleted_at s1 = Some t1
       /\ delete_student t2 student_id db1 = (Ok (Some s2), db2)
       /\ Student.is_deleted s2 = true /\ Student.deleted_at s2 = Some t2
       /\ get_student student_id db2 = (Ok (Some s2), db2)).
Proof.
  split; [|split].
  - intros now Habs. rewrite delete_student_run.
    assert (Hnone : Store.first (filter (fun s => Student.id s =? student_id)
                                        (students db)) = None).
    { apply first_filter_none. intros s Hs. apply Z.eqb_neq. now apply Habs. }
    rewrite Hnone, map_update_absent by assumption.
    now rewrite set_students_same.
  - intros now s Hget _.
    destruct (delete_student_found now student_id db s Hget) as (db' & Hrun & Hget').
    exists (with_deleted now s), db'. repeat split; assumption.
  - intros t1 t2 s Hget.
    destruct (delete_student_found t1 student_id db s Hget) as (db1 & Hrun1 & Hget1).
    destruct (delete_student_found t2 student_id db1 _ Hget1) as (db2 & Hrun2 & Hget2).
    exists (with_deleted t1 s), db1, (with_deleted t2 (with_deleted t1 s)), db2.
    repeat split; assumption.
Qed.

Lemma delete_student_twice_witness :
  delete_student 900 42 Sample.db = (Ok None, Sample.db)
  /\ (exists s' db',
        delete_student 900 2 Sample.db = (Ok (Some s'), db')
        /\ Student.is_deleted s' = true /\ Student.deleted_at s' = Some 900)
  /\ (exists s1 db1 s2 db2,
        delete_student 800 1 Sample.db = (Ok (Some s1), db1)
        /\ Student.deleted_at s1 = Some 800
        /\ delete_student 900 1 db1 = (Ok (Some s2), db2)
        /\ Student.is_deleted s2 = true /\ Student.deleted_at s2 = Some 900).
Proof.
  split; [|split].
  - apply (proj1 (delete_student_twice Sample.db 42) 900).
    intros s H. simpl in H.
    destruct H as [<-|[<-|[<-|[<-|[]]]]]; simpl; lia.
  - destruct (proj1 (proj2 (delete_student_twice Sample.db 2)) 900 Sample.bob
                    eq_refl eq_refl)
      as (s' & db' & Hrun & _ & Hdel & Hat & _).
    exists s', db'. auto.
  - destruct (proj2 (proj2 (delete_student_twice Sample.db 1)) 800 900 Sample.ada
                    eq_refl)
      as (s1 & db1 & s2 & db2 & Hrun1 & _ & Hat1 & Hrun2 & Hdel2 & Hat2 & _).
    exists s1, db1, s2, db2. auto.
Defined.

(** ** Student statistics *)

Lemma filter_filter_andb {A} (f g : A -> bool) (l : list A) :
  filter g (filter f l) = filter (fun x => f x && g x)%bool l.
Proof.
  induction l as [|a l IH]; simpl; [reflexivity|].
  destruct (f a); simpl; [destruct (g a)|]; now rewrite IH.
Qed.

Lemma max_of_map_none {A} (f : A -> Z) (l : list A) :
  max_of (map f l) = None <-> l = [].
Proof. destruct l; simpl; split; congruence. Qed.

Lemma get_student_found (student_id : Z) (db : DB) (s : Student.t) :
  In s (students db) -> Student.id s = student_id ->
  exists s', get_student student_id db = (Ok (Some s'), db)
             /\ In s' (students db) /\ Student.id s' = student_id.
Proof.
  intros Hin Hid. unfold get_student, query.
  destruct (first_filter_some (fun s => Student.id s =? student_id)
              (students db) s Hin) as (s' & Hs' & Hin' & Hid');
    [now apply Z.eqb_eq|].
  exists s'. rewrite Hs'. apply Z.eqb_eq in Hid'. auto.
Qed.

Lemma round_half_even_nearest (n d : Z) :
  0 < d ->
  2 * Z.abs (round_half_even n d * d - n) <= d
  /\ (2 * Z.abs (round_half_even n d * d - n) = d ->
      Z.even (round_half_even n d) = true).
Proof.
  intros Hd. unfold round_half_even.
  pose proof (Z.div_mod n d ltac:(lia)) as Hn.
  pose proof (Z.mod_pos_bound n d Hd) as Hr.
  set (q := n / d) in *. set (r := n mod d) in *.
  assert (Hq : q * d - n = - r) by lia.
  assert (Hq1 : (q + 1) * d - n = d - r) by lia.
  destruct (Z.ltb_spec (2 * r) d) as [Hlt|Hge].
  - rewrite Hq. split; lia.
  - destruct (Z.ltb_spec d (2 * r)) as [Hgt|Hle].
    + rewrite Hq1. split; lia.
    + destruct (Z.even q) eqn:Heven.
      * rewrite Hq. split; [lia|auto].
      * rewrite Hq1. split; [lia|]. intros _.
        rewrite Z.add_1_r, Z.even_succ, <- Z.negb_even. now rewrite Heven.
Qed.

(** [round2] rounds to the nearest hundredth, ties to the even one. *)
Lemma round2_rounds_to_hundredths (x : float) :
  rounds_to_hundredths x (round2 x).
Proof.
  unfold rounds_to_hundredths, round2.
  destruct (Prim2SF x) as [s|s| |s m e]; try reflexivity.
  destruct (Z.ltb_spec e 0) as [Hneg|Hpos];
    destruct (Z.leb_spec 0 e) as [Hpos'|Hneg']; try lia; try reflexivity.
  exists (round_half_even (Zpos m * 100) (2 ^ (- e))).
  assert (Hd : 0 < 2 ^ (- e)) by (apply Z.pow_pos_nonneg; lia).
  destruct (round_half_even_nearest (Zpos m * 100) (2 ^ (- e)) Hd) as [H1 H2].
  repeat split; assumption.
Qed.

(** C6. [get_student_statistics] returns the empty dictionary when no
    student has the key.  Otherwise, with [total] the number of the student's
    interactions and [correct] the number of the correct ones, the dictionary
    holds [total - correct] under ["incorrect_interactions"]; under
    ["accuracy"] the double [round(correct / total * 100, 2)] when
    [total > 0] and the integer [0] when [total = 0]; and under
    ["activity_status"] the string ["active"] when the student has an
    interaction and ["no_activity"] when it has none.  The rounding is to
    the nearest hundredth, the even one of two that are equally near, read
    back as a double.  With ten interactions of which seven are correct the
    accuracy is [70.0] and the number of incorrect ones is [3]; two of three
    give [66.67], one of three [33.33], one of thirty-two, the tie [3.125],
    gives [3.12], and three of thirty-two, the tie [9.375], give [9.38]. *)
Theorem get_student_statistics_fields
  (isoformat : datetime -> string) (db : DB) (student_id : Z) :
  ((forall s, In s (students db) -> Student.id s <> student_id) ->
   get_student_statistics isoformat student_id db = (Ok [], db))
  /\
  (forall s,
     In s (students db) -> Student.id s = student_id ->
     let own :=
       filter (fun i => Interaction.student_id i =? student_id)
              (interactions db) in
     let total := Z.of_nat (List.length own) in
     let correct := Z.of_nat (List.length (filter Interaction.is_correct own)) in
     exists d,
       get_student_statistics isoformat student_id db = (Ok d, db)
       /\ get d "total_interactions" = Some (VInt total)
       /\ get d "correct_interactions" = Some (VInt correct)
       /\ get d "incorrect_interactions" = Some (VInt (total - correct))
       /\ (0 < total ->
           get d "accuracy" =
           Some (VFloat (round2 (PrimFloat.mul (truediv correct total)
                                               (float_of_int 100)))))
       /\ (total = 0 -> get d "accuracy" = Some (VInt 0))
       /\ (own <> [] -> get d "activity_status" = Some (VStr "active"))
       /\ (own = [] -> get d "activity_status" = Some (VStr "no_activity"))
       /\ (total = 10 -> correct = 7 ->
           get d "accuracy" = Some (VFloat 70%float)
           /\ get d "incorrect_interactions" = Some (VInt 3))
       /\ (0 < total ->
           exists y,
             get d "accuracy" = Some (VFloat y)
             /\ rounds_to_hundredths
                  (PrimFloat.mul (truediv correct total) (float_of_int 100)) y)
       /\ (total = 3 -> correct = 2 ->
           get d "accuracy" = Some (VFloat 0x1.0aae147ae147bp+6%float))
       /\ (total = 3 -> correct = 1 ->
           get d "accuracy" = Some (VFloat 0x1.0aa3d70a3d70ap+5%float))
       /\ (total = 32 -> correct = 1 ->
           get d "accuracy" = Some (VFloat 0x1.8f5c28f5c28f6p+1%float))
       /\ (total = 32 -> correct = 3 ->
           get d "accuracy" = Some (VFloat 0x1.2c28f5c28f5c3p+3%float))).
Proof.
  split.
  - intros Habs. unfold get_student_statistics, bind, get_student, query, ret.
    rewrite first_filter_none; [reflexivity|].
    intros s Hs. apply Z.eqb_neq. now apply Habs.
  - intros s Hs Hid own total correct.
    destruct (get_student_found student_id db s Hs Hid) as (s' & Hget & _ & _).
    unfold get_student_statistics, bind. rewrite Hget. unfold query.
    eexists. split; [reflexivity|].
    assert (Hcorrect :
              Store.count
                (filter (fun i => (Interaction.student_id i =? student_id)
                                  && Bool.eqb (Interaction.is_correct i) true)%bool
                        (interactions db)) = correct).
    { unfold correct, own, Store.count. rewrite filter_filter_andb.
      do 2 f_equal. apply filter_ext. intros i.
      now destruct (Interaction.is_correct i). }
    rewrite Hcorrect. fold own. change (Store.count own) with total.
    cbn [get String.eqb Ascii.eqb Bool.eqb].
    repeat match goal with |- _ /\ _ => split end; try reflexivity.
    + intros Hpos. unfold accuracy_of. apply Z.ltb_lt in Hpos. now rewrite Hpos.
    + intros Hzero. unfold accuracy_of. now rewrite Hzero.
    + intros Hne. destruct (max_of _) eqn:E; [reflexivity|].
      apply max_of_map_none in E. contradiction.
    + intros He. rewrite He. reflexivity.
    + intros H10 H7. rewrite H10, H7. split; reflexivity.
    + intros Hpos. unfold accuracy_of. apply Z.ltb_lt in Hpos. rewrite Hpos.
      eexists. split; [reflexivity|]. apply round2_rounds_to_hundredths.
    + intros Ht Hc. now rewrite Ht, Hc.
    + intros Ht Hc. now rewrite Ht, Hc.
    + intros Ht Hc. now rewrite Ht, Hc.
    + intros Ht Hc. now rewrite Ht, Hc.
Qed.

Lemma get_student_statistics_fields_witness :
  get_student_statistics Sample.isoformat 42 Sample.db = (Ok [], Sample.db)
  /\ exists d,
       get_student_statistics Sample.isoformat 1 Sample.db = (Ok d, Sample.db)
       /\ get d "incorrect_interactions" = Some (VInt (3 - 2))
       /\ get d "accuracy" = Some (VFloat 0x1.0aae147ae147bp+6%float)
       /\ get d "activity_status" = Some (VStr "active").
Proof.
  split.
  - apply (proj1 (get_student_statistics_fields Sample.isoformat Sample.db 42)).
    intros s H. simpl in H.
    destruct H as [<-|[<-|[<-|[<-|[]]]]]; simpl; lia.
  - destruct (proj2 (get_student_statistics_fields Sample.isoformat Sample.db 1)
                    Sample.ada (or_introl eq_refl) eq_refl)
      as (d & Hrun & _ & _ & Hinc & _ & _ & Hact & _ & _ & _ & Htwo & _).
    exists d. split; [exact Hrun|]. split; [exact Hinc|].
    split; [exact (Htwo eq_refl eq_refl)|].
    apply Hact. simpl. discriminate.
Defined.

Example get_student_statistics_ten_attempts :
  fst (get_student_statistics Sample.isoformat 1 Sample.ten_attempts) =
  Ok [ ("total_interactions", VInt 10);
       ("correct_interactions", VInt 7);
       ("incorrect_interactions", VInt 3);
       ("accuracy", VFloat 70%float);
       ("skills_practiced", VInt 1);
       ("problems_attempted", VInt 1);
       ("last_activity", VStr "1010");
       ("activity_status", VStr "active") ].
Proof. reflexivity. Qed.

Example get_student_statistics_no_attempts :
  fst (get_student_statistics Sample.isoformat 3 Sample.db) =
  Ok [ ("total_interactions", VInt 0);
       ("correct_interactions", VInt 0);
       ("incorrect_interactions", VInt 0);
       ("accuracy", VInt 0);
       ("skills_practiced", VInt 0);
       ("problems_attempted", VInt 0);
       ("last_activity", VNone);
       ("activity_status", VStr "no_activity") ].
Proof. reflexivity. Qed.

(** [round(2 / 3 * 100, 2)] is [66.67] and [round(1 / 32 * 100, 2)], a tie
    at [3.125], is [3.12]. *)
Example accuracy_of_two_thirds :
  accuracy_of 3 2 = VFloat 0x1.0aae147ae147bp+6%float
  /\ accuracy_of 32 1 = VFloat 0x1.8f5c28f5c28f6p+1%float.
Proof. split; reflexivity. Qed.

(** ** Listing and searching the students of a class *)

Lemma char_eqb_eq (a b : Store.char) : Store.char_eqb a b = true <-> a = b.
Proof.
  unfold Store.char_eqb. destruct (list_eq_dec ascii_dec a b); split;
    congruence.
Qed.

Lemma char_eqb_refl (a : Store.char) : Store.char_eqb a a = true.
Proof. now apply char_eqb_eq. Qed.

Lemma like_percent_unfold (p s : list Store.char) :
  Store.like (Store.percent :: p) s =
  (Store.like p s
   || match s with
      | [] => false
      | _ :: s' => Store.like (Store.percent :: p) s'
      end)%bool.
Proof. destruct s; reflexivity. Qed.

Lemma like_underscore_unfold (p s : list Store.char) :
  Store.like (Store.underscore :: p) s =
  match s with [] => false | _ :: s' => Store.like p s' end.
Proof. destruct s; reflexivity. Qed.

Lemma like_other_unfold (c : Store.char) (p s : list Store.char) :
  Store.char_eqb c Store.percent = false ->
  Store.char_eqb c Store.underscore = false ->
  Store.like (c :: p) s =
  match s with
  | [] => false
  | d :: s' => (Store.char_eqb c d && Store.like p s')%bool
  end.
Proof. intros H1 H2. cbn [Store.like]. rewrite H1, H2. now destruct s. Qed.

Lemma like_nil_iff (s : list Store.char) : Store.like [] s = true <-> s = [].
Proof. destruct s; simpl; split; congruence. Qed.

Lemma like_percent_iff (p s : list Store.char) :
  Store.like (Store.percent :: p) s = true <->
  exists a b, s = (a ++ b)%list /\ Store.like p b = true.
Proof.
  induction s as [|c s IH]; rewrite like_percent_unfold, orb_true_iff.
  - split.
    + intros [H|H]; [|discriminate]. now exists [], [].
    + intros (a & b & E & H). left. symmetry in E.
      apply app_eq_nil in E as [_ ->]. exact H.
  - rewrite IH. split.
    + intros [H|(a & b & -> & H)].
      * now exists [], (c :: s).
      * now exists (c :: a), b.
    + intros ([|d a] & b & E & H).
      * left. simpl in E. now subst b.
      * right. injection E as -> ->. now exists a, b.
Qed.

Lemma like_percent_all (s : list Store.char) :
  Store.like [Store.percent] s = true.
Proof. apply like_percent_iff. exists s, []. now rewrite app_nil_r. Qed.

(** The matcher decides the matching of a text against a pattern. *)
Lemma like_matches (p s : list Store.char) :
  Store.like p s = true <-> matches p s.
Proof.
  revert s. induction p as [|c p IH]; intros s.
  - rewrite like_nil_iff. split.
    + intros ->. exists []. split; [constructor|reflexivity].
    + intros (pieces & Hall & <-). now inversion Hall.
  - destruct (Store.char_eqb c Store.percent) eqn:Epct.
    { apply char_eqb_eq in Epct as ->. rewrite like_percent_iff. split.
      - intros (a & b & -> & H). apply IH in H as (pieces & Hall & <-).
        exists (a :: pieces). split; [|reflexivity].
        constructor; [|exact Hall]. exact I.
      - intros (pieces & Hall & <-). inversion Hall as [|? a ? rest _ Hrest];
          subst. exists a, (List.concat rest). split; [reflexivity|].
        apply IH. now exists rest. }
    destruct (Store.char_eqb c Store.underscore) eqn:Eund.
    { apply char_eqb_eq in Eund as ->. rewrite like_underscore_unfold. split.
      - destruct s as [|d s]; [discriminate|]. intros H.
        apply IH in H as (pieces & Hall & <-).
        exists ([d] :: pieces). split; [|reflexivity].
        constructor; [|exact Hall]. reflexivity.
      - intros (pieces & Hall & <-). inversion Hall as [|? a ? rest Ha Hrest];
          subst. unfold stands_for in Ha. cbn in Ha.
        destruct a as [|d [|? ?]]; try discriminate Ha.
        cbn [List.concat app]. apply IH. now exists rest. }
    rewrite like_other_unfold by assumption. split.
    + destruct s as [|d s]; [discriminate|]. intros H.
      apply andb_true_iff in H as [Hc H]. apply char_eqb_eq in Hc as <-.
      apply IH in H as (pieces & Hall & <-).
      exists ([c] :: pieces). split; [|reflexivity].
      constructor; [|exact Hall]. unfold stands_for. now rewrite Epct, Eund.
    + intros (pieces & Hall & <-). inversion Hall as [|? a ? rest Ha Hrest];
        subst. unfold stands_for in Ha. rewrite Epct, Eund in Ha. subst a.
      cbn [List.concat app]. rewrite char_eqb_refl. cbn [andb].
      apply IH. now exists rest.
Qed.

Lemma like_same_prefix (q p s : list Store.char) :
  Store.like p s = true -> Store.like (q ++ p) (q ++ s) = true.
Proof.
  intros H. induction q as [|c q IH]; [exact H|].
  cbn [app]. destruct (Store.char_eqb c Store.percent) eqn:Epct.
  - apply char_eqb_eq in Epct. subst c. apply like_percent_iff.
    now exists [Store.percent], (q ++ s)%list.
  - destruct (Store.char_eqb c Store.underscore) eqn:Eund.
    + apply char_eqb_eq in Eund. subst c. now rewrite like_underscore_unfold.
    + rewrite like_other_unfold by assumption.
      now rewrite char_eqb_refl, IH.
Qed.

Lemma like_contains (q a b : list Store.char) :
  Store.like (Store.percent :: q ++ [Store.percent]) (a ++ q ++ b) = true.
Proof.
  apply like_percent_iff. exists a, (q ++ b)%list. split; [reflexivity|].
  apply like_same_prefix, like_percent_all.
Qed.

Lemma like_literal_prefix (q p s : list Store.char) :
  Forall (fun c => Store.char_eqb c Store.percent = false
                   /\ Store.char_eqb c Store.underscore = false) q ->
  Store.like (q ++ p) s = true <->
  exists s', s = (q ++ s')%list /\ Store.like p s' = true.
Proof.
  intros Hq. revert s. induction Hq as [|c q [Hp Hu] Hq IH]; intros s.
  - cbn [app]. split; [eauto|]. now intros (s' & -> & H).
  - cbn [app]. rewrite like_other_unfold by assumption.
    destruct s as [|d s].
    + split; [discriminate|]. intros (s' & E & _). discriminate E.
    + rewrite andb_true_iff, char_eqb_eq, IH. split.
      * intros (<- & s' & -> & H). eauto.
      * intros (s' & E & H). injection E as <- ->. eauto.
Qed.

Lemma like_contains_iff (q s : list Store.char) :
  Forall (fun c => Store.char_eqb c Store.percent = false
                   /\ Store.char_eqb c Store.underscore = false) q ->
  Store.like (Store.percent :: q ++ [Store.percent]) s = true <->
  exists a b, s = (a ++ q ++ b)%list.
Proof.
  intros Hq. rewrite like_percent_iff. split.
  - intros (a & b & -> & H). apply like_literal_prefix in H as (b' & -> & _);
      eauto.
  - intros (a & b & ->). exists a, (q ++ b)%list. split; [reflexivity|].
    apply like_literal_prefix; [assumption|]. exists b.
    split; [reflexivity|apply like_percent_all].
Qed.

(** *** Characters *)

Lemma chars_cons_ascii (b : ascii) (s : list ascii) :
  Store.is_ascii b = true -> Store.chars (b :: s) = [b] :: Store.chars s.
Proof.
  intros Hb. cbn [Store.chars]. destruct (Store.chars s); [reflexivity|].
  rewrite Hb. cbn [negb]. now rewrite andb_false_r.
Qed.

Lemma chars_snoc_ascii (s : list ascii) (b : ascii) :
  Store.is_continuation b = false ->
  Store.chars (s ++ [b]) = (Store.chars s ++ [[b]])%list.
Proof.
  intros Hb. induction s as [|a s IH]; [reflexivity|].
  cbn [app Store.chars]. rewrite IH.
  destruct (Store.chars s) as [|g gs]; cbn [app].
  - cbn [Store.starts_with_continuation]. now rewrite Hb.
  - now destruct (Store.starts_with_continuation g && negb (Store.is_ascii a))%bool.
Qed.

Lemma concat_chars (s : list ascii) : List.concat (Store.chars s) = s.
Proof.
  induction s as [|b s IH]; [reflexivity|].
  cbn [Store.chars]. destruct (Store.chars s) as [|g gs].
  - simpl in IH. now subst s.
  - destruct (Store.starts_with_continuation g && negb (Store.is_ascii b))%bool;
      cbn [List.concat app] in *; now rewrite IH.
Qed.

Lemma lower_char_wildcard (c : ascii) :
  (Store.lower_char c = "%"%char -> c = "%"%char)
  /\ (Store.lower_char c = "_"%char -> c = "_"%char).
Proof.
  destruct c as [[] [] [] [] [] [] [] []]; vm_compute; split; congruence.
Qed.

Lemma literal_chars (q : string) :
  literal q ->
  Forall (fun c => Store.char_eqb c Store.percent = false
                   /\ Store.char_eqb c Store.underscore = false)
         (Store.chars (Store.lower (list_ascii_of_string q))).
Proof.
  intros [Hp Hu]. apply Forall_forall. intros g Hg.
  assert (Hbytes : forall b, In b g ->
                             In b (Store.lower (list_ascii_of_string q))).
  { intros b Hb. rewrite <- concat_chars. apply in_concat. eauto. }
  split; apply not_true_iff_false; intros E; apply char_eqb_eq in E; subst g.
  - specialize (Hbytes _ (or_introl eq_refl)).
    apply in_map_iff in Hbytes as (c & Hc & Hin).
    apply lower_char_wildcard in Hc. now subst c.
  - specialize (Hbytes _ (or_introl eq_refl)).
    apply in_map_iff in Hbytes as (c & Hc & Hin).
    apply lower_char_wildcard in Hc. now subst c.
Qed.

Lemma list_ascii_of_string_append (s t : string) :
  list_ascii_of_string (s ++ t) =
  (list_ascii_of_string s ++ list_ascii_of_string t)%list.
Proof. induction s as [|c s IH]; simpl; congruence. Qed.

(** The characters of the pattern [f"%{query}%"]. *)
Lemma pattern_chars (q : string) :
  Store.chars (Store.lower (list_ascii_of_string ("%" ++ q ++ "%"))) =
  (Store.percent
     :: Store.chars (Store.lower (list_ascii_of_string q)) ++ [Store.percent])%list.
Proof.
  rewrite !list_ascii_of_string_append. unfold Store.lower.
  cbn [list_ascii_of_string app map]. rewrite map_app. cbn [map].
  change (Store.lower_char "%"%char) with "%"%char.
  rewrite chars_cons_ascii by reflexivity.
  now rewrite chars_snoc_ascii by reflexivity.
Qed.

Lemma ilike_matches (q name : string) :
  Store.ilike name ("%" ++ q ++ "%") = true <-> name_matches q name.
Proof.
  unfold Store.ilike, name_matches. rewrite pattern_chars. apply like_matches.
Qed.

Lemma ilike_contains (q name : string) :
  contains_ci q name -> Store.ilike name ("%" ++ q ++ "%") = true.
Proof.
  intros (a & b & H). unfold Store.ilike. rewrite pattern_chars, H.
  apply like_contains.
Qed.

Lemma ilike_literal (q name : string) :
  literal q ->
  Store.ilike name ("%" ++ q ++ "%") = true <-> contains_ci q name.
Proof.
  intros Hq. unfold Store.ilike, contains_ci. rewrite pattern_chars.
  apply like_contains_iff. now apply literal_chars.
Qed.

(** C7. [get_students_by_class] returns a page, [limit] rows after the
    first [skip], of the students that belong to the class and have
    [is_deleted] false, and of no others.  [search_students_in_class]
    returns a page of the students of the class whose [first_name] or
    [last_name] matches the pattern ["%query%"] when the case of the letters
    [A] to [Z] is ignored, whether they are soft-deleted or not.  For a
    query without ["%"] and ["_"] these are exactly the students of the
    class whose first or last name contains the query, the case of [A] to
    [Z] ignored and every other character compared as it is; for any query
    they include all of those, and the call returns them all when the page
    covers the table. *)
Theorem list_and_search_students_in_class (db : DB) (class_id : Z) :
  (exists listed,
     (forall skip limit,
        get_students_by_class class_id skip limit db =
        (Ok (firstn limit (skipn skip listed)), db))
     /\ (forall s, In s listed <->
                   In s (students db) /\ Student.class_id s = class_id
                   /\ Student.is_deleted s = false))
  /\
  (forall q, exists found,
     (forall skip limit,
        search_students_in_class class_id q skip limit db =
        (Ok (firstn limit (skipn skip found)), db))
     /\ (forall s, In s found <->
                   In s (students db) /\ Student.class_id s = class_id
                   /\ (name_matches q (Student.first_name s)
                       \/ name_matches q (Student.last_name s)))
     /\ (literal q ->
         forall s, In s found <->
                   In s (students db) /\ Student.class_id s = class_id
                   /\ (contains_ci q (Student.first_name s)
                       \/ contains_ci q (Student.last_name s)))
     /\ (forall s deleted,
           In s (students db) -> Student.class_id s = class_id ->
           Student.is_deleted s = deleted ->
           contains_ci q (Student.first_name s)
           \/ contains_ci q (Student.last_name s) ->
           In s found
           /\ (forall limit,
                 (List.length (students db) <= limit)%nat ->
                 exists page,
                   search_students_in_class class_id q 0 limit db = (Ok page, db)
                   /\ In s page))).
Proof.
  split.
  - exists (filter (fun s => Bool.eqb (Student.is_deleted s) false)
              (filter (fun s => Student.class_id s =? class_id) (students db))).
    split; [reflexivity|].
    intros s. rewrite !filter_In, Z.eqb_eq.
    destruct (Student.is_deleted s); simpl; intuition congruence.
  - intros q.
    set (found := filter
           (fun s => (Student.class_id s =? class_id)
                     && (Store.ilike (Student.first_name s) ("%" ++ q ++ "%")
                         || Store.ilike (Student.last_name s) ("%" ++ q ++ "%")))%bool
           (students db)).
    assert (Hin : forall s,
      In s found <->
      In s (students db) /\ Student.class_id s = class_id
      /\ (Store.ilike (Student.first_name s) ("%" ++ q ++ "%") = true
          \/ Store.ilike (Student.last_name s) ("%" ++ q ++ "%") = true)).
    { intros s. unfold found.
      rewrite filter_In, andb_true_iff, orb_true_iff, Z.eqb_eq. reflexivity. }
    exists found.
    split; [reflexivity|]. split.
    { intros s. rewrite Hin, !ilike_matches. reflexivity. }
    split.
    { intros Hq s. rewrite Hin, !ilike_literal by assumption. reflexivity. }
    intros s deleted Hs Hcls _ Hname.
    assert (Hfound : In s found).
    { apply Hin. split; [assumption|]. split; [assumption|].
      destruct Hname as [H|H]; [left|right]; now apply ilike_contains. }
    split; [exact Hfound|].
    intros limit Hlimit. eexists. split; [reflexivity|].
    unfold Store.offset, Store.limit. cbn [skipn].
    rewrite firstn_all2; [exact Hfound|].
    etransitivity; [apply filter_length_le|exact Hlimit].
Qed.

Lemma list_and_search_students_in_class_witness :
  exists page,
    search_students_in_class 1 "BO" 0 100 Sample.db = (Ok page, Sample.db)
    /\ In Sample.bob page.
Proof.
  destruct (proj2 (list_and_search_students_in_class Sample.db 1) "BO")
    as (found & _ & _ & _ & Hall).
  apply (proj2 (Hall Sample.bob true (or_intror (or_introl eq_refl))
                     eq_refl eq_refl
                     (or_introl
                        (ex_intro _ []
                           (ex_intro _ [["b"%char]] eq_refl))))
               100%nat).
  simpl. lia.
Defined.

(** The search misses a name that differs from the query in the case of an
    umlaut only: ["JÖRG"] contains ["jörg"] when case is ignored, the
    student is in the class, and the call does not return it. *)
Lemma search_misses_upper_case_umlaut :
  ~ (forall s,
       In s (students Sample.umlauts) -> Student.class_id s = 1 ->
       contains_ignoring_case "jörg" (Student.first_name s)
       \/ contains_ignoring_case "jörg" (Student.last_name s) ->
       exists page,
         search_students_in_class 1 "jörg" 0 100 Sample.umlauts =
         (Ok page, Sample.umlauts)
         /\ In s page).
Proof.
  intros H.
  destruct (H Sample.joerg_upper (or_introl eq_refl) eq_refl)
    as (page & Hrun & Hin).
  - left. exists [], []. reflexivity.
  - vm_compute in Hrun. injection Hrun as <-.
    destruct Hin as [E|[]]. discriminate E.
Qed.

Example search_finds_soft_deleted_student :
  fst (search_students_in_class 1 "BO" 0 100 Sample.db) = Ok [Sample.bob]
  /\ fst (get_students_by_class 1 0 100 Sample.db) = Ok [Sample.ada]
  /\ fst (search_students_in_class 1 "_O" 0 100 Sample.db)
     = Ok [Sample.ada; Sample.bob].
Proof. repeat split. Qed.

(** A wildcard stands for one character, not for one byte, and the case of
    an umlaut is not folded. *)
Example search_with_umlauts :
  fst (search_students_in_class 1 "J_rg" 0 100 Sample.umlauts)
  = Ok [Sample.joerg_upper; Sample.joerg_lower; Sample.jurg]
  /\ fst (search_students_in_class 1 "jörg" 0 100 Sample.umlauts)
     = Ok [Sample.joerg_lower]
  /\ fst (search_students_in_class 1 "JÖRG" 0 100 Sample.umlauts)
     = Ok [Sample.joerg_upper].
Proof. repeat split. Qed.

(** ** Ordering *)

Section OrderBy.
Context {A : Type}.
Variable leb : A -> A -> bool.
Hypothesis leb_total : forall x y, leb x y = false -> leb y x = true.
Hypothesis leb_trans :
  forall x y z, leb x y = true -> leb y z = true -> leb x z = true.

Lemma insert_perm (x : A) (l : list A) :
  Permutation (Store.insert leb x l) (x :: l).
Proof.
  induction l as [|y l IH]; simpl; [reflexivity|].
  destruct (leb x y); [reflexivity|].
  rewrite IH. apply perm_swap.
Qed.

Lemma order_by_perm (l : list A) : Permutation (Store.order_by leb l) l.
Proof.
  induction l as [|x l IH]; simpl; [reflexivity|].
  rewrite insert_perm. now apply perm_skip.
Qed.

Lemma insert_sorted (x : A) (l : list A) :
  StronglySorted (fun a b => leb a b = true) l ->
  StronglySorted (fun a b => leb a b = true) (Store.insert leb x l).
Proof.
  induction 1 as [|y l Hsorted IH Hall]; simpl.
  - repeat constructor.
  - destruct (leb x y) eqn:E.
    + constructor; [now constructor|].
      constructor; [exact E|].
      eapply Forall_impl; [|exact Hall]. intros z Hz. exact (leb_trans _ _ _ E Hz).
    + constructor; [exact IH|].
      eapply Permutation_Forall; [symmetry; apply insert_perm|].
      constructor; [now apply leb_total|exact Hall].
Qed.

Lemma order_by_sorted (l : list A) :
  StronglySorted (fun a b => leb a b = true) (Store.order_by leb l).
Proof.
  induction l as [|x l IH]; simpl; [constructor|now apply insert_sorted].
Qed.

Lemma order_by_In (l : list A) (x : A) :
  In x (Store.order_by leb l) <-> In x l.
Proof.
  split; apply Permutation_in; [|symmetry]; apply order_by_perm.
Qed.

End OrderBy.

Lemma firstn_incl {A} (n : nat) (l : list A) (x : A) :
  In x (firstn n l) -> In x l.
Proof.
  revert n. induction l as [|a l IH]; intros [|n]; simpl; try tauto.
  intros [->|H]; [now left|right; eauto].
Qed.

Lemma firstn_sorted {A} (R : A -> A -> Prop) (n : nat) (l : list A) :
  StronglySorted R l -> StronglySorted R (firstn n l).
Proof.
  intros H. revert n. induction H as [|x l Hs IH Hall]; intros [|n]; simpl;
    try constructor; [apply IH|].
  apply Forall_forall. intros y Hy. apply firstn_incl in Hy.
  rewrite Forall_forall in Hall. now apply Hall.
Qed.

Lemma insert_map {A B} (g : A -> B) (leb : B -> B -> bool) (x : A) (l : list A) :
  Store.insert leb (g x) (map g l) =
  map g (Store.insert (fun a b => leb (g a) (g b)) x l).
Proof.
  induction l as [|y l IH]; simpl; [reflexivity|].
  destruct (leb (g x) (g y)); simpl; [reflexivity|]. now rewrite IH.
Qed.

Lemma order_by_map {A B} (g : A -> B) (leb : B -> B -> bool) (l : list A) :
  Store.order_by leb (map g l) =
  map g (Store.order_by (fun a b => leb (g a) (g b)) l).
Proof.
  induction l as [|x l IH]; simpl; [reflexivity|].
  now rewrite IH, insert_map.
Qed.

(** ** Listing the interactions of a student *)

Lemma filter_true {A} (l : list A) : filter (fun _ => true) l = l.
Proof. induction l; simpl; congruence. Qed.

Lemma StronglySorted_impl {A} (R S : A -> A -> Prop) (l : list A) :
  (forall x y, R x y -> S x y) -> StronglySorted R l -> StronglySorted S l.
Proof.
  intros HRS. induction 1 as [|x l Hs IH Hall]; constructor; [exact IH|].
  eapply Forall_impl; [|exact Hall]. intros y. apply HRS.
Qed.

Lemma order_by_timestamp_sorted (sort_desc : bool) (l : list Interaction.t) :
  StronglySorted (in_order sort_desc)
    (if sort_desc
     then Store.order_by timestamp_desc l
     else Store.order_by timestamp_asc l).
Proof.
  destruct sort_desc.
  - apply StronglySorted_impl
      with (R := fun a b => timestamp_desc a b = true).
    + unfold timestamp_desc, in_order. intros x y. apply Z.leb_le.
    + apply order_by_sorted; unfold timestamp_desc; intros; lia.
  - apply StronglySorted_impl
      with (R := fun a b => timestamp_asc a b = true).
    + unfold timestamp_asc, in_order. intros x y. apply Z.leb_le.
    + apply order_by_sorted; unfold timestamp_asc; intros; lia.
Qed.

(** With no [limit], and a [skill_id] that is absent or not [0], the result
    holds exactly the selected rows, in timestamp order. *)
Lemma get_student_interactions_filters
  (db : DB) (student_id : Z) (sort_desc : bool)
  (start_date end_date : option datetime) (skill_id : option Z) :
  skill_id <> Some 0 ->
  exists l,
    get_student_interactions student_id None sort_desc start_date end_date
      skill_id db = (Ok l, db)
    /\ Permutation l
         (filter (selected student_id start_date end_date skill_id)
                 (interactions db))
    /\ StronglySorted (in_order sort_desc) l.
Proof.
  intros Hskill. unfold get_student_interactions, query.
  eexists. split; [reflexivity|].
  assert (Hsel :
    (if truthy_int skill_id
     then filter (fun i => match skill_id with
                           | Some k => Interaction.skill_id i =? k
                           | None => false
                           end)
     else fun q => q)
      (match end_date with
       | Some d => filter (fun i => Interaction.timestamp i <=? d)
       | None => fun q => q
       end
         (match start_date with
          | Some d => filter (fun i => d <=? Interaction.timestamp i)
          | None => fun q => q
          end
            (filter (fun i => Interaction.student_id i =? student_id)
                    (interactions db)))) =
    filter (selected student_id start_date end_date skill_id) (interactions db)).
  { unfold selected.
    destruct skill_id as [k|]; simpl.
    - destruct (Z.eqb_spec k 0) as [->|_]; [congruence|]. simpl.
      destruct start_date, end_date; rewrite ?filter_filter_andb;
        apply filter_ext; intros i;
        now rewrite ?andb_true_r, ?andb_assoc.
    - destruct start_date, end_date; rewrite ?filter_filter_andb;
        apply filter_ext; intros i;
        now rewrite ?andb_true_r, ?andb_assoc. }
  split.
  - rewrite <- Hsel.
    destruct skill_id as [k|], start_date, end_date, sort_desc; simpl;
      try destruct (k =? 0); simpl; apply order_by_perm.
  - destruct skill_id as [k|], start_date, end_date; simpl;
      try destruct (k =? 0); simpl; apply order_by_timestamp_sorted.
Qed.

Lemma get_student_interactions_filters_witness :
  exists l,
    get_student_interactions 1 None true (Some 1200) None (Some 1) Sample.db
    = (Ok l, Sample.db)
    /\ Permutation l [Sample.attempt_3]
    /\ StronglySorted (in_order true) l.
Proof.
  apply (get_student_interactions_filters
           Sample.db 1 true (Some 1200) None (Some 1)).
  discriminate.
Defined.

(** C8. The [skill_id] filter is skipped when the [skill_id] supplied is
    [0]: the call returns what it returns without the filter.  On the sample
    store, asking for the interactions of student [1] in skill [0] returns
    the student's three interactions, newest first, none of which is in
    skill [0], where the rows selected by the filters are none. *)
Theorem get_student_interactions_skill_zero :
  (forall db student_id limit sort_desc start_date end_date,
     get_student_interactions student_id limit sort_desc start_date end_date
       (Some 0) db =
     get_student_interactions student_id limit sort_desc start_date end_date
       None db)
  /\ get_student_interactions 1 None true None None (Some 0) Sample.db =
     (Ok [Sample.attempt_2; Sample.attempt_3; Sample.attempt_1], Sample.db)
  /\ filter (selected 1 None None (Some 0)) (interactions Sample.db) = [].
Proof.
  split; [|split]; reflexivity.
Qed.

(** ** The class dashboard *)

Lemma filter_eqb_NoDup (k : Z) (l : list Z) :
  NoDup l ->
  filter (fun x => k =? x) l = if in_dec Z.eq_dec k l then [k] else [].
Proof.
  induction l as [|a l IH]; intros Hnd; simpl; [reflexivity|].
  inversion Hnd as [|? ? Hnotin Hnd']; subst.
  rewrite IH by assumption.
  destruct (Z.eq_dec a k) as [E|Hne].
  - subst a. rewrite Z.eqb_refl.
    destruct (in_dec Z.eq_dec k l); [contradiction|reflexivity].
  - destruct (Z.eqb_spec k a); [congruence|].
    destruct (in_dec Z.eq_dec k l); reflexivity.
Qed.

Lemma active_count_subquery (db : DB) (cid : Z) :
  Store.count
    (filter (fun s => Student.class_id s =? cid)
            (filter (fun s => Bool.eqb (Student.is_deleted s) false)
                    (students db))) =
  Z.of_nat (List.length (active_students_of cid db)).
Proof.
  unfold Store.count, active_students_of. rewrite filter_filter_andb.
  do 2 f_equal. apply filter_ext. intros s. apply andb_comm.
Qed.

(** The grouped subquery has at most one row for a class: the row with the
    count of its active students, when there is one. *)
Lemma subquery_lookup (db : DB) (cid : Z) :
  filter (fun g : Z * Z => cid =? fst g) (student_count_subquery db) =
  match active_students_of cid db with
  | [] => []
  | _ :: _ => [(cid, Z.of_nat (List.length (active_students_of cid db)))]
  end.
Proof.
  unfold student_count_subquery.
  rewrite filter_map_swap. cbn [fst].
  rewrite (filter_eqb_NoDup cid) by apply NoDup_nodup.
  destruct (in_dec Z.eq_dec cid _) as [Hin|Hnotin].
  - cbn [map]. rewrite active_count_subquery.
    apply nodup_In, in_map_iff in Hin as (s & Hcls & Hs).
    apply filter_In in Hs as [Hs Hact].
    assert (Hmem : In s (active_students_of cid db)).
    { apply active_students_of_In.
      destruct (Student.is_deleted s); [discriminate|auto]. }
    destruct (active_students_of cid db); [contradiction|reflexivity].
  - destruct (active_students_of cid db) as [|s l] eqn:E; [reflexivity|].
    exfalso. apply Hnotin.
    assert (Hmem : In s (active_students_of cid db)) by (rewrite E; now left).
    apply active_students_of_In in Hmem as (Hs & Hcls & Hact).
    apply nodup_In, in_map_iff. exists s. split; [assumption|].
    apply filter_In. split; [assumption|]. now rewrite Hact.
Qed.

Lemma flat_map_singleton {A B} (f : A -> list B) (g : A -> B) (l : list A) :
  (forall x, f x = [g x]) -> flat_map f l = map g l.
Proof.
  intros H. induction l as [|a l IH]; simpl; [reflexivity|].
  now rewrite H, IH.
Qed.

(** The outer join keeps one row for each class, in the order of the
    table. *)
Lemma outerjoin_classes (db : DB) :
  outerjoin (fun c (g : Z * Z) => Class_.id c =? fst g)
            (classes db) (student_count_subquery db) =
  map (fun c =>
         (c, match active_students_of (Class_.id c) db with
             | [] => None
             | _ :: _ =>
                 Some (Class_.id c,
                       Z.of_nat (List.length
                                   (active_students_of (Class_.id c) db)))
             end))
      (classes db).
Proof.
  unfold outerjoin. apply flat_map_singleton. intros c.
  rewrite subquery_lookup.
  destruct (active_students_of (Class_.id c) db); reflexivity.
Qed.

Lemma get_classes_for_dashboard_run (teacher_id : Z) (limit : nat) (db : DB) :
  get_classes_for_dashboard teacher_id limit db =
  (Ok (map (dashboard_row db)
         (firstn limit
            (Store.order_by
               (fun a b => Class_.created_at b <=? Class_.created_at a)
               (filter (fun c => Class_.teacher_id c =? teacher_id)
                       (classes db))))),
   db).
Proof.
  unfold get_classes_for_dashboard, query. f_equal. f_equal.
  rewrite outerjoin_classes, filter_map_swap. cbn [fst].
  unfold created_at_desc, Store.limit.
  rewrite order_by_map, firstn_map, !map_map. cbn [fst snd].
  apply map_ext. intros c. unfold dashboard_row.
  destruct (active_students_of (Class_.id c) db); reflexivity.
Qed.

Lemma sorted_app_le {A} (R : A -> A -> Prop) (l1 l2 : list A) :
  StronglySorted R (l1 ++ l2) ->
  forall x y, In x l1 -> In y l2 -> R x y.
Proof.
  induction l1 as [|a l1 IH]; cbn [app]; intros Hs x y Hx Hy; [contradiction|].
  apply StronglySorted_inv in Hs as [Hs Hall].
  destruct Hx as [->|Hx]; [|now apply IH].
  rewrite Forall_forall in Hall. apply Hall, in_or_app. now right.
Qed.

(** C9. [get_classes_for_dashboard] returns one dictionary for each class of
    a list [cs] that has at most [limit] classes, all of them classes of the
    teacher, newest-created first: the first [limit] of the teacher's
    classes in that order, so that no class of the teacher that is left out
    was created later than one that is returned.  Each dictionary carries the key and the name of
    its class and, as ["student_count"], the number of students of the class
    that are not soft-deleted.  When [limit] does not cut the list short,
    every class of the teacher is there, and one without an active student
    is there with a ["student_count"] of [0]. *)
Theorem get_classes_for_dashboard_rows (db : DB) (teacher_id : Z) (limit : nat) :
  exists cs,
    get_classes_for_dashboard teacher_id limit db =
    (Ok (map (dashboard_row db) cs), db)
    /\ (List.length cs <= limit)%nat
    /\ (forall c, In c cs ->
                  In c (classes db) /\ Class_.teacher_id c = teacher_id)
    /\ StronglySorted newer_first cs
    /\ (exists owned,
          cs = firstn limit owned
          /\ Permutation owned
               (filter (fun c => Class_.teacher_id c =? teacher_id)
                       (classes db))
          /\ StronglySorted newer_first owned)
    /\ (forall c left_out,
          In c cs ->
          In left_out (classes db) -> Class_.teacher_id left_out = teacher_id ->
          ~ In left_out cs ->
          Class_.created_at left_out <= Class_.created_at c)
    /\ (forall c,
          In c (classes db) -> Class_.teacher_id c = teacher_id ->
          (List.length (classes db) <= limit)%nat ->
          In c cs
          /\ ((forall s, In s (students db) ->
                         Student.class_id s = Class_.id c ->
                         Student.is_deleted s = true) ->
              In [ ("id", VInt (Class_.id c));
                   ("name", VStr (Class_.name c));
                   ("student_count", VInt 0) ]
                 (map (dashboard_row db) cs))).
Proof.
  set (desc := fun a b => Class_.created_at b <=? Class_.created_at a).
  set (owned := Store.order_by desc
                  (filter (fun c => Class_.teacher_id c =? teacher_id)
                          (classes db))).
  assert (Hperm : Permutation owned
                    (filter (fun c => Class_.teacher_id c =? teacher_id)
                            (classes db)))
    by apply order_by_perm.
  assert (Hsorted : StronglySorted newer_first owned).
  { apply StronglySorted_impl with (R := fun a b => desc a b = true).
    - unfold desc, newer_first. intros x y. apply Z.leb_le.
    - apply order_by_sorted; unfold desc; intros; lia. }
  exists (firstn limit owned).
  split; [apply get_classes_for_dashboard_run|].
  split; [apply firstn_le_length|].
  split.
  { intros c Hc. apply firstn_incl in Hc.
    apply (Permutation_in _ Hperm), filter_In in Hc as [Hc Ht].
    apply Z.eqb_eq in Ht. auto. }
  split; [now apply firstn_sorted|].
  split; [exists owned; auto|].
  split.
  { intros c left_out Hc Hl Ht Hout.
    assert (Hlo : In left_out owned).
    { apply (Permutation_in _ (Permutation_sym Hperm)), filter_In.
      split; [assumption|]. now apply Z.eqb_eq. }
    rewrite <- (firstn_skipn limit owned) in Hlo, Hsorted.
    apply in_app_or in Hlo as [Hlo|Hlo]; [contradiction|].
    exact (sorted_app_le _ _ _ Hsorted c left_out Hc Hlo). }
  intros c Hc Ht Hlimit.
  assert (Hin : In c (firstn limit owned)).
  { rewrite firstn_all2.
    - apply (Permutation_in _ (Permutation_sym Hperm)), filter_In.
      split; [assumption|]. now apply Z.eqb_eq.
    - rewrite (Permutation_length Hperm).
      etransitivity; [apply filter_length_le|exact Hlimit]. }
  split; [exact Hin|].
  intros Hnone. apply in_map_iff. exists c. split; [|exact Hin].
  unfold dashboard_row.
  replace (active_students_of (Class_.id c) db) with (@nil Student.t);
    [reflexivity|].
  symmetry. apply filter_nil_iff. intros s Hs.
  destruct (Z.eqb_spec (Student.class_id s) (Class_.id c)) as [E|E]; auto.
  rewrite (Hnone s Hs E). reflexivity.
Qed.

Lemma get_classes_for_dashboard_rows_witness :
  exists cs,
    get_classes_for_dashboard 7 5 Sample.db =
    (Ok (map (dashboard_row Sample.db) cs), Sample.db)
    /\ In [ ("id", VInt 3); ("name", VStr "6a"); ("student_count", VInt 0) ]
          (map (dashboard_row Sample.db) cs).
Proof.
  destruct (get_classes_for_dashboard_rows Sample.db 7 5)
    as (cs & Hrun & _ & _ & _ & _ & _ & Hall).
  exists cs. split; [exact Hrun|].
  apply (Hall Sample.class_6a).
  - simpl; auto.
  - reflexivity.
  - simpl; lia.
  - intros s H. simpl in H.
    destruct H as [<-|[<-|[<-|[<-|[]]]]]; simpl; intros; try reflexivity; lia.
Defined.

Example get_classes_for_dashboard_sample :
  fst (get_classes_for_dashboard 7 2 Sample.db) =
  Ok [ [ ("id", VInt 2); ("name", VStr "5b"); ("student_count", VInt 0) ];
       [ ("id", VInt 3); ("name", VStr "6a"); ("student_count", VInt 0) ] ]
  /\ fst (get_classes_for_dashboard 7 5 Sample.db) =
     Ok [ [ ("id", VInt 2); ("name", VStr "5b"); ("student_count", VInt 0) ];
          [ ("id", VInt 3); ("name", VStr "6a"); ("student_count", VInt 0) ];
          [ ("id", VInt 1); ("name", VStr "5a"); ("student_count", VInt 1) ] ].
Proof. split; reflexivity. Qed.

(** * Further properties *)

(** ** Rows updated by key *)

Section UpdateByKey.
Context {A : Type}.
Variable key : A -> Z.
Variable k : Z.
Variable f : A -> A.
Hypothesis f_keeps_key : forall r, key (f r) = key r.

Lemma first_update_same (l : list A) :
  Store.first (filter (fun r => key r =? k)
                      (map (fun r => if key r =? k then f r else r) l)) =
  option_map f (Store.first (filter (fun r => key r =? k) l)).
Proof.
  induction l as [|a l IH]; simpl; [reflexivity|].
  destruct (key a =? k) eqn:E.
  - rewrite f_keeps_key, E. reflexivity.
  - rewrite E. exact IH.
Qed.

Lemma first_update_other (k' : Z) (l : list A) :
  k' <> k ->
  Store.first (filter (fun r => key r =? k')
                      (map (fun r => if key r =? k then f r else r) l)) =
  Store.first (filter (fun r => key r =? k') l).
Proof.
  intros Hne. induction l as [|a l IH]; simpl; [reflexivity|].
  destruct (Z.eqb_spec (key a) k) as [E|E].
  - rewrite f_keeps_key. destruct (Z.eqb_spec (key a) k'); [congruence|exact IH].
  - destruct (key a =? k'); [reflexivity|exact IH].
Qed.

Lemma update_absent (l : list A) :
  Store.first (filter (fun r => key r =? k) l) = None ->
  map (fun r => if key r =? k then f r else r) l = l.
Proof.
  intros H. induction l as [|a l IH]; simpl in *; [reflexivity|].
  destruct (key a =? k); simpl in H; [discriminate|]. now rewrite IH.
Qed.

End UpdateByKey.

Lemma set_classes_same (db : DB) : set_classes (classes db) db = db.
Proof. now destruct db. Qed.

Lemma set_problems_same (db : DB) : set_problems (problems db) db = db.
Proof. now destruct db. Qed.

(** ** Classes *)

Lemma update_class_run (class_id : Z) (data : ClassCreate.t) (db : DB) :
  update_class class_id data db =
  (Ok (option_map (with_name_description data)
         (Store.first (filter (fun c => Class_.id c =? class_id) (classes db)))),
   set_classes
     (map (fun r => if Class_.id r =? class_id
                    then with_name_description data r else r)
          (classes db)) db).
Proof.
  unfold update_class, bind, get_class, query, update_class_row, commit, ret.
  destruct (Store.first _) as [c|] eqn:E; simpl.
  - rewrite (first_update_same Class_.id) by reflexivity. now rewrite E.
  - rewrite (update_absent Class_.id) by assumption.
    now rewrite set_classes_same.
Qed.

(** X1. [update_class] on a key no class has returns [None] and leaves the
    store as it was.  On a class that is found it returns the row with the
    new name and description and with its key, creation time and teacher
    unchanged; looking the class up afterwards gives that row, every other
    key looks up as before, and no other table changes. *)
Theorem update_class_overwrites_name_and_description
  (db : DB) (class_id : Z) (data : ClassCreate.t) :
  ((forall c, In c (classes db) -> Class_.id c <> class_id) ->
   update_class class_id data db = (Ok None, db))
  /\
  (forall c,
     get_class class_id db = (Ok (Some c), db) ->
     exists c' db',
       update_class class_id data db = (Ok (Some c'), db')
       /\ get_class class_id db' = (Ok (Some c'), db')
       /\ Class_.name c' = ClassCreate.name data
       /\ Class_.description c' = ClassCreate.description data
       /\ Class_.id c' = Class_.id c
       /\ Class_.created_at c' = Class_.created_at c
       /\ Class_.teacher_id c' = Class_.teacher_id c
       /\ (forall other, other <> class_id ->
             fst (get_class other db') = fst (get_class other db))
       /\ List.length (classes db') = List.length (classes db)
       /\ students db' = students db
       /\ skills db' = skills db
       /\ problems db' = problems db
       /\ interactions db' = interactions db).
Proof.
  split.
  - intros Habs. rewrite update_class_run.
    assert (Hnone : Store.first (filter (fun c => Class_.id c =? class_id)
                                        (classes db)) = None).
    { apply first_filter_none. intros c Hc. apply Z.eqb_neq. now apply Habs. }
    rewrite Hnone, (update_absent Class_.id) by assumption.
    now rewrite set_classes_same.
  - intros c Hget. unfold get_class, query in Hget. injection Hget as Hget.
    eexists _, _. rewrite update_class_run, Hget.
    split; [reflexivity|].
    split.
    { unfold get_class, query. simpl.
      rewrite (first_update_same Class_.id) by reflexivity. now rewrite Hget. }
    repeat match goal with |- _ /\ _ => split end; try reflexivity.
    + intros other Hne. unfold get_class, query. simpl.
      now rewrite (first_update_other Class_.id).
    + simpl. apply length_map.
Qed.

Lemma update_class_overwrites_name_and_description_witness :
  update_class 42 (ClassCreate.mk "5x" "Physik") Sample.db = (Ok None, Sample.db)
  /\ exists c' db',
       update_class 3 (ClassCreate.mk "5x" "Physik") Sample.db = (Ok (Some c'), db')
       /\ Class_.name c' = "5x" /\ Class_.created_at c' = 150.
Proof.
  split.
  - apply (proj1 (update_class_overwrites_name_and_description
                    Sample.db 42 (ClassCreate.mk "5x" "Physik"))).
    intros c H. simpl in H.
    destruct H as [<-|[<-|[<-|[<-|[]]]]]; simpl; lia.
  - destruct (proj2 (update_class_overwrites_name_and_description
                       Sample.db 3 (ClassCreate.mk "5x" "Physik"))
                    Sample.class_6a eq_refl)
      as (c' & db' & Hrun & _ & Hname & _ & _ & Hat & _).
    exists c', db'. auto.
Defined.

(** X2. Of two [update_class] calls on the same key the second one decides:
    the pair returns, and leaves, what the second call alone does. *)
Theorem update_class_last_write_wins
  (db : DB) (class_id : Z) (first_data second_data : ClassCreate.t) :
  (update_class class_id first_data ;;; update_class class_id second_data) db =
  update_class class_id second_data db.
Proof.
  unfold bind at 1. rewrite !update_class_run. simpl.
  rewrite (first_update_same Class_.id) by reflexivity.
  f_equal.
  - f_equal. now destruct (Store.first _).
  - unfold set_classes. simpl. f_equal. rewrite map_map.
    apply map_ext. intros r. destruct (Class_.id r =? class_id) eqn:E.
    + cbn [with_name_description Class_.id]. now rewrite E.
    + now rewrite E.
Qed.

(** ** Pages *)

Lemma firstn_add_skipn {A} (a b : nat) (l : list A) :
  (firstn a l ++ firstn b (skipn a l))%list = firstn (a + b) l.
Proof.
  revert l. induction a as [|a IH]; intros l; [reflexivity|].
  destruct l as [|x l]; simpl.
  - now rewrite firstn_nil.
  - now rewrite IH.
Qed.

Lemma page_tiles {A} (skip a b : nat) (l : list A) :
  (Store.limit a (Store.offset skip l)
   ++ Store.limit b (Store.offset (skip + a) l))%list =
  Store.limit (a + b) (Store.offset skip l).
Proof.
  unfold Store.limit, Store.offset.
  rewrite <- firstn_add_skipn. f_equal. f_equal.
  rewrite skipn_skipn. f_equal. lia.
Qed.

Lemma skipn_incl {A} (n : nat) (l : list A) (x : A) :
  In x (skipn n l) -> In x l.
Proof.
  revert l. induction n as [|n IH]; intros [|a l]; simpl; auto.
Qed.

Lemma page_incl {A} (skip limit : nat) (l : list A) (x : A) :
  In x (Store.limit limit (Store.offset skip l)) -> In x l.
Proof.
  intros H. eapply skipn_incl, firstn_incl, H.
Qed.

(** X3. [get_classes_by_teacher] returns at most [limit] classes, each a
    class of the table that the teacher owns, and never changes the store.
    Consecutive pages fit together: the page of [a] rows at [skip] followed
    by the page of [b] rows at [skip + a] is the page of [a + b] rows at
    [skip].  With [skip = 0] and a [limit] as large as the table, every class
    of the teacher is returned. *)
Theorem get_classes_by_teacher_pages (db : DB) (teacher_id : Z) :
  (forall skip limit, exists page,
     get_classes_by_teacher teacher_id skip limit db = (Ok page, db)
     /\ (List.length page <= limit)%nat
     /\ (forall c, In c page ->
                   In c (classes db) /\ Class_.teacher_id c = teacher_id))
  /\
  (forall skip a b p1 p2 p,
     get_classes_by_teacher teacher_id skip a db = (Ok p1, db) ->
     get_classes_by_teacher teacher_id (skip + a) b db = (Ok p2, db) ->
     get_classes_by_teacher teacher_id skip (a + b) db = (Ok p, db) ->
     p = (p1 ++ p2)%list)
  /\
  (forall limit c,
     (List.length (classes db) <= limit)%nat ->
     In c (classes db) -> Class_.teacher_id c = teacher_id ->
     exists page,
       get_classes_by_teacher teacher_id 0 limit db = (Ok page, db)
       /\ In c page).
Proof.
  unfold get_classes_by_teacher, query.
  split; [|split].
  - intros skip limit. eexists. split; [reflexivity|].
    split; [apply firstn_le_length|].
    intros c Hc. apply page_incl, filter_In in Hc as [Hc Ht].
    apply Z.eqb_eq in Ht. auto.
  - intros skip a b p1 p2 p H1 H2 H.
    injection H1 as <-. injection H2 as <-. injection H as <-.
    symmetry. apply page_tiles.
  - intros limit c Hlimit Hc Ht. eexists. split; [reflexivity|].
    unfold Store.offset, Store.limit. cbn [skipn].
    rewrite firstn_all2.
    + apply filter_In. split; [assumption|]. now apply Z.eqb_eq.
    + etransitivity; [apply filter_length_le|exact Hlimit].
Qed.

Lemma get_classes_by_teacher_pages_witness :
  [Sample.class_5a; Sample.class_5b; Sample.class_6a] =
  ([Sample.class_5a] ++ [Sample.class_5b; Sample.class_6a])%list
  /\ exists page,
       get_classes_by_teacher 7 0 4 Sample.db = (Ok page, Sample.db)
       /\ In Sample.class_6a page.
Proof.
  split.
  - apply (proj1 (proj2 (get_classes_by_teacher_pages Sample.db 7))
             0%nat 1%nat 2%nat); reflexivity.
  - apply (proj2 (proj2 (get_classes_by_teacher_pages Sample.db 7))
             4%nat Sample.class_6a).
    + simpl; lia.
    + simpl; auto.
    + reflexivity.
Defined.

(** Every student belongs to a class of the table. *)
Lemma fresh_class_has_no_students (db : DB) (s : Student.t) :
  (forall s, In s (students db) ->
             exists c, In c (classes db) /\ Class_.id c = Student.class_id s) ->
  In s (students db) ->
  Student.class_id s <> Store.fresh_id (map Class_.id (classes db)).
Proof.
  intros Href Hs. destruct (Href s Hs) as (c & Hc & Hid).
  apply (in_map Class_.id), fresh_id_above in Hc. lia.
Qed.

Lemma filter_keep_all {A} (f : A -> bool) (l : list A) :
  (forall x, In x l -> f x = true) -> filter f l = l.
Proof.
  intros H. induction l as [|a l IH]; simpl; [reflexivity|].
  rewrite (H a (or_introl eq_refl)), IH; [reflexivity|].
  intros x Hx. apply H. now right.
Qed.

Lemma filter_app_last {A} (f : A -> bool) (l : list A) (x : A) :
  (forall y, In y l -> f y = true) -> f x = false ->
  filter f (l ++ [x]) = l.
Proof.
  intros Hl Hx. rewrite filter_app. simpl. rewrite Hx, app_nil_r.
  now apply filter_keep_all.
Qed.

Lemma first_filter_app_fresh {A} (f : A -> bool) (l : list A) (x : A) :
  (forall y, In y l -> f y = false) -> f x = true ->
  Store.first (filter f (l ++ [x])) = Some x.
Proof.
  intros Hl Hx. rewrite filter_app.
  replace (filter f l) with (@nil A) by (symmetry; now apply filter_nil_iff).
  simpl. now rewrite Hx.
Qed.

(** X4. [create_class_for_teacher] appends one class, under a key no class
    had, with the name and description of the request and the teacher
    given; looking the key up returns the new row, and no other table
    changes.  When every student belongs to a class of the table, deleting
    the new class right away returns it and restores the store exactly, and
    the dashboard of the teacher, when [limit] does not cut it short, shows
    the new class with a ["student_count"] of [0]. *)
Theorem create_class_for_teacher_round_trip
  (db : DB) (created_at : datetime) (data : ClassCreate.t) (teacher_id : Z) :
  exists c db',
    create_class_for_teacher created_at data teacher_id db = (Ok c, db')
    /\ classes db' = (classes db ++ [c])%list
    /\ (forall old, In old (classes db) -> Class_.id old <> Class_.id c)
    /\ Class_.name c = ClassCreate.name data
    /\ Class_.description c = ClassCreate.description data
    /\ Class_.teacher_id c = teacher_id
    /\ get_class (Class_.id c) db' = (Ok (Some c), db')
    /\ students db' = students db
    /\ ((forall s, In s (students db) ->
                   exists k, In k (classes db)
                             /\ Class_.id k = Student.class_id s) ->
        delete_class (Class_.id c) db' = (Ok (Some c), db)
        /\ (forall limit rows,
              (List.length (classes db') <= limit)%nat ->
              get_classes_for_dashboard teacher_id limit db' = (Ok rows, db') ->
              In [ ("id", VInt (Class_.id c));
                   ("name", VStr (ClassCreate.name data));
                   ("student_count", VInt 0) ] rows)).
Proof.
  set (c := Class_.mk (Store.fresh_id (map Class_.id (classes db)))
                      (ClassCreate.name data) (ClassCreate.description data)
                      created_at teacher_id).
  set (db' := set_classes (classes db ++ [c]) db).
  assert (Hfresh : forall old, In old (classes db) -> Class_.id old <> Class_.id c).
  { intros old Hold. apply (in_map Class_.id), fresh_id_above in Hold.
    simpl. lia. }
  assert (Hget : get_class (Class_.id c) db' = (Ok (Some c), db')).
  { unfold get_class, query. simpl. rewrite first_filter_app_fresh; auto.
    - intros y Hy. apply Z.eqb_neq. now apply Hfresh.
    - apply Z.eqb_refl. }
  exists c, db'.
  repeat match goal with |- _ /\ _ => split end; try reflexivity; auto.
  - intros Href.
    assert (Hnostudent : forall s, In s (students db') ->
                                   (Student.class_id s =? Class_.id c) = false).
    { intros s Hs. apply Z.eqb_neq.
      exact (fresh_class_has_no_students db s Href Hs). }
    assert (Hact : active_students_of (Class_.id c) db' = []).
    { apply filter_nil_iff. intros s Hs. now rewrite Hnostudent. }
    assert (Hdel : deleted_students_of (Class_.id c) db' = []).
    { apply filter_nil_iff. intros s Hs. now rewrite Hnostudent. }
    split.
    + rewrite delete_class_run, Hget. cbn [fst]. rewrite Hact.
      change (0 <? Store.count (@nil Student.t)) with false. cbv iota.
      f_equal. unfold after_delete_class. rewrite Hdel.
      unfold set_classes, set_students.
      cbn [classes students skills problems interactions db' set_classes existsb].
      rewrite filter_true, filter_app_last.
      * now destruct db.
      * intros y Hy. apply negb_true_iff, Z.eqb_neq. now apply Hfresh.
      * apply negb_false_iff, Z.eqb_refl.
    + intros limit rows Hlimit Hrun.
      rewrite get_classes_for_dashboard_run in Hrun. injection Hrun as <-.
      apply in_map_iff. exists c. split.
      * unfold dashboard_row. rewrite Hact. reflexivity.
      * rewrite firstn_all2.
        -- apply order_by_In, filter_In. split.
           ++ simpl. apply in_or_app. right. now left.
           ++ apply Z.eqb_refl.
        -- rewrite (Permutation_length (order_by_perm _ _)).
           etransitivity; [apply filter_length_le|exact Hlimit].
Qed.

Lemma create_class_for_teacher_round_trip_witness :
  exists c db',
    create_class_for_teacher 400 (ClassCreate.mk "8a" "") 7 Sample.db = (Ok c, db')
    /\ Class_.id c = 5
    /\ delete_class (Class_.id c) db' = (Ok (Some c), Sample.db).
Proof.
  destruct (create_class_for_teacher_round_trip
              Sample.db 400 (ClassCreate.mk "8a" "") 7)
    as (c & db' & Hrun & _ & _ & _ & _ & _ & _ & _ & Hback).
  exists c, db'. split; [exact Hrun|]. split.
  - vm_compute in Hrun. injection Hrun as <- _. reflexivity.
  - apply Hback. intros s H. simpl in H.
    destruct H as [<-|[<-|[<-|[<-|[]]]]]; simpl.
    + exists Sample.class_5a. auto.
    + exists Sample.class_5a. auto.
    + exists Sample.class_5b. auto.
    + exists Sample.class_7c. tauto.
Defined.

(** ** Students *)

Lemma update_student_run (student_id : Z) (data : StudentCreate.t) (db : DB) :
  update_student student_id data db =
  (Ok (option_map (with_names data)
         (Store.first (filter (fun s => Student.id s =? student_id)
                              (students db)))),
   set_students
     (map (fun r => if Student.id r =? student_id then with_names data r else r)
          (students db)) db).
Proof.
  unfold update_student, bind, get_student, query, update_student_row, commit, ret.
  destruct (Store.first _) as [s|] eqn:E; simpl.
  - rewrite (first_update_same Student.id) by reflexivity. now rewrite E.
  - rewrite (update_absent Student.id) by assumption.
    now rewrite set_students_same.
Qed.

Lemma filter_map_keeps {A} (p : A -> bool) (g : A -> A) (l : list A) :
  (forall x, p (g x) = p x) -> filter p (map g l) = map g (filter p l).
Proof.
  intros H. induction l as [|a l IH]; simpl; [reflexivity|].
  rewrite H. destruct (p a); simpl; now rewrite IH.
Qed.

(** The listing of a class after a write that keeps the class and the flag
    of every student. *)
Lemma get_students_by_class_after_map
  (g : Student.t -> Student.t) (class_id : Z) (skip limit : nat) (db : DB) :
  (forall r, Student.class_id (g r) = Student.class_id r) ->
  (forall r, Student.is_deleted (g r) = Student.is_deleted r) ->
  fst (get_students_by_class class_id skip limit
         (set_students (map g (students db)) db)) =
  match fst (get_students_by_class class_id skip limit db) with
  | Ok page => Ok (map g page)
  | Raise e => Raise e
  end.
Proof.
  intros Hcls Hdel. unfold get_students_by_class, query, Student_has_is_deleted.
  cbn [fst students set_students]. f_equal.
  rewrite !filter_map_keeps.
  - unfold Store.limit, Store.offset. now rewrite skipn_map, firstn_map.
  - intros x. cbv beta. now rewrite Hdel.
  - intros x. cbv beta. now rewrite Hcls.
Qed.

(** X5. [update_student] on a key no student has returns [None] and leaves
    the store as it was.  On a student that is found it returns the row
    with the new first and last name and every other column as before, the
    soft-delete flag and its time included, so a rename never revives a
    deleted student; looking the student up afterwards gives that row, and
    each listing of a class holds the same students, by key, as before. *)
Theorem update_student_overwrites_names
  (db : DB) (student_id : Z) (data : StudentCreate.t) :
  ((forall s, In s (students db) -> Student.id s <> student_id) ->
   update_student student_id data db = (Ok None, db))
  /\
  (forall s,
     get_student student_id db = (Ok (Some s), db) ->
     exists s' db',
       update_student student_id data db = (Ok (Some s'), db')
       /\ get_student student_id db' = (Ok (Some s'), db')
       /\ Student.first_name s' = StudentCreate.first_name data
       /\ Student.last_name s' = StudentCreate.last_name data
       /\ Student.id s' = Student.id s
       /\ Student.class_id s' = Student.class_id s
       /\ Student.is_deleted s' = Student.is_deleted s
       /\ Student.deleted_at s' = Student.deleted_at s
       /\ Student.last_interaction_update_timestamp s' =
          Student.last_interaction_update_timestamp s
       /\ (forall class_id skip limit before after,
             get_students_by_class class_id skip limit db = (Ok before, db) ->
             get_students_by_class class_id skip limit db' = (Ok after, db') ->
             map Student.id after = map Student.id before)
       /\ classes db' = classes db
       /\ interactions db' = interactions db).
Proof.
  split.
  - intros Habs. rewrite update_student_run.
    assert (Hnone : Store.first (filter (fun s => Student.id s =? student_id)
                                        (students db)) = None).
    { apply first_filter_none. intros s Hs. apply Z.eqb_neq. now apply Habs. }
    rewrite Hnone, (update_absent Student.id) by assumption.
    now rewrite set_students_same.
  - intros s Hget. unfold get_student, query in Hget. injection Hget as Hget.
    eexists _, _. rewrite update_student_run, Hget.
    split; [reflexivity|].
    split.
    { unfold get_student, query. simpl.
      rewrite (first_update_same Student.id) by reflexivity. now rewrite Hget. }
    repeat match goal with |- _ /\ _ => split end; try reflexivity.
    intros class_id skip limit before after Hbefore Hafter.
    pose proof (get_students_by_class_after_map
                  (fun r => if Student.id r =? student_id
                            then with_names data r else r)
                  class_id skip limit db) as Hmap.
    rewrite Hafter, Hbefore in Hmap. cbn [fst] in Hmap.
    assert (Hafter' : Ok after =
                      Ok (map (fun r => if Student.id r =? student_id
                                        then with_names data r else r) before)).
    { apply Hmap; intros r; now destruct (Student.id r =? student_id). }
    injection Hafter' as ->. rewrite map_map. apply map_ext.
    intros r. now destruct (Student.id r =? student_id).
Qed.

Lemma update_student_overwrites_names_witness :
  update_student 42 (StudentCreate.mk "Bo" "Stein") Sample.db = (Ok None, Sample.db)
  /\ exists s' db',
       update_student 2 (StudentCreate.mk "Bo" "Stein") Sample.db
       = (Ok (Some s'), db')
       /\ Student.first_name s' = "Bo" /\ Student.is_deleted s' = true.
Proof.
  split.
  - apply (proj1 (update_student_overwrites_names
                    Sample.db 42 (StudentCreate.mk "Bo" "Stein"))).
    intros s H. simpl in H.
    destruct H as [<-|[<-|[<-|[<-|[]]]]]; simpl; lia.
  - destruct (proj2 (update_student_overwrites_names
                       Sample.db 2 (StudentCreate.mk "Bo" "Stein"))
                    Sample.bob eq_refl)
      as (s' & db' & Hrun & _ & Hname & _ & _ & _ & Hdel & _).
    exists s', db'. auto.
Defined.

(** X6. [create_student_in_class] appends one student, under a key no
    student had, with the names of the request, the class given and the
    clock value of the call as [last_interaction_update_timestamp]; looking
    the key up returns the new row and no other table changes.  When the
    column default leaves the new student active, the listing of the class,
    if [limit] covers the table, shows it. *)
Theorem create_student_in_class_round_trip
  (default_is_deleted : bool) (default_deleted_at : option datetime)
  (db : DB) (now : datetime) (student : StudentCreate.t) (class_id : Z) :
  exists s db',
    create_student_in_class default_is_deleted default_deleted_at
      now student class_id db = (Ok s, db')
    /\ students db' = (students db ++ [s])%list
    /\ (forall old, In old (students db) -> Student.id old <> Student.id s)
    /\ Student.first_name s = StudentCreate.first_name student
    /\ Student.last_name s = StudentCreate.last_name student
    /\ Student.class_id s = class_id
    /\ Student.last_interaction_update_timestamp s = Some now
    /\ get_student (Student.id s) db' = (Ok (Some s), db')
    /\ classes db' = classes db
    /\ interactions db' = interactions db
    /\ (default_is_deleted = false ->
        forall limit,
          (List.length (students db') <= limit)%nat ->
          exists page,
            get_students_by_class class_id 0 limit db' = (Ok page, db')
            /\ In s page).
Proof.
  set (s := Student.mk (Store.fresh_id (map Student.id (students db)))
                       (StudentCreate.first_name student)
                       (StudentCreate.last_name student)
                       class_id default_is_deleted default_deleted_at (Some now)).
  assert (Hfresh : forall old, In old (students db) ->
                               Student.id old <> Student.id s).
  { intros old Hold. apply (in_map Student.id), fresh_id_above in Hold.
    simpl. lia. }
  exists s, (set_students (students db ++ [s]) db).
  repeat match goal with |- _ /\ _ => split end; try reflexivity; auto.
  - unfold get_student, query. simpl. rewrite first_filter_app_fresh; auto.
    + intros y Hy. apply Z.eqb_neq. now apply Hfresh.
    + apply Z.eqb_refl.
  - intros Hactive limit Hlimit. eexists. split; [reflexivity|].
    unfold Store.offset, Store.limit, Student_has_is_deleted. cbn [skipn].
    rewrite firstn_all2.
    + apply filter_In. split.
      * apply filter_In. split.
        -- simpl. apply in_or_app. right. now left.
        -- apply Z.eqb_refl.
      * simpl. now rewrite Hactive.
    + etransitivity; [apply filter_length_le|].
      etransitivity; [apply filter_length_le|exact Hlimit].
Qed.

Lemma create_student_in_class_round_trip_witness :
  exists s db',
    create_student_in_class false None 900 (StudentCreate.mk "Eve" "Hill") 3
      Sample.db = (Ok s, db')
    /\ exists page,
         get_students_by_class 3 0 100 db' = (Ok page, db') /\ In s page.
Proof.
  destruct (create_student_in_class_round_trip
              false None Sample.db 900 (StudentCreate.mk "Eve" "Hill") 3)
    as (s & db' & Hrun & Hst & _ & _ & _ & _ & _ & _ & _ & _ & Hlist).
  exists s, db'. split; [exact Hrun|].
  apply Hlist; [reflexivity|]. rewrite Hst, length_app. simpl. lia.
Defined.

Lemma get_student_statistics_depends
  (isoformat : datetime -> string) (student_id : Z) (db db' : DB) :
  interactions db' = interactions db ->
  (Store.first (filter (fun s => Student.id s =? student_id) (students db')) = None
   <-> Store.first (filter (fun s => Student.id s =? student_id) (students db))
       = None) ->
  fst (get_student_statistics isoformat student_id db') =
  fst (get_student_statistics isoformat student_id db).
Proof.
  intros Hint Hsame. unfold get_student_statistics, bind, get_student, query, ret.
  destruct (Store.first (filter _ (students db'))) as [s'|] eqn:E';
    destruct (Store.first (filter _ (students db))) as [s|] eqn:E;
    cbn [fst]; try reflexivity.
  - now rewrite Hint.
  - destruct Hsame as [_ H]. now discriminate H.
  - destruct Hsame as [H _]. now discriminate H.
Qed.

(** X7. A soft-deleted student is hidden from the listing of every class
    and nowhere else: after [delete_student] on a student that is found, no
    page of [get_students_by_class] holds a student with that key, while
    [get_student] still returns the row, the table has as many rows as
    before, the interactions are untouched and [get_student_statistics]
    returns for every student what it returned before. *)
Theorem delete_student_hides_from_listing_only
  (isoformat : datetime -> string) (now : datetime) (db : DB)
  (student_id : Z) (s : Student.t) :
  get_student student_id db = (Ok (Some s), db) ->
  exists s' db',
    delete_student now student_id db = (Ok (Some s'), db')
    /\ (forall class_id skip limit page x,
          get_students_by_class class_id skip limit db' = (Ok page, db') ->
          In x page -> Student.id x <> student_id)
    /\ get_student student_id db' = (Ok (Some s'), db')
    /\ Student.id s' = student_id
    /\ List.length (students db') = List.length (students db)
    /\ interactions db' = interactions db
    /\ classes db' = classes db
    /\ (forall k, fst (get_student_statistics isoformat k db') =
                  fst (get_student_statistics isoformat k db)).
Proof.
  intros Hget.
  destruct (delete_student_found now student_id db s Hget) as (db' & Hrun & Hget').
  exists (with_deleted now s), db'. split; [exact Hrun|].
  rewrite delete_student_run in Hrun. injection Hrun as _ Hdb'. subst db'.
  split.
  { intros class_id skip limit page x Hpage Hx Hid.
    unfold get_students_by_class, query, Student_has_is_deleted in Hpage.
    injection Hpage as <-.
    apply page_incl, filter_In in Hx as [Hx Hact].
    apply filter_In in Hx as [Hx _]. cbn [students set_students] in Hx.
    apply in_map_iff in Hx as (r & Hr & _).
    destruct (Z.eqb_spec (Student.id r) student_id) as [E|E]; subst x.
    - discriminate Hact.
    - contradiction. }
  split; [exact Hget'|].
  split.
  { unfold get_student, query in Hget. injection Hget as Hget.
    apply first_some_inv in Hget as [_ Hid]. now apply Z.eqb_eq in Hid. }
  split; [apply length_map|].
  split; [reflexivity|]. split; [reflexivity|].
  intros k. apply get_student_statistics_depends; [reflexivity|].
  cbn [students set_students].
  destruct (Z.eq_dec k student_id) as [->|Hne].
  - rewrite (first_update_same Student.id) by reflexivity.
    destruct (Store.first _); simpl; split; congruence.
  - rewrite (first_update_other Student.id);
      try reflexivity; try assumption.
Qed.

Lemma delete_student_hides_from_listing_only_witness :
  exists s' db',
    delete_student 900 1 Sample.db = (Ok (Some s'), db')
    /\ fst (get_students_by_class 1 0 100 db') = Ok []
    /\ get_student 1 db' = (Ok (Some s'), db').
Proof.
  destruct (delete_student_hides_from_listing_only
              Sample.isoformat 900 Sample.db 1 Sample.ada eq_refl)
    as (s' & db' & Hrun & _ & Hget & _).
  exists s', db'. split; [exact Hrun|]. split; [|exact Hget].
  vm_compute in Hrun. injection Hrun as _ <-. reflexivity.
Defined.

(** Soft-deleting the students with the keys [ids], one call after the
    other. *)
Lemma for_each_delete_student (now : datetime) (ids : list Z) (db : DB) :
  for_each ids (fun id => delete_student now id ;;; ret tt) db =
  (Ok tt,
   set_students
     (map (fun r => if existsb (fun id => Student.id r =? id) ids
                    then with_deleted now r else r)
          (students db)) db).
Proof.
  revert db. induction ids as [|a ids IH]; intros db.
  - simpl. unfold ret. f_equal. rewrite map_id. now rewrite set_students_same.
  - cbn [for_each]. unfold bind at 1. unfold bind at 1.
    rewrite delete_student_run. unfold ret at 1. rewrite IH.
    f_equal. unfold set_students. cbn [classes students skills problems interactions].
    f_equal. rewrite map_map. apply map_ext. intros r.
    cbn [existsb]. destruct (Student.id r =? a) eqn:E.
    + cbn [with_deleted Student.id orb].
      now destruct (existsb _ ids).
    + cbn [orb]. reflexivity.
Qed.

(** X8. Once every active student of a class has been soft-deleted with
    [delete_student], [delete_class] goes through: it returns the class,
    and afterwards the class is gone and no student of it is left. *)
Theorem delete_class_after_soft_deleting_its_students
  (now : datetime) (db : DB) (class_id : Z) (c : Class_.t) :
  In c (classes db) -> Class_.id c = class_id ->
  exists db1 c' db2,
    for_each (map Student.id (active_students_of class_id db))
             (fun id => delete_student now id ;;; ret tt) db = (Ok tt, db1)
    /\ delete_class class_id db1 = (Ok (Some c'), db2)
    /\ Class_.id c' = class_id
    /\ get_class class_id db2 = (Ok None, db2)
    /\ (forall s, In s (students db2) -> Student.class_id s <> class_id).
Proof.
  intros Hc Hid.
  set (db1 := set_students
                (map (fun r =>
                        if existsb (fun id => Student.id r =? id)
                                   (map Student.id (active_students_of class_id db))
                        then with_deleted now r else r)
                     (students db)) db).
  exists db1.
  assert (Hclasses : classes db1 = classes db) by reflexivity.
  assert (Hnone : forall s, In s (students db1) ->
                            Student.class_id s = class_id ->
                            Student.is_deleted s = true).
  { intros s Hs Hcls. cbn [db1 students set_students] in Hs.
    apply in_map_iff in Hs as (r & Hr & Hin).
    destruct (existsb _ _) eqn:Ex; subst s; [reflexivity|].
    destruct (Student.is_deleted r) eqn:Hdel; [reflexivity|].
    exfalso. apply not_true_iff_false in Ex. apply Ex.
    apply existsb_exists. exists (Student.id r). split; [|apply Z.eqb_refl].
    apply in_map. apply active_students_of_In. auto. }
  destruct (get_class_found class_id db1 c) as (c' & Hget & Hc' & Hid');
    [now rewrite Hclasses|assumption|].
  assert (Hzero : active_students_of class_id db1 = []).
  { apply filter_nil_iff. intros s Hs.
    destruct (Z.eqb_spec (Student.class_id s) class_id) as [E|E]; simpl; auto.
    now rewrite (Hnone s Hs E). }
  exists c', (after_delete_class class_id c' db1).
  split; [apply for_each_delete_student|].
  split.
  { rewrite delete_class_run, Hget. cbn [fst]. now rewrite Hzero. }
  split; [exact Hid'|].
  split.
  - apply get_class_absent. intros r Hr. cbn in Hr.
    apply filter_In in Hr as [_ Hr].
    apply negb_true_iff, Z.eqb_neq in Hr. congruence.
  - intros s Hs. now apply (students_after_delete_class class_id c' db1).
Qed.

Lemma delete_class_after_soft_deleting_its_students_witness :
  exists db1 c' db2,
    for_each (map Student.id (active_students_of 1 Sample.db))
             (fun id => delete_student 900 id ;;; ret tt) Sample.db = (Ok tt, db1)
    /\ delete_class 1 db1 = (Ok (Some c'), db2)
    /\ students db2 = [Sample.cy; Sample.dee].
Proof.
  destruct (delete_class_after_soft_deleting_its_students
              900 Sample.db 1 Sample.class_5a (or_introl eq_refl) eq_refl)
    as (db1 & c' & db2 & Hloop & Hrun & _).
  exists db1, c', db2. split; [exact Hloop|]. split; [exact Hrun|].
  vm_compute in Hloop. injection Hloop as <-.
  vm_compute in Hrun. injection Hrun as _ <-. reflexivity.
Defined.

(** X9. [update_student_last_interaction_timestamp] on a key no student has
    returns [None] and leaves the store as it was.  On a student that is
    found it writes the timestamp given, or the clock value [now] when none
    is given, and nothing else: the row returned, which a lookup returns
    from then on, has every other column as before. *)
Theorem update_student_last_interaction_timestamp_writes
  (now : datetime) (db : DB) (student_id : Z) (timestamp : option datetime) :
  ((forall s, In s (students db) -> Student.id s <> student_id) ->
   update_student_last_interaction_timestamp now student_id timestamp db =
   (Ok None, db))
  /\
  (forall s,
     get_student student_id db = (Ok (Some s), db) ->
     exists s' db',
       update_student_last_interaction_timestamp now student_id timestamp db =
       (Ok (Some s'), db')
       /\ get_student student_id db' = (Ok (Some s'), db')
       /\ Student.last_interaction_update_timestamp s' =
          Some (match timestamp with Some t => t | None => now end)
       /\ Student.id s' = Student.id s
       /\ Student.first_name s' = Student.first_name s
       /\ Student.last_name s' = Student.last_name s
       /\ Student.class_id s' = Student.class_id s
       /\ Student.is_deleted s' = Student.is_deleted s
       /\ Student.deleted_at s' = Student.deleted_at s
       /\ interactions db' = interactions db).
Proof.
  split.
  - intros Habs. rewrite update_student_last_interaction_timestamp_run.
    assert (Hnone : Store.first (filter (fun s => Student.id s =? student_id)
                                        (students db)) = None).
    { apply first_filter_none. intros s Hs. apply Z.eqb_neq. now apply Habs. }
    rewrite Hnone, (update_absent Student.id) by assumption.
    now rewrite set_students_same.
  - intros s Hget. unfold get_student, query in Hget. injection Hget as Hget.
    eexists _, _. rewrite update_student_last_interaction_timestamp_run, Hget.
    split; [reflexivity|].
    split.
    { unfold get_student, query. simpl.
      rewrite (first_update_same Student.id) by reflexivity. now rewrite Hget. }
    repeat match goal with |- _ /\ _ => split end; reflexivity.
Qed.

Lemma update_student_last_interaction_timestamp_writes_witness :
  update_student_last_interaction_timestamp 900 42 None Sample.db
  = (Ok None, Sample.db)
  /\ exists s' db',
       update_student_last_interaction_timestamp 900 1 None Sample.db
       = (Ok (Some s'), db')
       /\ Student.last_interaction_update_timestamp s' = Some 900.
Proof.
  split.
  - apply (proj1 (update_student_last_interaction_timestamp_writes
                    900 Sample.db 42 None)).
    intros s H. simpl in H.
    destruct H as [<-|[<-|[<-|[<-|[]]]]]; simpl; lia.
  - destruct (proj2 (update_student_last_interaction_timestamp_writes
                       900 Sample.db 1 None) Sample.ada eq_refl)
      as (s' & db' & Hrun & _ & Hts & _).
    exists s', db'. auto.
Defined.

(** ** Skills and problems *)

(** X10. [get_problems_by_skill_internal_idx] returns the empty list, and
    raises nothing, when no skill has the index.  When a skill is found it
    returns what [get_problems_by_skill_id] returns for the key of that
    skill: at most [limit] problems of the table, all of that skill. *)
Theorem get_problems_by_skill_internal_idx_resolves
  (db : DB) (skill_internal_idx : Z) (skip limit : nat) :
  ((forall k, In k (skills db) -> Skill.internal_idx k <> skill_internal_idx) ->
   get_problems_by_skill_internal_idx skill_internal_idx skip limit db =
   (Ok [], db))
  /\
  (forall k,
     get_skill_by_internal_idx skill_internal_idx db = (Ok (Some k), db) ->
     get_problems_by_skill_internal_idx skill_internal_idx skip limit db =
     get_problems_by_skill_id (Skill.id k) skip limit db
     /\ exists page,
          get_problems_by_skill_internal_idx skill_internal_idx skip limit db =
          (Ok page, db)
          /\ (List.length page <= limit)%nat
          /\ (forall p, In p page ->
                        In p (problems db) /\ Problem.skill_id p = Skill.id k)).
Proof.
  unfold get_problems_by_skill_internal_idx, get_problems_by_skill_id, bind.
  split.
  - intros Habs. unfold get_skill_by_internal_idx, query.
    rewrite first_filter_none; [reflexivity|].
    intros k Hk. apply Z.eqb_neq. now apply Habs.
  - intros k Hget. rewrite Hget. split; [reflexivity|].
    unfold query. eexists. split; [reflexivity|].
    split; [apply firstn_le_length|].
    intros p Hp. apply page_incl, filter_In in Hp as [Hp Hs].
    apply Z.eqb_eq in Hs. auto.
Qed.

Lemma get_problems_by_skill_internal_idx_resolves_witness :
  get_problems_by_skill_internal_idx 9 0 3200 Sample.db = (Ok [], Sample.db)
  /\ get_problems_by_skill_internal_idx 1 0 3200 Sample.db =
     get_problems_by_skill_id 2 0 3200 Sample.db.
Proof.
  split.
  - apply (proj1 (get_problems_by_skill_internal_idx_resolves
                    Sample.db 9 0 3200)).
    intros k H. simpl in H. destruct H as [<-|[<-|[]]]; simpl; lia.
  - apply (proj2 (get_problems_by_skill_internal_idx_resolves
                    Sample.db 1 0 3200) Sample.multiplication eq_refl).
Defined.

Lemma problem_keys_free (idx : Z) (oid : string) (db : DB) :
  (forall q, In q (problems db) ->
             Problem.internal_idx q <> idx
             /\ Problem.original_problem_id q <> oid) ->
  problem_keys_taken idx oid db = false.
Proof.
  intros H. unfold problem_keys_taken. apply not_true_iff_false. intros Hex.
  apply existsb_exists in Hex as (q & Hq & Hkey).
  destruct (H q Hq) as [Hi Ho].
  apply orb_true_iff in Hkey as [E|E].
  - apply Z.eqb_eq in E. contradiction.
  - apply String.eqb_eq in E. contradiction.
Qed.

(** X11. [create_problem] raises the [ValueError] that names the index when
    no skill has the [skill_internal_idx] of the request, before anything is
    written.  When the skill is found and the two unique keys of the request
    are free, it appends one problem, under a fresh key, that belongs to the
    skill found; the three lookups, by key, by index and by original
    identifier, return the new row, and a [create_interaction] that names
    the new problem and that skill is accepted. *)
Theorem create_problem_resolves_skill (db : DB) (problem : ProblemCreate.t) :
  let idx := ProblemCreate.skill_internal_idx problem in
  ((forall k, In k (skills db) -> Skill.internal_idx k <> idx) ->
   create_problem problem db =
   Returned
     (Raise (ValueError ("Skill mit internal_idx " ++ str idx ++ " nicht gefunden")))
     db)
  /\
  (forall k,
     get_skill_by_internal_idx idx db = (Ok (Some k), db) ->
     (forall q, In q (problems db) ->
                Problem.internal_idx q <> ProblemCreate.internal_idx problem
                /\ Problem.original_problem_id q <>
                   ProblemCreate.original_problem_id problem) ->
     exists p db',
       create_problem problem db = Returned (Ok p) db'
       /\ problems db' = (problems db ++ [p])%list
       /\ (forall old, In old (problems db) -> Problem.id old <> Problem.id p)
       /\ Problem.skill_id p = Skill.id k
       /\ Problem.internal_idx p = ProblemCreate.internal_idx problem
       /\ Problem.original_problem_id p = ProblemCreate.original_problem_id problem
       /\ get_problem (Problem.id p) db' = (Ok (Some p), db')
       /\ get_problem_by_internal_idx (Problem.internal_idx p) db' =
          (Ok (Some p), db')
       /\ get_problem_by_original_id (Problem.original_problem_id p) db' =
          (Ok (Some p), db')
       /\ (forall now is_correct timestamp student_id,
             exists i db'',
               create_interaction now
                 (InteractionCreate.mk (Problem.id p) (Skill.id k)
                    is_correct timestamp) student_id db' = (Ok i, db''))).
Proof.
  intros idx. unfold create_problem. fold idx. split.
  - intros Habs. unfold get_skill_by_internal_idx, query.
    rewrite first_filter_none; [reflexivity|].
    intros k Hk. apply Z.eqb_neq. now apply Habs.
  - intros k Hget Hfree. rewrite Hget, problem_keys_free by assumption.
    set (p := Problem.mk _ _ _ _ _ _).
    assert (Hfresh : forall old, In old (problems db) ->
                                 Problem.id old <> Problem.id p).
    { intros old Hold. apply (in_map Problem.id), fresh_id_above in Hold.
      simpl. lia. }
    assert (Hlookup : get_problem (Problem.id p)
                        (set_problems (problems db ++ [p]) db) =
                      (Ok (Some p), set_problems (problems db ++ [p]) db)).
    { unfold get_problem, query. cbn [problems set_problems].
      rewrite first_filter_app_fresh; auto.
      - intros y Hy. apply Z.eqb_neq. now apply Hfresh.
      - apply Z.eqb_refl. }
    exists p, (set_problems (problems db ++ [p]) db).
    repeat match goal with |- _ /\ _ => split end; try reflexivity; auto.
    + unfold get_problem_by_internal_idx, query. cbn [problems set_problems].
      rewrite first_filter_app_fresh; auto.
      * intros y Hy. apply Z.eqb_neq. now apply Hfree.
      * apply Z.eqb_refl.
    + unfold get_problem_by_original_id, query. cbn [problems set_problems].
      rewrite first_filter_app_fresh; auto.
      * intros y Hy. apply String.eqb_neq. now apply Hfree.
      * apply String.eqb_refl.
    + intros now is_correct timestamp student_id.
      rewrite create_interaction_run.
      cbn [InteractionCreate.problem_db_id InteractionCreate.skill_db_id].
      rewrite Hlookup. cbn [fst].
      change (Problem.skill_id p) with (Skill.id k).
      rewrite Z.eqb_refl. eauto.
Qed.

Lemma create_problem_resolves_skill_witness :
  create_problem (ProblemCreate.mk 7 "P-7" "" 9 0.5%float) Sample.db =
  Returned (Raise (ValueError "Skill mit internal_idx 9 nicht gefunden")) Sample.db
  /\ exists p db',
       create_problem (ProblemCreate.mk 7 "P-7" "" 1 0.5%float) Sample.db =
       Returned (Ok p) db'
       /\ Problem.skill_id p = 2.
Proof.
  split.
  - apply (proj1 (create_problem_resolves_skill
                    Sample.db (ProblemCreate.mk 7 "P-7" "" 9 0.5%float))).
    intros k H. simpl in H. destruct H as [<-|[<-|[]]]; simpl; lia.
  - destruct (proj2 (create_problem_resolves_skill
                       Sample.db (ProblemCreate.mk 7 "P-7" "" 1 0.5%float))
                    Sample.multiplication eq_refl)
      as (p & db' & Hrun & _ & _ & Hskill & _).
    + intros q H. simpl in H.
      destruct H as [<-|[<-|[]]]; simpl; split; try lia;
        intros E; vm_compute in E; discriminate E.
    + exists p, db'. auto.
Defined.

Lemma skill_keys_free (idx : Z) (oid : string) (db : DB) :
  (forall q, In q (skills db) ->
             Skill.internal_idx q <> idx /\ Skill.original_skill_id q <> oid) ->
  skill_keys_taken idx oid db = false.
Proof.
  intros H. unfold skill_keys_taken. apply not_true_iff_false. intros Hex.
  apply existsb_exists in Hex as (q & Hq & Hkey).
  destruct (H q Hq) as [Hi Ho].
  apply orb_true_iff in Hkey as [E|E].
  - apply Z.eqb_eq in E. contradiction.
  - apply String.eqb_eq in E. contradiction.
Qed.

(** X12. [create_skill] with an index and an original identifier that no
    skill has appends one skill under a fresh key; the lookups by key, by
    index and by original identifier return the new row, the problems stay
    as they were, and a [create_problem] that names the index no longer
    raises for a missing skill. *)
Theorem create_skill_round_trip (db : DB) (skill : SkillCreate.t) :
  let idx := SkillCreate.internal_idx skill in
  let oid := SkillCreate.original_skill_id skill in
  (forall q, In q (skills db) ->
             Skill.internal_idx q <> idx /\ Skill.original_skill_id q <> oid) ->
  exists k db',
    create_skill skill db = Returned (Ok k) db'
    /\ skills db' = (skills db ++ [k])%list
    /\ (forall old, In old (skills db) -> Skill.id old <> Skill.id k)
    /\ Skill.internal_idx k = idx
    /\ Skill.original_skill_id k = oid
    /\ Skill.name k = SkillCreate.name skill
    /\ get_skill (Skill.id k) db' = (Ok (Some k), db')
    /\ get_skill_by_internal_idx idx db' = (Ok (Some k), db')
    /\ get_skill_by_original_id oid db' = (Ok (Some k), db')
    /\ problems db' = problems db
    /\ (forall problem e db'',
          ProblemCreate.skill_internal_idx problem = idx ->
          create_problem problem db' <> Returned (Raise e) db'').
Proof.
  intros idx oid Hfree. unfold create_skill. fold idx oid.
  rewrite skill_keys_free by assumption.
  set (k := Skill.mk _ _ _ _).
  assert (Hfresh : forall old, In old (skills db) -> Skill.id old <> Skill.id k).
  { intros old Hold. apply (in_map Skill.id), fresh_id_above in Hold.
    simpl. lia. }
  assert (Hidx : get_skill_by_internal_idx idx
                   (set_skills (skills db ++ [k]) db) =
                 (Ok (Some k), set_skills (skills db ++ [k]) db)).
  { unfold get_skill_by_internal_idx, query. cbn [skills set_skills].
    rewrite first_filter_app_fresh; auto.
    - intros y Hy. apply Z.eqb_neq. now apply Hfree.
    - apply Z.eqb_refl. }
  exists k, (set_skills (skills db ++ [k]) db).
  repeat match goal with |- _ /\ _ => split end; try reflexivity; auto.
  - unfold get_skill, query. cbn [skills set_skills].
    rewrite first_filter_app_fresh; auto.
    + intros y Hy. apply Z.eqb_neq. now apply Hfresh.
    + apply Z.eqb_refl.
  - unfold get_skill_by_original_id, query. cbn [skills set_skills].
    rewrite first_filter_app_fresh; auto.
    + intros y Hy. apply String.eqb_neq. now apply Hfree.
    + apply String.eqb_refl.
  - intros problem e db'' Hnames. unfold create_problem.
    rewrite Hnames, Hidx. destruct (problem_keys_taken _ _ _); discriminate.
Qed.

Lemma create_skill_round_trip_witness :
  exists k db',
    create_skill (SkillCreate.mk 2 "S-DIV" "Division") Sample.db
    = Returned (Ok k) db'
    /\ get_skill_by_original_id "S-DIV" db' = (Ok (Some k), db').
Proof.
  destruct (create_skill_round_trip
              Sample.db (SkillCreate.mk 2 "S-DIV" "Division"))
    as (k & db' & Hrun & _ & _ & _ & _ & _ & _ & _ & Hoid & _).
  - intros q H. simpl in H.
    destruct H as [<-|[<-|[]]]; simpl; split; try lia;
      intros E; vm_compute in E; discriminate E.
  - exists k, db'. auto.
Defined.

Lemma first_filter_unique {A} (key : A -> Z) (l : list A) (x : A) :
  NoDup (map key l) -> In x l ->
  Store.first (filter (fun r => key r =? key x) l) = Some x.
Proof.
  intros Hnd Hx.
  destruct (first_filter_some (fun r => key r =? key x) l x Hx (Z.eqb_refl _))
    as (y & Hy & Hin & Hkey).
  rewrite Hy. f_equal. apply Z.eqb_eq in Hkey.
  eapply NoDup_map_inj; eauto.
Qed.

Lemma first_filter_map_keeps {A} (p : A -> bool) (g : A -> A) (l : list A) :
  (forall x, p (g x) = p x) ->
  Store.first (filter p (map g l)) = option_map g (Store.first (filter p l)).
Proof.
  intros H. rewrite filter_map_keeps by assumption.
  now destruct (filter p l).
Qed.

(** X13. [update_problem_mu_q] on an index no problem has returns [None]
    and leaves the store as it was.  With unique problem keys and a number
    that is not nan, on a problem that is found it returns the row with the
    difficulty the column reads back for the number written, which is that
    number whenever the store keeps it as it is, and with every other
    column, the skill included, as before; the lookups by index and by key
    return that row afterwards, and no other table changes. *)
Theorem update_problem_mu_q_overwrites_difficulty
  (stored_real : float -> float) (db : DB) (problem_internal_idx : Z)
  (mu_q : float) :
  ((forall p, In p (problems db) ->
              Problem.internal_idx p <> problem_internal_idx) ->
   update_problem_mu_q stored_real problem_internal_idx mu_q db = (Ok None, db))
  /\
  (forall p,
     NoDup (map Problem.id (problems db)) ->
     PrimFloat.is_nan mu_q = false ->
     get_problem_by_internal_idx problem_internal_idx db = (Ok (Some p), db) ->
     exists p' db',
       update_problem_mu_q stored_real problem_internal_idx mu_q db =
       (Ok (Some p'), db')
       /\ Problem.difficulty_mu_q p' = stored_real mu_q
       /\ (stored_real mu_q = mu_q -> Problem.difficulty_mu_q p' = mu_q)
       /\ Problem.id p' = Problem.id p
       /\ Problem.internal_idx p' = Problem.internal_idx p
       /\ Problem.original_problem_id p' = Problem.original_problem_id p
       /\ Problem.description_placeholder p' = Problem.description_placeholder p
       /\ Problem.skill_id p' = Problem.skill_id p
       /\ get_problem_by_internal_idx problem_internal_idx db' =
          (Ok (Some p'), db')
       /\ get_problem (Problem.id p) db' = (Ok (Some p'), db')
       /\ List.length (problems db') = List.length (problems db)
       /\ skills db' = skills db
       /\ interactions db' = interactions db
       /\ students db' = students db).
Proof.
  unfold update_problem_mu_q, bind, get_problem_by_internal_idx, query.
  split.
  - intros Habs. rewrite first_filter_none; [reflexivity|].
    intros p Hp. apply Z.eqb_neq. now apply Habs.
  - intros p Hnd _ Hget. injection Hget as Hget. rewrite Hget.
    apply first_some_inv in Hget as Hp. destruct Hp as [Hp Hidx].
    unfold update_problem_row, commit, get_problem, query.
    cbn [problems set_problems].
    rewrite (first_update_same Problem.id) by reflexivity.
    rewrite (first_filter_unique Problem.id) by assumption.
    exists (with_mu_q (stored_real mu_q) p). eexists. split; [reflexivity|].
    repeat match goal with |- _ /\ _ => split end; try reflexivity.
    + intros E. exact E.
    + cbn [problems set_problems]. f_equal. f_equal.
      rewrite first_filter_map_keeps.
      * rewrite Hget. cbn [option_map]. now rewrite Z.eqb_refl.
      * intros x. now destruct (Problem.id x =? Problem.id p).
    + cbn [problems set_problems].
      rewrite (first_update_same Problem.id) by reflexivity.
      now rewrite (first_filter_unique Problem.id) by assumption.
    + cbn [problems set_problems]. apply length_map.
Qed.

Lemma update_problem_mu_q_overwrites_difficulty_witness :
  update_problem_mu_q (fun x => x) 9 0.75%float Sample.db = (Ok None, Sample.db)
  /\ exists p' db',
       update_problem_mu_q (fun x => x) 1 0.75%float Sample.db
       = (Ok (Some p'), db')
       /\ Problem.difficulty_mu_q p' = 0.75%float
       /\ Problem.skill_id p' = 2.
Proof.
  split.
  - apply (proj1 (update_problem_mu_q_overwrites_difficulty
                    (fun x => x) Sample.db 9 0.75%float)).
    intros p H. simpl in H. destruct H as [<-|[<-|[]]]; simpl; lia.
  - destruct (proj2 (update_problem_mu_q_overwrites_difficulty
                       (fun x => x) Sample.db 1 0.75%float) Sample.problem_2)
      as (p' & db' & Hrun & Hmu & _ & _ & _ & _ & _ & Hskill & _).
    + simpl. repeat constructor; simpl; intuition lia.
    + reflexivity.
    + reflexivity.
    + exists p', db'. auto.
Defined.

(** ** Interactions *)

(** The rows [get_student_interactions] sorts: what the filters leave. *)
Lemma get_student_interactions_run
  (db : DB) (student_id : Z) (limit : option nat) (sort_desc : bool)
  (start_date end_date : option datetime) (skill_id : option Z) :
  exists base,
    get_student_interactions student_id None sort_desc start_date end_date
      skill_id db =
    (Ok (if sort_desc then Store.order_by timestamp_desc base
         else Store.order_by timestamp_asc base), db)
    /\ get_student_interactions student_id limit sort_desc start_date end_date
         skill_id db =
       (Ok (match limit with
            | Some n =>
                if Nat.eqb n 0
                then (if sort_desc then Store.order_by timestamp_desc base
                      else Store.order_by timestamp_asc base)
                else firstn n (if sort_desc then Store.order_by timestamp_desc base
                               else Store.order_by timestamp_asc base)
            | None => if sort_desc then Store.order_by timestamp_desc base
                      else Store.order_by timestamp_asc base
            end), db)
    /\ (forall i, In i base ->
          In i (interactions db)
          /\ Interaction.student_id i = student_id
          /\ (forall d, start_date = Some d -> d <= Interaction.timestamp i)
          /\ (forall d, end_date = Some d -> Interaction.timestamp i <= d)
          /\ (forall k, skill_id = Some k -> k <> 0 ->
                        Interaction.skill_id i = k)).
Proof.
  unfold get_student_interactions, query.
  eexists. split; [reflexivity|]. split.
  - destruct limit as [n|]; [|reflexivity].
    unfold truthy_nat, Store.limit. now destruct (Nat.eqb n 0).
  - intros i Hi.
    assert (Hskill : In i
      (match end_date with
       | Some d => filter (fun i => Interaction.timestamp i <=? d)
       | None => fun q => q
       end
         (match start_date with
          | Some d => filter (fun i => d <=? Interaction.timestamp i)
          | None => fun q => q
          end
            (filter (fun i => Interaction.student_id i =? student_id)
                    (interactions db))))
      /\ (forall k, skill_id = Some k -> k <> 0 -> Interaction.skill_id i = k)).
    { destruct skill_id as [k|]; cbn [truthy_int] in Hi.
      - destruct (Z.eqb_spec k 0) as [->|Hk]; cbn [negb] in Hi.
        + split; [destruct start_date, end_date; exact Hi|].
          intros k' E. injection E as <-. congruence.
        + apply filter_In in Hi as [Hi Hs]. apply Z.eqb_eq in Hs.
          split; [destruct start_date, end_date; exact Hi|].
          intros k' E _. now injection E as <-.
      - split; [destruct start_date, end_date; exact Hi|]. discriminate. }
    destruct Hskill as [Hend Hskill].
    assert (Hstart : In i
      (match start_date with
       | Some d => filter (fun i => d <=? Interaction.timestamp i)
       | None => fun q => q
       end
         (filter (fun i => Interaction.student_id i =? student_id)
                 (interactions db)))
      /\ (forall d, end_date = Some d -> Interaction.timestamp i <= d)).
    { destruct end_date as [d|].
      - apply filter_In in Hend as [Hend Hd]. apply Z.leb_le in Hd.
        split; [exact Hend|]. intros d' E. now injection E as <-.
      - split; [exact Hend|]. discriminate. }
    destruct Hstart as [Hstart Hendb].
    assert (Hown : In i (filter (fun i => Interaction.student_id i =? student_id)
                                (interactions db))
      /\ (forall d, start_date = Some d -> d <= Interaction.timestamp i)).
    { destruct start_date as [d|].
      - apply filter_In in Hstart as [Hstart Hd]. apply Z.leb_le in Hd.
        split; [exact Hstart|]. intros d' E. now injection E as <-.
      - split; [exact Hstart|]. discriminate. }
    destruct Hown as [Hown Hstartb].
    apply filter_In in Hown as [Hin Hsid]. apply Z.eqb_eq in Hsid.
    auto.
Qed.

(** X14. Whatever the arguments, [get_student_interactions] returns rows of
    the table that belong to the student, lie within the date bounds that
    are supplied and, when a [skill_id] other than [0] is supplied, are in
    that skill; the rows are in timestamp order, newest first or oldest
    first as asked.  A [limit] other than [0] keeps the first [limit] rows
    of the result without a limit; a [limit] of [0] is taken as no limit. *)
Theorem get_student_interactions_sound
  (db : DB) (student_id : Z) (limit : option nat) (sort_desc : bool)
  (start_date end_date : option datetime) (skill_id : option Z) :
  exists l all,
    get_student_interactions student_id limit sort_desc start_date end_date
      skill_id db = (Ok l, db)
    /\ get_student_interactions student_id None sort_desc start_date end_date
         skill_id db = (Ok all, db)
    /\ (forall i, In i l ->
          In i (interactions db)
          /\ Interaction.student_id i = student_id
          /\ (forall d, start_date = Some d -> d <= Interaction.timestamp i)
          /\ (forall d, end_date = Some d -> Interaction.timestamp i <= d)
          /\ (forall k, skill_id = Some k -> k <> 0 ->
                        Interaction.skill_id i = k))
    /\ StronglySorted (in_order sort_desc) l
    /\ (forall n, limit = Some n -> n <> 0%nat ->
                  l = firstn n all /\ (List.length l <= n)%nat)
    /\ (limit = None \/ limit = Some 0%nat -> l = all).
Proof.
  destruct (get_student_interactions_run db student_id limit sort_desc
              start_date end_date skill_id) as (base & Hall & Hrun & Hbase).
  set (all := if sort_desc then Store.order_by timestamp_desc base
              else Store.order_by timestamp_asc base) in *.
  assert (Hin : forall i, In i all -> In i base).
  { intros i Hi. unfold all in Hi. destruct sort_desc;
      now apply order_by_In in Hi. }
  assert (Hsorted : StronglySorted (in_order sort_desc) all)
    by apply order_by_timestamp_sorted.
  eexists _, all. split; [exact Hrun|]. split; [exact Hall|].
  destruct limit as [n|]; [destruct (Nat.eqb_spec n 0) as [->|Hn]|].
  - repeat match goal with |- _ /\ _ => split end; auto.
    intros n E. injection E as <-. congruence.
  - repeat match goal with |- _ /\ _ => split end.
    + intros i Hi. apply firstn_incl in Hi. auto.
    + now apply firstn_sorted.
    + intros n' E _. injection E as <-. split; [reflexivity|].
      apply firstn_le_length.
    + intros [E|E]; [discriminate|]. injection E as E. contradiction.
  - repeat match goal with |- _ /\ _ => split end; auto.
    discriminate.
Qed.

Lemma get_student_interactions_sound_witness :
  exists l all,
    get_student_interactions 1 (Some 2%nat) false None None None Sample.db
    = (Ok l, Sample.db)
    /\ get_student_interactions 1 None false None None None Sample.db
       = (Ok all, Sample.db)
    /\ l = firstn 2 all /\ (List.length l <= 2)%nat.
Proof.
  destruct (get_student_interactions_sound
              Sample.db 1 (Some 2%nat) false None None None)
    as (l & all & Hrun & Hall & _ & _ & Hlimit & _).
  exists l, all. split; [exact Hrun|]. split; [exact Hall|].
  apply (Hlimit 2%nat eq_refl). discriminate.
Defined.

Lemma get_student_statistics_total
  (isoformat : datetime -> string) (student_id : Z) (db : DB) (s : Student.t)
  (d : dict) :
  get_student student_id db = (Ok (Some s), db) ->
  get_student_statistics isoformat student_id db = (Ok d, db) ->
  get d "total_interactions" =
  Some (VInt (Store.count
                (filter (fun i => Interaction.student_id i =? student_id)
                        (interactions db)))).
Proof.
  intros Hget Hd. unfold get_student_statistics, bind in Hd.
  rewrite Hget in Hd. unfold query in Hd. injection Hd as <-. reflexivity.
Qed.

(** X15. An interaction that [create_interaction] accepts can be read back:
    [get_interaction] on the key of the row returned gives that row, the
    unfiltered list of the student's interactions holds it and is one row
    longer than before, and, for a student that exists, the
    ["total_interactions"] of [get_student_statistics] goes up by one.  The
    classes, skills and problems are untouched. *)
Theorem create_interaction_then_read
  (isoformat : datetime -> string) (now : datetime) (db : DB)
  (interaction : InteractionCreate.t) (student_id : Z) (p : Problem.t) :
  get_problem (InteractionCreate.problem_db_id interaction) db = (Ok (Some p), db) ->
  Problem.skill_id p = InteractionCreate.skill_db_id interaction ->
  exists i db',
    create_interaction now interaction student_id db = (Ok i, db')
    /\ get_interaction (Interaction.id i) db' = (Ok (Some i), db')
    /\ (forall sort_desc before after,
          get_student_interactions student_id None sort_desc None None None db
          = (Ok before, db) ->
          get_student_interactions student_id None sort_desc None None None db'
          = (Ok after, db') ->
          In i after /\ List.length after = S (List.length before))
    /\ (forall s d d' n,
          get_student student_id db = (Ok (Some s), db) ->
          get_student_statistics isoformat student_id db = (Ok d, db) ->
          get_student_statistics isoformat student_id db' = (Ok d', db') ->
          get d "total_interactions" = Some (VInt n) ->
          get d' "total_interactions" = Some (VInt (n + 1)))
    /\ classes db' = classes db
    /\ skills db' = skills db
    /\ problems db' = problems db.
Proof.
  intros Hget Hskill.
  set (i := new_interaction interaction student_id db).
  set (db' := after_create_interaction interaction student_id db).
  assert (Hown : filter (fun j => Interaction.student_id j =? student_id)
                        (interactions db') =
                 (filter (fun j => Interaction.student_id j =? student_id)
                         (interactions db) ++ [i])%list).
  { cbn [db' after_create_interaction interactions set_students set_interactions].
    rewrite filter_app. cbn [filter]. fold i.
    change (Interaction.student_id i) with student_id.
    now rewrite Z.eqb_refl. }
  exists i, db'.
  split.
  { rewrite create_interaction_run, Hget. cbn [fst].
    apply Z.eqb_eq in Hskill. now rewrite Hskill. }
  split.
  { unfold get_interaction, query.
    cbn [db' after_create_interaction interactions set_students set_interactions].
    fold i. rewrite first_filter_app_fresh; auto.
    - intros j Hj. apply Z.eqb_neq.
      apply (in_map Interaction.id), fresh_id_above in Hj.
      unfold i, new_interaction. cbn [Interaction.id]. lia.
    - apply Z.eqb_refl. }
  split.
  { intros sort_desc before after Hbefore Hafter.
    unfold get_student_interactions, query in Hbefore, Hafter.
    cbn [truthy_int] in Hbefore, Hafter.
    injection Hbefore as <-. injection Hafter as <-.
    pose proof Hown as Hown'.
    cbn [db' after_create_interaction interactions set_students set_interactions]
      in Hown'.
    rewrite Hown'. destruct sort_desc.
    - split.
      + apply order_by_In, in_or_app. right. now left.
      + rewrite !(Permutation_length (order_by_perm _ _)), length_app.
        simpl. lia.
    - split.
      + apply order_by_In, in_or_app. right. now left.
      + rewrite !(Permutation_length (order_by_perm _ _)), length_app.
        simpl. lia. }
  split.
  { intros s d d' n Hs Hd Hd' Hn.
    assert (Hs' : get_student student_id db' =
                  (Ok (Some (with_last_interaction
                               (InteractionCreate.timestamp interaction) s)), db')).
    { unfold get_student, query in *. injection Hs as Hs.
      cbn [db' after_create_interaction students set_students set_interactions].
      rewrite (first_update_same Student.id) by reflexivity. now rewrite Hs. }
    rewrite (get_student_statistics_total _ _ _ _ _ Hs Hd) in Hn.
    rewrite (get_student_statistics_total _ _ _ _ _ Hs' Hd').
    injection Hn as <-. rewrite Hown. unfold Store.count.
    rewrite length_app. simpl. do 2 f_equal. lia. }
  repeat split.
Qed.

Lemma create_interaction_then_read_witness :
  exists i db',
    create_interaction 0 (InteractionCreate.mk 2 2 true 5000) 4 Sample.db
    = (Ok i, db')
    /\ get_interaction (Interaction.id i) db' = (Ok (Some i), db').
Proof.
  destruct (create_interaction_then_read
              Sample.isoformat 0 Sample.db (InteractionCreate.mk 2 2 true 5000) 4
              Sample.problem_2 eq_refl eq_refl)
    as (i & db' & Hrun & Hread & _).
  exists i, db'. auto.
Defined.

Lemma skill_consistent_ext (db db' : DB) :
  problems db' = problems db ->
  (forall i, In i (interactions db') -> In i (interactions db)) ->
  skill_consistent db -> skill_consistent db'.
Proof.
  intros Hp Hi Hcons i Hin. destruct (Hcons i (Hi i Hin)) as (p & Hget & Hs).
  exists p. split; [|exact Hs].
  unfold get_problem, query in *. rewrite Hp. injection Hget as Hget.
  now rewrite Hget.
Qed.

Lemma skill_consistent_create_interaction
  (now : datetime) (interaction : InteractionCreate.t) (student_id : Z) (db : DB) :
  skill_consistent db ->
  skill_consistent (snd (create_interaction now interaction student_id db)).
Proof.
  intros Hcons. rewrite create_interaction_run.
  destruct (fst (get_problem _ db)) as [[p|]|e] eqn:Hget; try exact Hcons.
  destruct (Z.eqb_spec (Problem.skill_id p)
                       (InteractionCreate.skill_db_id interaction)) as [Hs|Hs];
    [|exact Hcons].
  cbn [snd]. intros i Hi.
  cbn [after_create_interaction interactions set_students set_interactions] in Hi.
  apply in_app_or in Hi as [Hi|[<-|[]]].
  - destruct (Hcons i Hi) as (q & Hq & Hqs). exists q. split; [|exact Hqs].
    unfold get_problem, query in *. injection Hq as Hq.
    cbn [after_create_interaction problems set_students set_interactions].
    now rewrite Hq.
  - exists p. split; [|exact Hs].
    unfold get_problem, query in *. cbn [fst] in Hget. injection Hget as Hget.
    cbn [new_interaction Interaction.problem_id after_create_interaction
         problems set_students set_interactions].
    now rewrite Hget.
Qed.

(** X16. The writes keep the invariant of the interaction table.  If every
    interaction names a problem that is found and that belongs to the skill
    the interaction names, the same holds after [create_interaction] and
    after [create_interaction_from_csv], whether they accept the row or not,
    after [update_problem_mu_q], after [delete_student] and after
    [delete_class]. *)
Theorem writes_keep_skill_consistent (db : DB) :
  skill_consistent db ->
  (forall now interaction student_id,
     skill_consistent (snd (create_interaction now interaction student_id db)))
  /\ (forall now csv_row student_id,
        skill_consistent
          (snd (create_interaction_from_csv now csv_row student_id db)))
  /\ (forall stored_real problem_internal_idx mu_q,
        skill_consistent
          (snd (update_problem_mu_q stored_real problem_internal_idx mu_q db)))
  /\ (forall now student_id,
        skill_consistent (snd (delete_student now student_id db)))
  /\ (forall class_id, skill_consistent (snd (delete_class class_id db))).
Proof.
  intros Hcons. repeat match goal with |- _ /\ _ => split end.
  - intros. now apply skill_consistent_create_interaction.
  - intros now csv_row student_id. rewrite create_interaction_from_csv_run.
    destruct (fst (get_problem_by_original_id _ db)) as [[p|]|e]; try exact Hcons.
    destruct (fst (get_skill_by_original_id _ db)) as [[k|]|e]; try exact Hcons.
    pose proof (skill_consistent_create_interaction now
                  (InteractionCreate.mk (Problem.id p) (Skill.id k)
                     (InteractionCSVRow.is_correct csv_row)
                     (InteractionCSVRow.timestamp csv_row))
                  student_id db Hcons) as H.
    destruct (create_interaction _ _ _ _) as [[i|e] db']; exact H.
  - intros stored_real idx mu_q.
    unfold update_problem_mu_q, bind, get_problem_by_internal_idx, query.
    destruct (Store.first _) as [p|]; [|exact Hcons].
    unfold update_problem_row, commit, get_problem, query. cbn [snd].
    intros i Hi. cbn [interactions set_problems] in Hi.
    destruct (Hcons i Hi) as (q & Hq & Hqs).
    exists (if Problem.id q =? Problem.id p
            then with_mu_q (stored_real mu_q) q else q).
    split.
    + unfold get_problem, query in *. injection Hq as Hq.
      cbn [problems set_problems]. rewrite first_filter_map_keeps.
      * now rewrite Hq.
      * intros x. now destruct (Problem.id x =? Problem.id p).
    + now destruct (Problem.id q =? Problem.id p).
  - intros now student_id. rewrite delete_student_run. cbn [snd].
    now apply (skill_consistent_ext db).
  - intros class_id. rewrite delete_class_run.
    destruct (fst (get_class class_id db)) as [[c|]|e]; try exact Hcons.
    destruct (0 <? _); [exact Hcons|]. cbn [snd].
    now apply (skill_consistent_ext db).
Qed.

Lemma writes_keep_skill_consistent_witness :
  skill_consistent
    (snd (create_interaction 0 (InteractionCreate.mk 2 2 true 5000) 4 Sample.db)).
Proof.
  apply (writes_keep_skill_consistent Sample.db).
  intros i H. simpl in H.
  destruct H as [<-|[<-|[<-|[<-|[]]]]].
  - exists Sample.problem_1. split; reflexivity.
  - exists Sample.problem_2. split; reflexivity.
  - exists Sample.problem_1. split; reflexivity.
  - exists Sample.problem_2. split; reflexivity.
Defined.

(** X17. [create_interaction_from_csv] records the row when both original
    identifiers resolve and the problem belongs to the skill: with unique
    problem keys it returns an interaction that carries the keys of the
    problem and the skill found, the [student_id], the correctness flag and
    the timestamp of the row, appends it to the table, and sets the
    [last_interaction_update_timestamp] of the student to the timestamp of
    the row. *)
Theorem create_interaction_from_csv_records
  (now : datetime) (db : DB) (csv_row : InteractionCSVRow.t) (student_id : Z)
  (p : Problem.t) (k : Skill.t) :
  NoDup (map Problem.id (problems db)) ->
  get_problem_by_original_id (InteractionCSVRow.problem_original_id csv_row) db
  = (Ok (Some p), db) ->
  get_skill_by_original_id (InteractionCSVRow.skill_original_id csv_row) db
  = (Ok (Some k), db) ->
  Problem.skill_id p = Skill.id k ->
  exists i db',
    create_interaction_from_csv now csv_row student_id db = (Ok (Some i), db')
    /\ Interaction.problem_id i = Problem.id p
    /\ Interaction.skill_id i = Skill.id k
    /\ Interaction.student_id i = student_id
    /\ Interaction.is_correct i = InteractionCSVRow.is_correct csv_row
    /\ Interaction.timestamp i = InteractionCSVRow.timestamp csv_row
    /\ interactions db' = (interactions db ++ [i])%list
    /\ (forall s, In s (students db') -> Student.id s = student_id ->
                  Student.last_interaction_update_timestamp s =
                  Some (InteractionCSVRow.timestamp csv_row)).
Proof.
  intros Hnd Hp Hk Hskill.
  assert (Hin : In p (problems db)).
  { unfold get_problem_by_original_id, query in Hp. injection Hp as Hp.
    now apply first_some_inv in Hp. }
  rewrite create_interaction_from_csv_run, Hp, Hk. cbn [fst].
  rewrite create_interaction_run.
  cbn [InteractionCreate.problem_db_id InteractionCreate.skill_db_id].
  unfold get_problem, query. cbn [fst].
  rewrite (first_filter_unique Problem.id) by assumption.
  apply Z.eqb_eq in Hskill. rewrite Hskill.
  eexists _, _. split; [reflexivity|].
  repeat match goal with |- _ /\ _ => split end; try reflexivity.
  intros s Hs Hid.
  cbn [after_create_interaction students set_students set_interactions] in Hs.
  apply in_map_iff in Hs as (r & Hr & _).
  destruct (Student.id r =? student_id) eqn:E; subst s; [reflexivity|].
  apply Z.eqb_neq in E. contradiction.
Qed.

Lemma create_interaction_from_csv_records_witness :
  exists i db',
    create_interaction_from_csv 0 (InteractionCSVRow.mk "P-2" "S-MUL" true 5000) 1
      Sample.db = (Ok (Some i), db')
    /\ Interaction.problem_id i = 2 /\ Interaction.skill_id i = 2.
Proof.
  destruct (create_interaction_from_csv_records
              0 Sample.db (InteractionCSVRow.mk "P-2" "S-MUL" true 5000) 1
              Sample.problem_2 Sample.multiplication)
    as (i & db' & Hrun & Hp & Hs & _).
  - simpl. repeat constructor; simpl; intuition lia.
  - reflexivity.
  - reflexivity.
  - reflexivity.
  - exists i, db'. auto.
Defined.

(** ** Aggregation, continued *)

Lemma count_distinct_le (l : list Z) :
  0 <= count_distinct l <= Store.count l.
Proof.
  unfold count_distinct, Store.count. split; [lia|].
  apply inj_le, NoDup_incl_length; [apply NoDup_nodup|].
  intros x Hx. now apply nodup_In in Hx.
Qed.

Lemma count_distinct_pos (l : list Z) :
  l <> [] -> 1 <= count_distinct l.
Proof.
  intros Hne. unfold count_distinct, Store.count.
  destruct l as [|x l]; [contradiction|].
  assert (Hin : In x (nodup Z.eq_dec (x :: l))) by (apply nodup_In; now left).
  destruct (nodup Z.eq_dec (x :: l)); [contradiction|]. simpl. lia.
Qed.

Lemma fold_max_bounds (x : Z) (l : list Z) :
  In (fold_right Z.max x l) (x :: l)
  /\ (forall y, In y (x :: l) -> y <= fold_right Z.max x l).
Proof.
  induction l as [|a l [IHin IHle]]; cbn [fold_right].
  - split; [now left|]. intros y [<-|[]]. lia.
  - split.
    + destruct (Z.max_spec a (fold_right Z.max x l)) as [[_ ->]|[_ ->]].
      * destruct IHin as [E|Hin]; [left; exact E|right; right; exact Hin].
      * right. now left.
    + intros y [<-|[<-|Hy]].
      * specialize (IHle x (or_introl eq_refl)). lia.
      * lia.
      * specialize (IHle y (or_intror Hy)). lia.
Qed.

Lemma max_of_bounds (l : list Z) (m : Z) :
  max_of l = Some m -> In m l /\ (forall y, In y l -> y <= m).
Proof.
  destruct l as [|x l]; [discriminate|]. cbn [max_of]. intros E.
  injection E as <-. apply fold_max_bounds.
Qed.

(** X18. For a student that exists the figures of [get_student_statistics]
    fit together: the correct and the incorrect interactions are each
    between [0] and the total and add up to it; the distinct skills and the
    distinct problems are at most the total, and at least one as soon as
    there is an interaction; without interactions ["last_activity"] is
    [None], and with interactions it is the timestamp, in ISO format, of one
    of the student's interactions that none of them exceeds. *)
Theorem get_student_statistics_figures
  (isoformat : datetime -> string) (db : DB) (student_id : Z) (s : Student.t) :
  get_student student_id db = (Ok (Some s), db) ->
  exists d total correct skills_practiced problems_attempted,
    get_student_statistics isoformat student_id db = (Ok d, db)
    /\ get d "total_interactions" = Some (VInt total)
    /\ get d "correct_interactions" = Some (VInt correct)
    /\ get d "incorrect_interactions" = Some (VInt (total - correct))
    /\ get d "skills_practiced" = Some (VInt skills_practiced)
    /\ get d "problems_attempted" = Some (VInt problems_attempted)
    /\ 0 <= correct <= total
    /\ 0 <= total - correct <= total
    /\ 0 <= skills_practiced <= total
    /\ 0 <= problems_attempted <= total
    /\ (0 < total -> 1 <= skills_practiced /\ 1 <= problems_attempted)
    /\ (total = 0 -> get d "last_activity" = Some VNone)
    /\ (0 < total ->
        exists i,
          In i (interactions db)
          /\ Interaction.student_id i = student_id
          /\ get d "last_activity" = Some (VStr (isoformat (Interaction.timestamp i)))
          /\ (forall j, In j (interactions db) ->
                        Interaction.student_id j = student_id ->
                        Interaction.timestamp j <= Interaction.timestamp i)).
Proof.
  intros Hget. unfold get_student_statistics, bind. rewrite Hget. unfold query.
  set (own := filter (fun i => Interaction.student_id i =? student_id)
                     (interactions db)).
  set (right := filter (fun i => (Interaction.student_id i =? student_id)
                                 && Bool.eqb (Interaction.is_correct i) true)%bool
                       (interactions db)).
  assert (Hright : 0 <= Store.count right <= Store.count own).
  { unfold Store.count. split; [lia|]. apply inj_le.
    unfold right, own. rewrite <- filter_filter_andb. apply filter_length_le. }
  assert (Hskills := count_distinct_le (map Interaction.skill_id own)).
  assert (Hproblems := count_distinct_le (map Interaction.problem_id own)).
  assert (Hlen : forall f : Interaction.t -> Z,
                   Store.count (map f own) = Store.count own).
  { intros f. unfold Store.count. now rewrite length_map. }
  rewrite !Hlen in *.
  eexists _, (Store.count own), (Store.count right),
    (count_distinct (map Interaction.skill_id own)),
    (count_distinct (map Interaction.problem_id own)).
  split; [reflexivity|].
  cbn [get String.eqb Ascii.eqb Bool.eqb].
  repeat match goal with |- _ /\ _ => split end; try reflexivity; try lia.
  - intros Hpos.
    assert (Hne : own <> []).
    { intros E. rewrite E in Hpos. cbn in Hpos. lia. }
    split; apply count_distinct_pos; intros E; apply map_eq_nil in E;
      contradiction.
  - intros Hzero. destruct (max_of _) as [m|] eqn:E; [|reflexivity].
    apply max_of_bounds in E as [Hin _].
    apply in_map_iff in Hin as (i & _ & Hi).
    assert (Hne : own <> []) by (intros E; rewrite E in Hi; contradiction).
    exfalso. apply Hne. unfold Store.count in Hzero.
    destruct own; [reflexivity|simpl in Hzero; lia].
  - intros Hpos.
    destruct (max_of (map Interaction.timestamp own)) as [m|] eqn:E.
    + apply max_of_bounds in E as [Hin Hmax].
      apply in_map_iff in Hin as (i & <- & Hi).
      apply filter_In in Hi as [Hi Hsid]. apply Z.eqb_eq in Hsid.
      exists i. repeat split; auto.
      intros j Hj Hjs. apply Hmax, in_map, filter_In. split; [assumption|].
      now apply Z.eqb_eq.
    + apply max_of_map_none in E. rewrite E in Hpos. cbn in Hpos. lia.
Qed.

Lemma get_student_statistics_figures_witness :
  exists d,
    get_student_statistics Sample.isoformat 1 Sample.db = (Ok d, Sample.db)
    /\ get d "last_activity" = Some (VStr "2000").
Proof.
  destruct (get_student_statistics_figures Sample.isoformat Sample.db 1 Sample.ada
              eq_refl)
    as (d & t & c & sp & pa & Hrun & _).
  exists d. split; [exact Hrun|].
  vm_compute in Hrun. injection Hrun as <-. reflexivity.
Defined.

(** X19. The dashboard and the listing agree: each row of
    [get_classes_for_dashboard] is the row of a class of the teacher, and
    its ["student_count"] is the number of students that
    [get_students_by_class] returns for that class when the page covers the
    table. *)
Theorem get_classes_for_dashboard_counts_listing
  (db : DB) (teacher_id : Z) (limit : nat) :
  exists rows,
    get_classes_for_dashboard teacher_id limit db = (Ok rows, db)
    /\ forall row, In row rows ->
         exists c listed,
           In c (classes db)
           /\ Class_.teacher_id c = teacher_id
           /\ get row "id" = Some (VInt (Class_.id c))
           /\ get row "name" = Some (VStr (Class_.name c))
           /\ get_students_by_class (Class_.id c) 0
                (List.length (students db)) db = (Ok listed, db)
           /\ get row "student_count" =
              Some (VInt (Z.of_nat (List.length listed))).
Proof.
  eexists. split; [apply get_classes_for_dashboard_run|].
  intros row Hrow. apply in_map_iff in Hrow as (c & <- & Hc).
  apply firstn_incl, order_by_In, filter_In in Hc as [Hc Ht].
  apply Z.eqb_eq in Ht.
  exists c. eexists. split; [exact Hc|]. split; [exact Ht|].
  split; [reflexivity|]. split; [reflexivity|].
  split; [reflexivity|].
  unfold dashboard_row. cbn [get String.eqb Ascii.eqb Bool.eqb].
  do 3 f_equal. unfold Store.limit, Store.offset, Student_has_is_deleted.
  cbn [skipn]. rewrite firstn_all2.
  - unfold active_students_of. now rewrite filter_filter_andb.
  - etransitivity; [apply filter_length_le|]. apply filter_length_le.
Qed.

(** ** Search, continued *)

Lemma ilike_empty_query (name : string) : Store.ilike name ("%" ++ "" ++ "%") = true.
Proof.
  unfold Store.ilike. rewrite pattern_chars. cbn [list_ascii_of_string Store.lower
    map Store.chars app].
  apply like_percent_iff.
  exists [], (Store.chars (Store.lower (list_ascii_of_string name))).
  split; [reflexivity|apply like_percent_all].
Qed.

(** X20. [search_students_in_class] returns at most [limit] students, each
    a student of the class whose first or last name can be cut into pieces
    that fit the pattern ["%query%"], a ["%"] standing for any run of
    characters and a ["_"] for any one character.  With the empty query the
    pattern fits every name: the call returns the page of all students of
    the class, the soft-deleted ones included, so it lists at least the
    students that [get_students_by_class] lists. *)
Theorem search_students_in_class_empty_query (db : DB) (class_id : Z) :
  (forall q skip limit, exists page,
     search_students_in_class class_id q skip limit db = (Ok page, db)
     /\ (List.length page <= limit)%nat
     /\ (forall s, In s page ->
           In s (students db) /\ Student.class_id s = class_id
           /\ (name_matches q (Student.first_name s)
               \/ name_matches q (Student.last_name s))))
  /\
  (forall skip limit,
     search_students_in_class class_id "" skip limit db =
     (Ok (firstn limit
            (skipn skip
               (filter (fun s => Student.class_id s =? class_id) (students db)))),
      db))
  /\
  (forall s listed found,
     get_students_by_class class_id 0 (List.length (students db)) db
     = (Ok listed, db) ->
     search_students_in_class class_id "" 0 (List.length (students db)) db
     = (Ok found, db) ->
     In s listed -> In s found).
Proof.
  assert (Hempty : forall skip limit,
    search_students_in_class class_id "" skip limit db =
    (Ok (firstn limit
           (skipn skip
              (filter (fun s => Student.class_id s =? class_id) (students db)))),
     db)).
  { intros skip limit. unfold search_students_in_class, query.
    unfold Store.limit, Store.offset. do 4 f_equal.
    apply filter_ext. intros s. rewrite !ilike_empty_query.
    now rewrite andb_true_r. }
  split; [|split].
  - intros q skip limit. unfold search_students_in_class, query.
    eexists. split; [reflexivity|]. split; [apply firstn_le_length|].
    intros s Hs. apply page_incl, filter_In in Hs as [Hs Hm].
    apply andb_true_iff in Hm as [Hc Hm]. apply Z.eqb_eq in Hc.
    apply orb_true_iff in Hm. rewrite !ilike_matches in Hm. auto.
  - exact Hempty.
  - intros s listed found Hlisted Hfound Hs.
    rewrite Hempty in Hfound. injection Hfound as <-.
    unfold get_students_by_class, query, Student_has_is_deleted in Hlisted.
    injection Hlisted as <-.
    apply firstn_incl, filter_In in Hs as [Hs _].
    cbn [skipn]. rewrite firstn_all2; [exact Hs|apply filter_length_le].
Qed.

Lemma search_students_in_class_empty_query_witness :
  search_students_in_class 1 "" 0 4 Sample.db
  = (Ok [Sample.ada; Sample.bob], Sample.db)
  /\ In Sample.ada [Sample.ada; Sample.bob].
Proof.
  split.
  - apply (proj1 (proj2 (search_students_in_class_empty_query Sample.db 1))
             0%nat 4%nat).
  - apply (proj2 (proj2 (search_students_in_class_empty_query Sample.db 1))
             Sample.ada [Sample.ada] [Sample.ada; Sample.bob]).
    + reflexivity.
    + reflexivity.
    + simpl; auto.
Defined.
